(** * Persistence and cleaning layer of the recommendation engine

    A shallow embedding of [src/database.py] (class [DatabaseManager] and
    [initialize_database]) and [src/preprocess.py] (class [DataPreprocessor]),
    together with the part of the SQLite and pandas behaviour these two files
    rely on, followed by the properties of the ingest-and-normalise pipeline.

    Conventions of the embedding:
    - a Python method is a computation in the monad [M]: it reads and writes
      the manager object ([self.connection]) and the world (the database file,
      the open connection handles), and either returns or raises;
    - the outcome of the operations the program cannot control (opening the
      file, the PRAGMA, a commit, a read query) is given by [fails], indexed
      by the number of such operations performed so far; DML statements fail
      only for the reasons the schema gives them;
    - the pseudo-random generator is the stream [rand];
    - a float is the rational it denotes, NaN apart ([PyNaN]); an integer
      that pandas or SQLite turns into a float keeps its value (exact up to
      2^53 in magnitude);
    - a frame is given by the cells pandas holds, and the dtype of a column
      is read off its cells;
    - [print] calls are left out of the database model, with the two
      counters that are only printed ([items_inserted], [ratings_created])
      and the creation of the [data] directory; [clean_data] records its
      prints, with its column accesses, in a trace.

    SQLite is modelled as far as the three tables of [create_tables] need:
    NOT NULL, CHECK, UNIQUE and PRIMARY KEY constraints obey the conflict
    clause of the statement (a plain INSERT aborts, INSERT OR IGNORE skips
    the row and reports nothing), foreign keys do not; a value is stored as
    the affinity of its column makes it, a BLOB as it is; AUTOINCREMENT
    never hands out a key twice; what a connection wrote is in the file after its
    commit, and lost when it closes before. *)

From Stdlib Require Import ZArith QArith String List Bool Lia.
From stdpp Require Import base option list gmap strings.

Local Open Scope Z_scope.

(** ** Python values *)

(** What a cell of a [DataFrame], a default of [row.get] or a statement
    parameter can be.  [PyNaN] is the float pandas uses for a missing cell.
    [PyBuffer b] is an object that is no [int], [float] or [str] and hands
    out the bytes [b] through the buffer protocol: a [bytes] object, or the
    [numpy.int64] a row of an all-integer frame holds.  [PyOpaque] stands
    for an object that is none of these (a list, a dict): [sqlite3] cannot
    bind it. *)
Inductive pyval : Type :=
  | PyNone
  | PyNaN
  | PyInt (z : Z)
  | PyFloat (q : Q)
  | PyStr (s : string)
  | PyOpaque
  | PyBuffer (b : list Z).

(** [in_int64 z]: [z] fits a signed 64-bit integer. *)
Definition in_int64 (z : Z) : bool := (- 2 ^ 63 <=? z) && (z <? 2 ^ 63).

(** The eight bytes of a 64-bit integer in two's complement, least
    significant first: the buffer of a [numpy.int64]. *)
Definition int64_bytes (z : Z) : list Z :=
  map (fun i => Z.land (Z.shiftr z (8 * i)) 255) [0; 1; 2; 3; 4; 5; 6; 7].

(** The double-quote character, for the messages that contain it. *)
Definition dquote : string := String (Ascii.ascii_of_nat 34) EmptyString.

(** [pandas.isnull] on a scalar. *)
Definition isnull (v : pyval) : bool :=
  match v with
  | PyNone | PyNaN => true
  | _ => false
  end.

Inductive exn : Type :=
  | OperationalError      (* sqlite3: cannot open, no such table, I/O *)
  | IntegrityError        (* sqlite3: constraint violation *)
  | ProgrammingError      (* sqlite3: unsupported parameter, closed handle *)
  | DatabaseError         (* pandas.errors.DatabaseError *)
  | ParserError           (* pandas: unreadable CSV *)
  | ValueError (msg : string)
  | TypeError
  | KeyError (key : string)
  | PlainException (msg : string)
  | OverflowError (msg : string).

(** Membership in the class [sqlite3.Error]. *)
Definition is_sqlite_error (e : exn) : bool :=
  match e with
  | OperationalError | IntegrityError | ProgrammingError => true
  | _ => false
  end.

(** Every exception of the model derives from [Exception]. *)
Definition is_exception (e : exn) : bool := true.

Inductive outcome (A : Type) : Type :=
  | Ret (a : A)
  | Raise (e : exn).
Arguments Ret {A} a.
Arguments Raise {A} e.

(** ** The store: three relations of [create_tables] *)

Module Sql.

Inductive sqlval : Type :=
  | SqlNull
  | SqlInt (z : Z)
  | SqlReal (q : Q)
  | SqlText (s : string)
  | SqlBlob (b : list Z).

Definition is_sql_null (v : sqlval) : bool :=
  match v with SqlNull => true | _ => false end.

Record user_row : Type := mk_user { u_id : Z; u_name : string }.

Record item_row : Type := mk_item {
  i_id : Z;
  i_title : sqlval;
  i_genre : sqlval;
  i_year : sqlval;
  i_description : sqlval
}.

Record rating_row : Type := mk_rating {
  r_user_id : Z;
  r_item_id : Z;
  r_rating : Q
}.

(** A table that was never created is [None].  The two [_seq] fields are
    the rows of [sqlite_sequence] kept for the AUTOINCREMENT keys. *)
Record DB : Type := mk_db {
  users : option (list user_row);
  users_seq : Z;
  items : option (list item_row);
  items_seq : Z;
  ratings : option (list rating_row)
}.

(** A database file before any statement ran on it. *)
Definition empty_db : DB :=
  {| users := None; users_seq := 0; items := None; items_seq := 0;
     ratings := None |}.

(** The file once the three tables exist and hold nothing. *)
Definition fresh_db : DB :=
  {| users := Some []; users_seq := 0; items := Some []; items_seq := 0;
     ratings := Some [] |}.

(** Conflict clause of an INSERT: plain [INSERT] aborts the statement,
    [INSERT OR IGNORE] skips the offending row and reports nothing. *)
Inductive conflict : Type := OnAbort | OnIgnore.

Inductive stmt_result : Type :=
  | Done (db : DB)
  | Failed (e : exn).

Definition max_id (ids : list Z) : Z := fold_right Z.max 0 ids.

(** The key AUTOINCREMENT hands out: one more than the largest key the
    table ever used. *)
Definition next_rowid (seq : Z) (ids : list Z) : Z :=
  Z.max seq (max_id ids) + 1.

End Sql.

Import Sql.

(** ** The world and the manager object *)

(** An open connection: its view of the database (the file as it was when
    the connection was opened, plus the connection's own uncommitted
    changes) and whether it enforces foreign keys. *)
Record Conn : Type := mk_conn { view : DB; foreign_keys : bool }.

(** [disk] is the database file the manager's [db_path] names, [conns] the
    handles [sqlite3.connect] returned and nobody closed, [clock] the
    number of operations on the environment so far and [draws] the number
    of pseudo-random draws so far. *)
Record World : Type := mk_world {
  disk : DB;
  conns : gmap nat Conn;
  next_handle : nat;
  clock : nat;
  draws : nat
}.

(** The fields of a [DatabaseManager] instance. *)
Record DatabaseManager : Type := mk_manager {
  db_path : string;
  connection : option nat
}.

Definition State : Type := DatabaseManager * World.

(** Computations over a state [S] that return or raise. *)
Definition Mon (S A : Type) : Type := S -> outcome A * S.

(** The methods of the manager run over the manager and the world. *)
Definition M (A : Type) : Type := Mon State A.

Definition ret {S A : Type} (a : A) : Mon S A := fun st => (Ret a, st).

Definition raise {S A : Type} (e : exn) : Mon S A := fun st => (Raise e, st).

Definition bind {S A B : Type} (c : Mon S A) (k : A -> Mon S B) : Mon S B :=
  fun st =>
    match c st with
    | (Ret a, st') => k a st'
    | (Raise e, st') => (Raise e, st')
    end.

(** [try: body / except E: handler], [E] given by the test [catches]. *)
Definition try_except {S A : Type} (catches : exn -> bool)
    (body : Mon S A) (handler : exn -> Mon S A) : Mon S A :=
  fun st =>
    match body st with
    | (Ret a, st') => (Ret a, st')
    | (Raise e, st') =>
        if catches e then handler e st' else (Raise e, st')
    end.

(** [try: body / finally: final]. *)
Definition try_finally {S A : Type} (body : Mon S A) (final : Mon S unit)
  : Mon S A :=
  fun st =>
    match body st with
    | (r, st') =>
        match final st' with
        | (Ret _, st'') => (r, st'')
        | (Raise e, st'') => (Raise e, st'')
        end
    end.

Definition lift_outcome {S A : Type} (o : outcome A) : Mon S A :=
  fun st => (o, st).

Declare Scope py_scope.
Delimit Scope py_scope with py.
Notation "x <~ c ;; k" := (bind c (fun x => k))
  (at level 100, c at next level, k at level 200, right associativity)
  : py_scope.
Notation "c ;; k" := (bind c (fun _ => k))
  (at level 100, k at level 200, right associativity) : py_scope.
Local Open Scope py_scope.

(** A [for] loop whose body may raise: the first exception leaves the loop. *)
Fixpoint for_each {S A : Type} (l : list A) (body : A -> Mon S unit)
  : Mon S unit :=
  match l with
  | [] => ret tt
  | x :: l' => body x ;; for_each l' body
  end.

Definition get_connection : M (option nat) :=
  fun st => (Ret (connection (fst st)), st).

Definition set_connection (c : option nat) : M unit :=
  fun st => (Ret tt, (mk_manager (db_path (fst st)) c, snd st)).

Definition get_world : M World := fun st => (Ret (snd st), st).

(** ** pandas frames *)

(** A [DataFrame]: the length of its index and its columns by label, each
    column by the cells pandas holds for it. *)
Record DataFrame : Type := mk_frame {
  nrows : nat;
  columns : gmap string (list pyval)
}.

(** The dtype of a column, as far as the program depends on it: [int64]
    when every cell is a 64-bit integer, [float64] when every cell is a
    float or NaN, [object] otherwise. *)
Inductive dtype : Type := Int64 | Float64 | Object.

Definition int_cell (v : pyval) : bool :=
  match v with PyInt z => in_int64 z | _ => false end.

Definition float_cell (v : pyval) : bool :=
  match v with PyFloat _ | PyNaN => true | _ => false end.

Definition column_dtype (col : list pyval) : dtype :=
  if forallb int_cell col then Int64
  else if forallb float_cell col then Float64
  else Object.

(** The dtype of [df.values]: the common dtype of the columns. *)
Definition common_dtype (df : DataFrame) : dtype :=
  let kinds := map (fun kv => column_dtype (snd kv))
                   (map_to_list (columns df)) in
  if forallb (fun k => match k with Int64 => true | _ => false end) kinds
  then Int64
  else if forallb (fun k => match k with Object => false | _ => true end)
                  kinds
  then Float64
  else Object.

(** A cell as a row of [iterrows] holds it.  The rows are cut from
    [df.values]: in a frame of integers they hold [numpy.int64], in a frame
    of numbers they hold [numpy.float64], which is a [float]; in any other
    frame they hold the Python objects. *)
Definition row_cell (k : dtype) (v : pyval) : pyval :=
  match k, v with
  | Int64, PyInt z => PyBuffer (int64_bytes z)
  | Float64, PyInt z => PyFloat (inject_Z z)
  | _, _ => v
  end.

(** [pd.DataFrame()]. *)
Definition empty_frame : DataFrame := mk_frame 0 ∅.

(** [df.empty]: some axis has length zero. *)
Definition df_empty (df : DataFrame) : bool :=
  (nrows df =? 0)%nat || (size (columns df) =? 0)%nat.

(** [df.iterrows()]: one label-indexed row per index position. *)
Definition iterrows (df : DataFrame) : list (gmap string pyval) :=
  map (fun i =>
         omap (fun col : list pyval =>
                 row_cell (common_dtype df) <$> col !! i) (columns df))
      (seq 0 (nrows df)).

(** [row.get(key, default)]. *)
Definition row_get (row : gmap string pyval) (key : string) (dflt : pyval)
  : pyval :=
  default dflt (row !! key).

(** What stands at a path given to [insert_initial_data]: nothing
    ([os.path.exists] is false), a file [pd.read_csv] raises on, or a file it
    parses into a frame. *)
Inductive csv_file : Type :=
  | CsvMissing
  | CsvUnreadable
  | CsvFrame (df : DataFrame).

(** The Python object [sqlite3] hands back for a stored value. *)
Definition py_of_sql (v : sqlval) : pyval :=
  match v with
  | SqlNull => PyNone
  | SqlInt z => PyInt z
  | SqlReal q => PyFloat q
  | SqlText s => PyStr s
  | SqlBlob b => PyBuffer b
  end.

Definition is_sql_int (v : sqlval) : bool :=
  match v with SqlInt _ => true | _ => false end.

Definition is_sql_number (v : sqlval) : bool :=
  match v with SqlInt _ | SqlReal _ => true | _ => false end.

Definition is_sql_text (v : sqlval) : bool :=
  match v with SqlText _ => true | _ => false end.

(** A cell of a [float64] column, and of a [str] column. *)
Definition float_of_sql (v : sqlval) : pyval :=
  match v with
  | SqlInt z => PyFloat (inject_Z z)
  | SqlReal q => PyFloat q
  | _ => PyNaN
  end.

Definition str_of_sql (v : sqlval) : pyval :=
  match v with
  | SqlText s => PyStr s
  | _ => PyNaN
  end.

(** A column of a query result, as pandas builds it from the values of the
    rows: integers give an [int64] column; numbers with a NULL or a REAL
    among them give a [float64] column, NULL being NaN; anything else gives
    an [object] column that keeps the objects, NULL being [None].
    [str_dtype] tells whether pandas infers its [str] dtype for a column of
    texts (pandas 3 does), where a NULL is NaN. *)
Definition column_of_sql (str_dtype : bool) (cells : list sqlval)
  : list pyval :=
  if forallb is_sql_int cells then map py_of_sql cells
  else if forallb (fun v => is_sql_number v || is_sql_null v) cells
          && existsb is_sql_number cells
  then map float_of_sql cells
  else if str_dtype
          && forallb (fun v => is_sql_text v || is_sql_null v) cells
          && existsb is_sql_text cells
  then map str_of_sql cells
  else map py_of_sql cells.

(** The frame [SELECT id, title, genre, year, description FROM items]
    gives. *)
Definition frame_of_items (str_dtype : bool) (rows : list item_row)
  : DataFrame :=
  mk_frame (length rows)
    (<["id" := map (fun r => PyInt (i_id r)) rows]>
     (<["title" := column_of_sql str_dtype (map i_title rows)]>
      (<["genre" := column_of_sql str_dtype (map i_genre rows)]>
       (<["year" := column_of_sql str_dtype (map i_year rows)]>
        (<["description" :=
             column_of_sql str_dtype (map i_description rows)]>
         ∅))))).

Section Embedding.

(** ** What the environment decides *)

(** SQLite's rendering of a number stored in a TEXT column, and its reading
    of a text that looks like a number stored in a numeric column. *)
Variable text_of_number : sqlval -> string.
Variable number_of_text : string -> option Q.

(** Python's [int(s)] on a string: [None] when it raises. *)
Variable int_of_str : string -> option Z.

(** [fails n]: the [n]-th operation on the environment fails. *)
Variable fails : nat -> bool.

(** [rand n]: the [n]-th draw of the pseudo-random generator. *)
Variable rand : nat -> nat.

(** Whether pandas infers the [str] dtype for a column of texts. *)
Variable str_dtype : bool.

(** Python's [int(b)] on a [bytes] object, [None] when it raises, and
    Python's [repr] of a [str] or [bytes] object. *)
Variable int_of_bytes : list Z -> option Z.
Variable py_repr : pyval -> string.

(** The message of the [OverflowError] NumPy raises for a Python integer
    that does not fit an [int64]. *)
Variable int64_overflow : Z -> string.

(** ** Column affinities *)

Definition text_affinity (v : sqlval) : sqlval :=
  match v with
  | SqlInt _ | SqlReal _ => SqlText (text_of_number v)
  | _ => v
  end.

Definition is_integral (q : Q) : bool :=
  (Qnum q mod Zpos (Qden q) =? 0).

(** INTEGER affinity.  A REAL becomes an INTEGER when it is integral and
    lies strictly between -2^63 and 2^63; a text that reads as a number
    becomes that number, an INTEGER when it is integral and fits 64 bits
    (the literal -9223372036854775808 does, which a REAL of that value does
    not); a BLOB and a text that is no number are kept. *)
Definition integer_affinity (v : sqlval) : sqlval :=
  let whole q := Qnum q / Zpos (Qden q) in
  match v with
  | SqlText s =>
      match number_of_text s with
      | Some q =>
          if is_integral q && in_int64 (whole q) then SqlInt (whole q)
          else SqlReal q
      | None => v
      end
  | SqlReal q =>
      if is_integral q && (- 2 ^ 63 <? whole q) && (whole q <? 2 ^ 63)
      then SqlInt (whole q)
      else SqlReal q
  | _ => v
  end.

Definition real_affinity (v : sqlval) : sqlval :=
  match v with
  | SqlInt z => SqlReal (inject_Z z)
  | SqlText s =>
      match number_of_text s with
      | Some q => SqlReal q
      | None => v
      end
  | _ => v
  end.

(** ** Statements *)

(** [CHECK (rating >= 0 AND rating <= 5)] of the ratings table, on the
    value the column would store.  A text and a BLOB compare greater than
    every number, so they fail [rating <= 5]; NULL is left to NOT NULL. *)
Definition rating_check (v : sqlval) : bool :=
  match v with
  | SqlReal q => Qle_bool 0 q && Qle_bool q 5
  | SqlInt z => (0 <=? z) && (z <=? 5)
  | SqlText _ | SqlBlob _ => false
  | SqlNull => true
  end.

(** [CREATE TABLE IF NOT EXISTS users (...)] and its two siblings. *)
Definition create_users_table (db : DB) : DB :=
  match users db with
  | Some _ => db
  | None => {| users := Some []; users_seq := users_seq db;
               items := items db; items_seq := items_seq db;
               ratings := ratings db |}
  end.

Definition create_items_table (db : DB) : DB :=
  match items db with
  | Some _ => db
  | None => {| users := users db; users_seq := users_seq db;
               items := Some []; items_seq := items_seq db;
               ratings := ratings db |}
  end.

Definition create_ratings_table (db : DB) : DB :=
  match ratings db with
  | Some _ => db
  | None => {| users := users db; users_seq := users_seq db;
               items := items db; items_seq := items_seq db;
               ratings := Some [] |}
  end.

Definition set_users (rows : list user_row) (seq : Z) (db : DB) : DB :=
  {| users := Some rows; users_seq := seq;
     items := items db; items_seq := items_seq db; ratings := ratings db |}.

Definition set_items (rows : list item_row) (seq : Z) (db : DB) : DB :=
  {| users := users db; users_seq := users_seq db;
     items := Some rows; items_seq := seq; ratings := ratings db |}.

Definition set_ratings (rows : list rating_row) (db : DB) : DB :=
  {| users := users db; users_seq := users_seq db;
     items := items db; items_seq := items_seq db; ratings := Some rows |}.

(** What a violated NOT NULL, CHECK, UNIQUE or PRIMARY KEY constraint does:
    the statement aborts with [IntegrityError], or, under OR IGNORE, the row
    is skipped and the statement succeeds ([skipped] is the store then). *)
Definition on_violation (mode : conflict) (skipped : DB) : stmt_result :=
  match mode with
  | OnAbort => Failed IntegrityError
  | OnIgnore => Done skipped
  end.

(** [INSERT [OR IGNORE] INTO users (name) VALUES (?)]:
    [name TEXT NOT NULL UNIQUE], key by AUTOINCREMENT.  A skipped row has
    consumed its key. *)
Definition insert_user (mode : conflict) (name : string) (db : DB)
  : stmt_result :=
  match users db with
  | None => Failed OperationalError
  | Some rows =>
      let id := next_rowid (users_seq db) (map u_id rows) in
      if existsb (fun u => String.eqb (u_name u) name) rows
      then on_violation mode (set_users rows id db)
      else Done (set_users (rows ++ [mk_user id name]) id db)
  end.

(** [INSERT [OR IGNORE] INTO items (title, genre, year, description)
    VALUES (?, ?, ?, ?)]: [title TEXT NOT NULL], no uniqueness but the
    AUTOINCREMENT key. *)
Definition insert_item (mode : conflict)
    (title genre year description : sqlval) (db : DB) : stmt_result :=
  match items db with
  | None => Failed OperationalError
  | Some rows =>
      let id := next_rowid (items_seq db) (map i_id rows) in
      if is_sql_null (text_affinity title)
      then on_violation mode (set_items rows id db)
      else Done (set_items
                   (rows ++ [mk_item id (text_affinity title)
                               (text_affinity genre)
                               (integer_affinity year)
                               (text_affinity description)])
                   id db)
  end.

Definition has_rating (uid iid : Z) (rows : list rating_row) : bool :=
  existsb (fun r => (r_user_id r =? uid) && (r_item_id r =? iid)) rows.

Definition has_id (id : Z) (ids : list Z) : bool :=
  existsb (Z.eqb id) ids.

(** [SELECT id FROM users] and [SELECT id FROM items]. *)
Definition select_user_ids (db : DB) : option (list Z) :=
  map u_id <$> users db.

Definition select_item_ids (db : DB) : option (list Z) :=
  map i_id <$> items db.

Definition table_exists {A : Type} (t : option A) : bool :=
  match t with Some _ => true | None => false end.

(** The number a REAL column keeps for a numeric value. *)
Definition stored_real (v : sqlval) : option Q :=
  match v with
  | SqlReal q => Some q
  | SqlInt z => Some (inject_Z z)
  | _ => None
  end.

(** [INSERT [OR IGNORE] INTO ratings (user_id, item_id, rating)
    VALUES (?, ?, ?)]: [rating REAL NOT NULL CHECK (...)], primary key
    [(user_id, item_id)], both columns foreign keys.  [fk] tells whether the
    connection enforces foreign keys; a foreign-key violation is an error
    under either conflict clause, and is looked for once the row passed the
    other constraints. *)
Definition insert_rating (mode : conflict) (fk : bool)
    (uid iid : Z) (rating : sqlval) (db : DB) : stmt_result :=
  match ratings db with
  | None => Failed OperationalError
  | Some rows =>
      if fk && negb (table_exists (users db) && table_exists (items db))
      then Failed OperationalError
      else
        let v := real_affinity rating in
        if is_sql_null v then on_violation mode db
        else if negb (rating_check v) then on_violation mode db
        else if has_rating uid iid rows then on_violation mode db
        else if fk && negb (has_id uid (default [] (select_user_ids db))
                              && has_id iid (default [] (select_item_ids db)))
        then Failed IntegrityError
        else
          match stored_real v with
          | Some q => Done (set_ratings (rows ++ [mk_rating uid iid q]) db)
          | None => Failed IntegrityError
          end
  end.

(** Binding a Python value to a [?] of a statement: [None] and NaN become
    NULL, an integer must fit 64 bits, an object that is no number and no
    string is bound as the BLOB of its buffer when it has one, and is
    refused when it has none. *)
Definition bind_param (v : pyval) : outcome sqlval :=
  match v with
  | PyNone | PyNaN => Ret SqlNull
  | PyInt z =>
      if (- 2 ^ 63 <=? z) && (z <? 2 ^ 63) then Ret (SqlInt z)
      else Raise (OverflowError "Python int too large to convert to SQLite INTEGER")
  | PyFloat q => Ret (SqlReal q)
  | PyStr s => Ret (SqlText s)
  | PyBuffer b => Ret (SqlBlob b)
  | PyOpaque => Raise ProgrammingError
  end.

(** ** Primitive operations on the world *)

Definition tick (w : World) : World :=
  mk_world (disk w) (conns w) (next_handle w) (S (clock w)) (draws w).

(** One operation the environment may refuse, raising [e]. *)
Definition env_op (e : exn) : M unit :=
  fun st =>
    let w := snd st in
    if fails (clock w) then (Raise e, (fst st, tick w))
    else (Ret tt, (fst st, tick w)).

(** One draw of the generator. *)
Definition draw : M nat :=
  fun st =>
    let w := snd st in
    (Ret (rand (draws w)),
     (fst st,
      mk_world (disk w) (conns w) (next_handle w) (clock w) (S (draws w)))).

(** [sqlite3.connect(self.db_path)]: a new handle on the file, foreign keys
    not enforced yet. *)
Definition sqlite3_connect : M nat :=
  env_op OperationalError ;;
  (fun st =>
     let w := snd st in
     let h := next_handle w in
     (Ret h,
      (fst st,
       mk_world (disk w) (<[h := mk_conn (disk w) false]> (conns w))
                (S h) (clock w) (draws w)))).

(** Run [f] on the connection behind handle [h]; a closed handle raises. *)
Definition with_conn {A : Type} (h : nat) (f : Conn -> M A) : M A :=
  w <~ get_world ;;
  match conns w !! h with
  | None => raise ProgrammingError
  | Some c => f c
  end.

Definition put_conn (h : nat) (c : Conn) : M unit :=
  fun st =>
    let w := snd st in
    (Ret tt,
     (fst st,
      mk_world (disk w) (<[h := c]> (conns w)) (next_handle w)
               (clock w) (draws w))).

(** [connection.execute("PRAGMA foreign_keys = ON")]. *)
Definition pragma_foreign_keys_on (h : nat) : M unit :=
  with_conn h (fun c =>
    env_op OperationalError ;;
    put_conn h (mk_conn (view c) true)).

(** [connection.cursor()]: the cursor is identified with its handle. *)
Definition cursor (h : nat) : M nat :=
  with_conn h (fun _ => ret h).

(** [cursor.execute(stmt, params)] for a statement that writes. *)
Definition execute (h : nat) (stmt : Conn -> stmt_result) : M unit :=
  with_conn h (fun c =>
    match stmt c with
    | Done db' => put_conn h (mk_conn db' (foreign_keys c))
    | Failed e => raise e
    end).

(** [cursor.execute("SELECT id FROM ...").fetchall()]. *)
Definition fetch_ids (h : nat) (query : DB -> option (list Z))
  : M (list Z) :=
  with_conn h (fun c =>
    match query (view c) with
    | Some ids => ret ids
    | None => raise OperationalError
    end).

(** [connection.commit()]: the connection's view becomes the file. *)
Definition commit (h : nat) : M unit :=
  with_conn h (fun c =>
    env_op OperationalError ;;
    (fun st =>
       let w := snd st in
       (Ret tt,
        (fst st,
         mk_world (view c) (conns w) (next_handle w) (clock w) (draws w))))).

(** [connection.close()]: uncommitted changes are lost. *)
Definition close_handle (h : nat) : M unit :=
  fun st =>
    let w := snd st in
    (Ret tt,
     (fst st,
      mk_world (disk w) (delete h (conns w)) (next_handle w)
               (clock w) (draws w))).

(** [random.sample(population, k)]: [k] draws without replacement. *)
Fixpoint sample_from (population : list Z) (k : nat) : M (list Z) :=
  match k with
  | O => ret []
  | S k' =>
      n <~ draw ;;
      let i := (n mod length population)%nat in
      match population !! i with
      | None => raise (ValueError "Sample larger than population or is negative")
      | Some x =>
          rest <~ sample_from (delete i population) k' ;;
          ret (x :: rest)
      end
  end.

Definition random_sample (population : list Z) (k : nat) : M (list Z) :=
  if (length population <? k)%nat
  then raise (ValueError "Sample larger than population or is negative")
  else sample_from population k.

(** [round(random.uniform(3.0, 5.0), 1)]: one of 3.0, 3.1, ..., 5.0 (the
    float nearest to k/10 is identified with k/10). *)
Definition round_uniform_3_5 : M pyval :=
  n <~ draw ;;
  ret (PyFloat (Z.of_nat (30 + n mod 21) # 10)).

(** ** [DatabaseManager] *)

(** [DatabaseManager.connect] *)
Definition connect : M (option nat) :=
  try_except is_sqlite_error
    (h <~ sqlite3_connect ;;
     set_connection (Some h) ;;
     pragma_foreign_keys_on h ;;
     get_connection)
    (fun _ => ret None).

(** [DatabaseManager._get_cursor] *)
Definition _get_cursor : M nat :=
  c <~ get_connection ;;
  match c with
  | None => connect ;; ret tt
  | Some _ => ret tt
  end ;;
  c <~ get_connection ;;
  match c with
  | None => raise (PlainException "Could not establish connection to the database")
  | Some h => cursor h
  end.

(** [DatabaseManager._safe_commit] *)
Definition _safe_commit : M bool :=
  c <~ get_connection ;;
  match c with
  | None => ret false
  | Some h =>
      try_except is_sqlite_error
        (commit h ;; ret true)
        (fun _ => ret false)
  end.

(** [DatabaseManager.create_tables].  The three statements are part of what
    the connection has pending until the commit that follows them (SQLite
    itself makes a CREATE TABLE durable at once when no transaction is
    open; nothing below depends on the difference). *)
Definition create_tables : M unit :=
  try_except (fun e => is_sqlite_error e || is_exception e)
    (cur <~ _get_cursor ;;
     execute cur (fun c => Done (create_users_table (view c))) ;;
     execute cur (fun c => Done (create_items_table (view c))) ;;
     execute cur (fun c => Done (create_ratings_table (view c))) ;;
     _safe_commit ;;
     ret tt)
    (fun _ => ret tt).

Definition sample_users : list string :=
  ["Example user 1"; "Example user 2"; "Example user 3"]%string.

(** [DatabaseManager._create_sample_users] *)
Definition _create_sample_users : M unit :=
  try_except is_exception
    (cur <~ _get_cursor ;;
     for_each sample_users (fun user =>
       execute cur (fun c => insert_user OnIgnore user (view c))) ;;
     _safe_commit ;;
     ret tt)
    (fun _ => ret tt).

Definition is_empty_list {A : Type} (l : list A) : bool :=
  match l with [] => true | _ => false end.

(** [DatabaseManager._create_sample_ratings] *)
Definition _create_sample_ratings : M unit :=
  try_except is_exception
    (cur <~ _get_cursor ;;
     user_ids <~ fetch_ids cur select_user_ids ;;
     item_ids <~ fetch_ids cur select_item_ids ;;
     if is_empty_list user_ids || is_empty_list item_ids then ret tt
     else
       for_each user_ids (fun user_id =>
         sample_items <~
           random_sample item_ids (Nat.min 5 (length item_ids)) ;;
         for_each sample_items (fun item_id =>
           rating <~ round_uniform_3_5 ;;
           r <~ lift_outcome (bind_param rating) ;;
           execute cur (fun c =>
             insert_rating OnIgnore (foreign_keys c)
                           user_id item_id r (view c)))) ;;
       _safe_commit ;;
       ret tt)
    (fun _ => ret tt).

Definition sample_items : list (pyval * pyval * pyval * pyval) :=
  [ (PyStr "Naruto", PyStr "Action, Adventure", PyInt 2002,
     PyStr "Young ninja seeks to become Hokage");
    (PyStr "Attack on Titan", PyStr "Action, Drama", PyInt 2013,
     PyStr "Humans fight against titans");
    (PyStr "Death Note", PyStr "Mystery, Thriller", PyInt 2006,
     PyStr "Book that kills by writing names");
    (PyStr "My Hero Academia", PyStr "Action, Superheroes", PyInt 2016,
     PyStr "Young man without powers in a world of heroes");
    (PyStr "Demon Slayer", PyStr "Action, Fantasy", PyInt 2019,
     PyStr "Young Demon Hunter") ]%string.

(** [cursor.execute("INSERT ... INTO items ... VALUES (?, ?, ?, ?)", item)] *)
Definition execute_insert_item (cur : nat) (mode : conflict)
    (item : pyval * pyval * pyval * pyval) : M unit :=
  let '(title, genre, year, description) := item in
  t <~ lift_outcome (bind_param title) ;;
  g <~ lift_outcome (bind_param genre) ;;
  y <~ lift_outcome (bind_param year) ;;
  d <~ lift_outcome (bind_param description) ;;
  execute cur (fun c => insert_item mode t g y d (view c)).

(** [DatabaseManager._create_sample_data] *)
Definition _create_sample_data : M unit :=
  try_except is_exception
    (cur <~ _get_cursor ;;
     for_each sample_items (fun item =>
       execute_insert_item cur OnAbort item) ;;
     ok <~ _safe_commit ;;
     if ok then _create_sample_users ;; _create_sample_ratings
     else ret tt)
    (fun _ => ret tt).

Definition read_csv (csv : csv_file) : M DataFrame :=
  match csv with
  | CsvFrame df => ret df
  | _ => raise ParserError
  end.

(** The four fields of a source row, each by its ordered aliases. *)
Definition resolve_fields (row : gmap string pyval)
  : pyval * pyval * pyval * pyval :=
  let title := row_get row "title" (row_get row "name" (PyStr "Untitled")) in
  let genre := row_get row "genre" (row_get row "genres" (PyStr "Unknown")) in
  let year := row_get row "year" (row_get row "release_year" PyNone) in
  let description :=
    row_get row "description" (row_get row "synopsis" (PyStr EmptyString)) in
  (title, genre, year, description).

(** The body of the loop over the rows of the source: one INSERT OR
    IGNORE, whose failure is printed and skips the row. *)
Definition ingest_row (cur : nat) (row : gmap string pyval) : M unit :=
  try_except is_exception
    (execute_insert_item cur OnIgnore (resolve_fields row))
    (fun _ => ret tt).

(** How the [try] block of [insert_initial_data] is left: by falling
    through with the flag [create_sample_data], or by its [return]. *)
Inductive flow : Type :=
  | Proceed (create_sample_data : bool)
  | Returned.

(** [DatabaseManager.insert_initial_data].  On line 169 the method
    [_create_sample_ratings] is named and not called: the expression
    statement evaluates to the bound method and has no effect. *)
Definition insert_initial_data (csv : csv_file) : M unit :=
  fl <~
    match csv with
    | CsvMissing => ret (Proceed true)
    | _ =>
        try_except is_exception
          (df <~ read_csv csv ;;
           if (nrows df =? 0)%nat then ret (Proceed true)
           else
             cur <~ _get_cursor ;;
             for_each (iterrows df) (ingest_row cur) ;;
             ok <~ _safe_commit ;;
             if ok then _create_sample_users ;; ret (Proceed false)
             else ret Returned)
          (fun _ => ret (Proceed true))
    end ;;
  match fl with
  | Proceed true => _create_sample_data
  | _ => ret tt
  end.

(** [DatabaseManager.close] *)
Definition close : M unit :=
  c <~ get_connection ;;
  match c with
  | Some h => close_handle h ;; set_connection None
  | None => ret tt
  end.

(** [initialize_database], run on a world, with the path of the source
    resolved to what stands there. *)
Definition initialize_database (csv : csv_file) (w : World)
  : outcome unit * World :=
  let db_manager := mk_manager "recommendations.db" None in
  let '(r, (_, w')) :=
    (c <~ connect ;;
     match c with
     | Some _ => create_tables ;; insert_initial_data csv ;; close
     | None => ret tt
     end) (db_manager, w) in
  (r, w').

(** ** [DataPreprocessor] *)

(** [pd.read_sql_query("SELECT id, title, genre, year, description FROM
    items", con)] *)
Definition read_sql_query_items (con : option nat) : M DataFrame :=
  match con with
  | None => raise DatabaseError
  | Some h =>
      with_conn h (fun c =>
        env_op DatabaseError ;;
        match items (view c) with
        | Some rows => ret (frame_of_items str_dtype rows)
        | None => raise DatabaseError
        end)
  end.

(** The [try] block of [load_data_from_db]. *)
Definition query_items : M DataFrame :=
  connect ;;
  _get_cursor ;;
  con <~ get_connection ;;
  items_df <~ read_sql_query_items con ;;
  ret items_df.

(** [DataPreprocessor.load_data_from_db], on the state of
    [self.db_manager]. *)
Definition load_data_from_db : M DataFrame :=
  try_finally
    (try_except is_exception
       query_items
       (fun _ => ret empty_frame))
    close.

(** What [clean_data] may be handed. *)
Inductive pyobject : Type :=
  | ObjFrame (df : DataFrame)
  | ObjScalar (v : pyval)
  | ObjList (l : list pyval)
  | ObjDict (d : gmap string pyval).

(** What [clean_data] does that can be observed from outside. *)
Inductive event : Type :=
  | EvPrint (msg : string)
  | EvColumnTest (name : string)     (* name in df.columns *)
  | EvColumnRead (name : string)     (* df[name] *)
  | EvColumnWrite (name : string).   (* df[name] = ... *)

Definition emit (e : event) : Mon (list event) unit :=
  fun tr => (Ret tt, tr ++ [e]).

Definition has_column (df : DataFrame) (name : string)
  : Mon (list event) bool :=
  emit (EvColumnTest name) ;;
  ret (table_exists (columns df !! name)).

Definition get_column (df : DataFrame) (name : string)
  : Mon (list event) (list pyval) :=
  emit (EvColumnRead name) ;;
  match columns df !! name with
  | Some col => ret col
  | None => raise (KeyError name)
  end.

Definition set_column (df : DataFrame) (name : string) (col : list pyval)
  : Mon (list event) DataFrame :=
  emit (EvColumnWrite name) ;;
  ret (mk_frame (nrows df) (<[name := col]> (columns df))).

(** [series.fillna(value)] *)
Definition fillna (value : pyval) (col : list pyval) : list pyval :=
  map (fun v => if isnull v then value else v) col.

(** An integer on its way into an [int64] array. *)
Definition to_int64 (z : Z) : outcome pyval :=
  if in_int64 z then Ret (PyInt z)
  else Raise (OverflowError (int64_overflow z)).

Definition invalid_literal (v : pyval) : exn :=
  ValueError ("invalid literal for int() with base 10: " +:+ py_repr v).

(** What [astype(int)] makes of a cell.  The target is [int64]: an integer
    that does not fit raises [OverflowError], a string or a [bytes] object
    is read as [int] reads it, a float is truncated towards zero, and a
    float beyond the 64 bits comes out of the cast as -2^63. *)
Definition astype_int_cell (v : pyval) : outcome pyval :=
  match v with
  | PyInt z => to_int64 z
  | PyFloat q =>
      let z := Z.quot (Qnum q) (Zpos (Qden q)) in
      Ret (PyInt (if in_int64 z then z else - 2 ^ 63))
  | PyStr s =>
      match int_of_str s with
      | Some z => to_int64 z
      | None => Raise (invalid_literal v)
      end
  | PyBuffer b =>
      match int_of_bytes b with
      | Some z => to_int64 z
      | None => Raise (invalid_literal v)
      end
  | PyNaN => Raise (ValueError "cannot convert float NaN to integer")
  | PyNone | PyOpaque => Raise TypeError
  end.

(** [series.astype(int)] *)
Fixpoint astype_int (col : list pyval) : outcome (list pyval) :=
  match col with
  | [] => Ret []
  | v :: col' =>
      match astype_int_cell v with
      | Ret v' =>
          match astype_int col' with
          | Ret col'' => Ret (v' :: col'')
          | Raise e => Raise e
          end
      | Raise e => Raise e
      end
  end.

(** [name in df.columns and df[name].isnull().any()] *)
Definition has_nulls (df : DataFrame) (name : string)
  : Mon (list event) bool :=
  present <~ has_column df name ;;
  if present then
    col <~ get_column df name ;;
    ret (existsb isnull col)
  else ret false.

(** [DataPreprocessor.clean_data] *)
Definition clean_data (df : pyobject) : Mon (list event) DataFrame :=
  emit (EvPrint "Starting data cleanup...") ;;
  match df with
  | ObjFrame df =>
      if df_empty df then
        emit (EvPrint "Empty DataFrame, no data to clean") ;;
        ret df
      else
        let cleaned_df := df in
        b <~ has_nulls cleaned_df "title" ;;
        cleaned_df <~
          (if b then
             emit (EvPrint ("Null titles found, filling with " +:+ dquote
                            +:+ "Unknown Title" +:+ dquote)) ;;
             col <~ get_column cleaned_df "title" ;;
             set_column cleaned_df "title" (fillna (PyStr "Unknown Title") col)
           else ret cleaned_df) ;;
        b <~ has_nulls cleaned_df "genre" ;;
        cleaned_df <~
          (if b then
             emit (EvPrint ("Null genres found, filling with " +:+ dquote
                            +:+ "Unknown" +:+ dquote)) ;;
             col <~ get_column cleaned_df "genre" ;;
             set_column cleaned_df "genre" (fillna (PyStr "Unknown") col)
           else ret cleaned_df) ;;
        b <~ has_nulls cleaned_df "year" ;;
        cleaned_df <~
          (if b then
             emit (EvPrint "Null years found, filling with 0") ;;
             col <~ get_column cleaned_df "year" ;;
             cleaned_df <~ set_column cleaned_df "year" (fillna (PyInt 0) col) ;;
             col <~ get_column cleaned_df "year" ;;
             col <~ lift_outcome (astype_int col) ;;
             set_column cleaned_df "year" col
           else ret cleaned_df) ;;
        b <~ has_nulls cleaned_df "description" ;;
        cleaned_df <~
          (if b then
             emit (EvPrint "Null descriptions found, filling with empty string") ;;
             col <~ get_column cleaned_df "description" ;;
             set_column cleaned_df "description" (fillna (PyStr EmptyString) col)
           else ret cleaned_df) ;;
        emit (EvPrint "Limpieza de valores nulos completada") ;;
        ret cleaned_df
  | _ => raise (ValueError "The df parameter must be a pandas DataFrame")
  end.

(** * Reasoning principles *)

(** [wp c Q st]: run from [st], the computation [c] ends in an outcome and
    a state that [Q] accepts.  Every computation of [Mon] is a total
    function, so [wp] is about a run that does end. *)
Definition wp {S A : Type} (c : Mon S A) (Q : outcome A -> S -> Prop)
    (st : S) : Prop :=
  Q (fst (c st)) (snd (c st)).

Lemma wp_conseq {S A : Type} (c : Mon S A) (Q Q' : outcome A -> S -> Prop) st :
  wp c Q st -> (forall r st', Q r st' -> Q' r st') -> wp c Q' st.
Proof. unfold wp. auto. Qed.

Lemma wp_ret {S A : Type} (a : A) (Q : outcome A -> S -> Prop) st :
  Q (Ret a) st -> wp (ret a) Q st.
Proof. auto. Qed.

Lemma wp_raise {S A : Type} e (Q : outcome A -> S -> Prop) st :
  Q (Raise e) st -> wp (raise e) Q st.
Proof. auto. Qed.

Lemma wp_lift_outcome {S A : Type} (o : outcome A)
    (Q : outcome A -> S -> Prop) st :
  Q o st -> wp (lift_outcome o) Q st.
Proof. auto. Qed.

Lemma wp_bind {S A B : Type} (c : Mon S A) (k : A -> Mon S B)
    (Q : outcome B -> S -> Prop) st :
  wp c (fun r st' =>
          match r with
          | Ret a => wp (k a) Q st'
          | Raise e => Q (Raise e) st'
          end) st ->
  wp (bind c k) Q st.
Proof.
  unfold wp, bind. destruct (c st) as [[a|e] st']; simpl; auto.
Qed.

Lemma wp_try_except {S A : Type} (catches : exn -> bool) (body : Mon S A) handler
    (Q : outcome A -> S -> Prop) st :
  wp body (fun r st' =>
             match r with
             | Ret a => Q (Ret a) st'
             | Raise e =>
                 if catches e then wp (handler e) Q st' else Q (Raise e) st'
             end) st ->
  wp (try_except catches body handler) Q st.
Proof.
  unfold wp, try_except. destruct (body st) as [[a|e] st']; simpl; auto.
  destruct (catches e); auto.
Qed.

Lemma wp_try_finally {S A : Type} (body : Mon S A) final
    (Q : outcome A -> S -> Prop) st :
  wp body (fun r st' =>
             wp final (fun r2 st'' =>
                         match r2 with
                         | Ret _ => Q r st''
                         | Raise e => Q (Raise e) st''
                         end) st') st ->
  wp (try_finally body final) Q st.
Proof.
  unfold wp, try_finally. destruct (body st) as [r st']; simpl.
  destruct (final st') as [[u|e] st'']; simpl; auto.
Qed.

(** A loop keeps an invariant that every turn keeps, raising or not. *)
Lemma wp_for_each_inv {S A : Type} (I : S -> Prop) (l : list A)
    (body : A -> Mon S unit) :
  (forall x st, x ∈ l -> I st -> wp (body x) (fun _ st' => I st') st) ->
  forall st, I st -> wp (for_each l body) (fun _ st' => I st') st.
Proof.
  induction l as [|x l IH]; intros Hbody st HI; simpl.
  - apply wp_ret. exact HI.
  - apply wp_bind. eapply wp_conseq.
    + apply Hbody; [left | exact HI].
    + intros [u|e] st' HI'; simpl; auto.
      apply IH; auto. intros y st0 Hy. apply Hbody. right. exact Hy.
Qed.

(** * Properties *)

(** ** Source present but empty *)

Lemma insert_initial_data_empty_frame (df : DataFrame) (st : State) :
  nrows df = 0%nat ->
  insert_initial_data (CsvFrame df) st = insert_initial_data CsvMissing st.
Proof.
  intros Hlen. unfold insert_initial_data, bind, try_except, read_csv, ret.
  rewrite Hlen. reflexivity.
Qed.

(** C6: ingestion from a source that exists and holds no data row ends as
    ingestion from a missing source ends, with the same outcome and exactly
    the same state, from every state of the manager and the world and for
    every behaviour of the environment and of the random generator; so does
    the whole initialisation routine.  (A source that cannot be read at all
    goes the same way.) *)
Theorem empty_source_same_as_missing (df : DataFrame) (st : State)
    (w : World) :
  nrows df = 0%nat ->
  insert_initial_data (CsvFrame df) st = insert_initial_data CsvMissing st /\
  initialize_database (CsvFrame df) w = initialize_database CsvMissing w /\
  insert_initial_data CsvUnreadable st = insert_initial_data CsvMissing st.
Proof.
  intros Hlen. split; [|split].
  - apply insert_initial_data_empty_frame, Hlen.
  - unfold initialize_database, bind.
    destruct (connect _) as [[[h|]|e] st1]; try reflexivity.
    destruct (create_tables st1) as [[u|e] st2]; try reflexivity.
    rewrite (insert_initial_data_empty_frame df st2 Hlen). reflexivity.
  - reflexivity.
Qed.

(** ** The cleaner refuses what is not a frame *)

Definition is_frame (obj : pyobject) : bool :=
  match obj with ObjFrame _ => true | _ => false end.

Definition is_print (e : event) : bool :=
  match e with EvPrint _ => true | _ => false end.

(** C8: handed anything but a frame, [clean_data] raises [ValueError] and
    returns nothing; all it has done by then is print its first message: no
    column was tested, read or written. *)
Theorem clean_data_rejects_non_frame (obj : pyobject) (tr : list event) :
  is_frame obj = false ->
  exists tr',
    clean_data obj tr =
      (Raise (ValueError "The df parameter must be a pandas DataFrame"),
       tr ++ tr') /\
    forallb is_print tr' = true.
Proof.
  intros Hobj. exists [EvPrint "Starting data cleanup..."].
  split; [|reflexivity].
  destruct obj; try discriminate; reflexivity.
Qed.

(** ** Opening a connection twice *)

(** On a connected manager whose handle is open, [_get_cursor] opens
    nothing. *)
Lemma get_cursor_connected (st : State) (h : nat) :
  connection (fst st) = Some h ->
  is_Some (conns (snd st) !! h) ->
  _get_cursor st = (Ret h, st).
Proof.
  intros Hc [c Hh]. destruct st as [m w]; simpl in *.
  unfold _get_cursor, bind, get_connection, cursor, with_conn, bind,
    get_world, ret; simpl.
  rewrite Hc; simpl. rewrite Hc; simpl. rewrite Hh. reflexivity.
Qed.

(** C5, as the code has it: [connect] on a manager that is already
    connected is not a no-op.  It asks SQLite for a new connection; when
    that is refused it returns [None] and changes nothing else; otherwise
    the new handle, different from the existing one, replaces it in the
    manager (the existing connection stays open) and is returned, unless
    the PRAGMA fails, in which case [None] is returned although the handle
    was replaced.  The operation that leaves a connected manager as it is
    and hands back the existing handle is [_get_cursor]. *)
Theorem connect_replaces_handle (st : State) (h : nat) :
  connection (fst st) = Some h ->
  is_Some (conns (snd st) !! h) ->
  (h < next_handle (snd st))%nat ->
  let h' := next_handle (snd st) in
  let r := fst (connect st) in
  let st' := snd (connect st) in
  _get_cursor st = (Ret h, st) /\
  if fails (clock (snd st)) then
    r = Ret None /\ fst st' = fst st /\ conns (snd st') = conns (snd st)
  else
    h' <> h /\
    connection (fst st') = Some h' /\
    conns (snd st') !! h = conns (snd st) !! h /\
    is_Some (conns (snd st') !! h') /\
    r = if fails (S (clock (snd st))) then Ret None else Ret (Some h').
Proof.
  intros Hc Hopen Hlt. split; [apply get_cursor_connected; assumption|].
  destruct st as [m w]; simpl in *.
  unfold connect, try_except, bind, sqlite3_connect, env_op, bind,
    set_connection, pragma_foreign_keys_on, with_conn, bind, get_world,
    put_conn, env_op, get_connection, ret, raise; simpl.
  destruct (fails (clock w)) eqn:Hf1; simpl.
  - auto.
  - rewrite lookup_insert_eq; simpl.
    destruct (fails (S (clock w))) eqn:Hf2; simpl.
    + repeat split; try lia.
      * apply lookup_insert_ne. lia.
      * rewrite lookup_insert_eq. eauto.
    + repeat split; try lia.
      * rewrite !lookup_insert_ne by lia. reflexivity.
      * rewrite lookup_insert_eq. eauto.
Qed.

(** ** Invariants of the store *)

(** [stores P st]: the database file and the view of every open connection
    satisfy [P]. *)
Definition stores (P : DB -> Prop) (st : State) : Prop :=
  P (disk (snd st)) /\
  forall h c, conns (snd st) !! h = Some c -> P (view c).

(** [keeps I c]: whatever [c] does, and however it ends, [I] still
    holds. *)
Definition keeps {S A : Type} (I : S -> Prop) (c : Mon S A) : Prop :=
  forall st, I st -> wp c (fun _ st' => I st') st.

Lemma keeps_ret {S A : Type} (I : S -> Prop) (a : A) : keeps I (ret a).
Proof. intros st HI. exact HI. Qed.

Lemma keeps_raise {S A : Type} (I : S -> Prop) e : keeps I (@raise S A e).
Proof. intros st HI. exact HI. Qed.

Lemma keeps_lift_outcome {S A : Type} (I : S -> Prop) (o : outcome A) :
  keeps I (lift_outcome o).
Proof. intros st HI. exact HI. Qed.

Lemma keeps_bind {S A B : Type} (I : S -> Prop) (c : Mon S A)
    (k : A -> Mon S B) :
  keeps I c -> (forall a, keeps I (k a)) -> keeps I (bind c k).
Proof.
  intros Hc Hk st HI. apply wp_bind. eapply wp_conseq; [apply Hc, HI|].
  intros [a|e] st' HI'; simpl; [apply Hk, HI' | exact HI'].
Qed.

Lemma keeps_try_except {S A : Type} (I : S -> Prop) catches
    (body : Mon S A) handler :
  keeps I body -> (forall e, keeps I (handler e)) ->
  keeps I (try_except catches body handler).
Proof.
  intros Hb Hh st HI. apply wp_try_except.
  eapply wp_conseq; [apply Hb, HI|].
  intros [a|e] st' HI'; simpl; [exact HI'|].
  destruct (catches e); [apply Hh, HI' | exact HI'].
Qed.

Lemma keeps_try_finally {S A : Type} (I : S -> Prop) (body : Mon S A)
    final :
  keeps I body -> keeps I final -> keeps I (try_finally body final).
Proof.
  intros Hb Hf st HI. apply wp_try_finally.
  eapply wp_conseq; [apply Hb, HI|].
  intros r st' HI'. eapply wp_conseq; [apply Hf, HI'|].
  intros [u|e] st'' HI''; exact HI''.
Qed.

Lemma keeps_for_each {S A : Type} (I : S -> Prop) (l : list A)
    (body : A -> Mon S unit) :
  (forall x, keeps I (body x)) -> keeps I (for_each l body).
Proof.
  intros Hb st HI. apply wp_for_each_inv; [|exact HI].
  intros x st0 _ HI0. apply Hb, HI0.
Qed.

Lemma keeps_if {S A : Type} (I : S -> Prop) (b : bool) (c1 c2 : Mon S A) :
  keeps I c1 -> keeps I c2 -> keeps I (if b then c1 else c2).
Proof. destruct b; auto. Qed.

Section StoreInvariant.

Variable P : DB -> Prop.

Lemma keeps_get_connection : keeps (stores P) get_connection.
Proof. intros st HI. exact HI. Qed.

Lemma keeps_set_connection c : keeps (stores P) (set_connection c).
Proof. intros st HI. exact HI. Qed.

Lemma keeps_env_op e : keeps (stores P) (env_op e).
Proof.
  intros [m w] HI. unfold wp, env_op; simpl.
  destruct (fails (clock w)); exact HI.
Qed.

Lemma keeps_draw : keeps (stores P) draw.
Proof. intros st HI. exact HI. Qed.

Lemma keeps_sqlite3_connect : keeps (stores P) sqlite3_connect.
Proof.
  apply keeps_bind; [apply keeps_env_op|].
  intros _ [m w] [Hd Hc]. split; simpl; [exact Hd|].
  intros h c. rewrite lookup_insert. case_decide as Hh.
  - intros [= <-]. exact Hd.
  - apply Hc.
Qed.

Lemma keeps_with_conn {A : Type} h (f : Conn -> M A) :
  (forall c, P (view c) -> keeps (stores P) (f c)) ->
  keeps (stores P) (with_conn h f).
Proof.
  intros Hf [m w] HI. unfold with_conn. apply wp_bind.
  unfold wp at 1, get_world. simpl.
  destruct (conns w !! h) as [c|] eqn:Hh; [|exact HI].
  apply Hf; [|exact HI]. destruct HI as [_ Hc]. eapply Hc, Hh.
Qed.

Lemma keeps_put_conn h c : P (view c) -> keeps (stores P) (put_conn h c).
Proof.
  intros Hv [m w] [Hd Hc]. split; simpl; [exact Hd|].
  intros h' c'. rewrite lookup_insert. case_decide as Hh.
  - intros [= <-]. exact Hv.
  - apply Hc.
Qed.

Lemma keeps_pragma h : keeps (stores P) (pragma_foreign_keys_on h).
Proof.
  apply keeps_with_conn. intros c Hv.
  apply keeps_bind; [apply keeps_env_op|].
  intros _. apply keeps_put_conn. exact Hv.
Qed.

Lemma keeps_cursor h : keeps (stores P) (cursor h).
Proof. apply keeps_with_conn. intros c _. apply keeps_ret. Qed.

Lemma keeps_fetch_ids h q : keeps (stores P) (fetch_ids h q).
Proof.
  apply keeps_with_conn. intros c _.
  destruct (q (view c)); [apply keeps_ret | apply keeps_raise].
Qed.

Lemma keeps_commit h : keeps (stores P) (commit h).
Proof.
  apply keeps_with_conn. intros c Hv.
  apply keeps_bind; [apply keeps_env_op|].
  intros _ [m w] [Hd Hc]. split; simpl; [exact Hv | exact Hc].
Qed.

Lemma keeps_close_handle h : keeps (stores P) (close_handle h).
Proof.
  intros [m w] [Hd Hc]. split; simpl; [exact Hd|].
  intros h' c'. rewrite lookup_delete. case_decide; [discriminate|].
  apply Hc.
Qed.

(** A statement that keeps [P] on the view it runs on keeps [stores P]. *)
Lemma keeps_execute h (stmt : Conn -> stmt_result) :
  (forall c db', P (view c) -> stmt c = Done db' -> P db') ->
  keeps (stores P) (execute h stmt).
Proof.
  intros Hs. apply keeps_with_conn. intros c Hv.
  destruct (stmt c) as [db'|e] eqn:Hst; [|apply keeps_raise].
  apply keeps_put_conn. simpl. eapply Hs; eauto.
Qed.

Lemma keeps_connect : keeps (stores P) connect.
Proof.
  apply keeps_try_except; [|intros e; apply keeps_ret].
  apply keeps_bind; [apply keeps_sqlite3_connect|]. intros h.
  apply keeps_bind; [apply keeps_set_connection|]. intros _.
  apply keeps_bind; [apply keeps_pragma|]. intros _.
  apply keeps_get_connection.
Qed.

Lemma keeps_get_cursor : keeps (stores P) _get_cursor.
Proof.
  apply keeps_bind; [apply keeps_get_connection|]. intros c.
  apply keeps_bind.
  - destruct c; [apply keeps_ret|].
    apply keeps_bind; [apply keeps_connect|]. intros _. apply keeps_ret.
  - intros _. apply keeps_bind; [apply keeps_get_connection|].
    intros [h|]; [apply keeps_cursor | apply keeps_raise].
Qed.

Lemma keeps_safe_commit : keeps (stores P) _safe_commit.
Proof.
  apply keeps_bind; [apply keeps_get_connection|].
  intros [h|]; [|apply keeps_ret].
  apply keeps_try_except; [|intros e; apply keeps_ret].
  apply keeps_bind; [apply keeps_commit|]. intros _. apply keeps_ret.
Qed.

Lemma keeps_close : keeps (stores P) close.
Proof.
  apply keeps_bind; [apply keeps_get_connection|].
  intros [h|]; [|apply keeps_ret].
  apply keeps_bind; [apply keeps_close_handle|]. intros _.
  apply keeps_set_connection.
Qed.

Lemma keeps_load_data_from_db : keeps (stores P) load_data_from_db.
Proof.
  apply keeps_try_finally; [|apply keeps_close].
  apply keeps_try_except; [|intros e; apply keeps_ret].
  unfold query_items.
  apply keeps_bind; [apply keeps_connect|]. intros _.
  apply keeps_bind; [apply keeps_get_cursor|]. intros _.
  apply keeps_bind; [apply keeps_get_connection|]. intros con.
  apply keeps_bind; [|intros df; apply keeps_ret].
  destruct con as [h|]; [|apply keeps_raise].
  apply keeps_with_conn. intros c _.
  apply keeps_bind; [apply keeps_env_op|]. intros _.
  destruct (items (view c)); [apply keeps_ret | apply keeps_raise].
Qed.

End StoreInvariant.

(** What each statement does to the ratings table. *)

Lemma ratings_create_users db : ratings (create_users_table db) = ratings db.
Proof. unfold create_users_table. destruct (users db); reflexivity. Qed.

Lemma ratings_create_items db : ratings (create_items_table db) = ratings db.
Proof. unfold create_items_table. destruct (items db); reflexivity. Qed.

Lemma ratings_insert_user mode name db db' :
  insert_user mode name db = Done db' -> ratings db' = ratings db.
Proof.
  unfold insert_user, on_violation. destruct (users db); [|discriminate].
  destruct (existsb _ _); [destruct mode; [discriminate|]|];
    intros [= <-]; reflexivity.
Qed.

Lemma ratings_insert_item mode t g y d db db' :
  insert_item mode t g y d db = Done db' -> ratings db' = ratings db.
Proof.
  unfold insert_item, on_violation. destruct (items db); [|discriminate].
  destruct (is_sql_null _); [destruct mode; [discriminate|]|];
    intros [= <-]; reflexivity.
Qed.

(** A rating statement that succeeds either skipped its row or appended
    one whose value passed NOT NULL and the CHECK. *)
Lemma insert_rating_done mode fk uid iid v db db' :
  insert_rating mode fk uid iid v db = Done db' ->
  (mode = OnIgnore /\ db' = db) \/
  exists rows q,
    ratings db = Some rows /\
    has_rating uid iid rows = false /\
    rating_check (real_affinity v) = true /\
    stored_real (real_affinity v) = Some q /\
    db' = set_ratings (rows ++ [mk_rating uid iid q]) db.
Proof.
  unfold insert_rating, on_violation.
  destruct (ratings db) as [rows|]; [|discriminate].
  destruct (fk && negb _); [discriminate|].
  destruct (is_sql_null _);
    [destruct mode; [discriminate | intros [= <-]; auto]|].
  destruct (rating_check _) eqn:Hck; simpl;
    [|destruct mode; [discriminate | intros [= <-]; auto]].
  destruct (has_rating _ _ _) eqn:Hpk;
    [destruct mode; [discriminate | intros [= <-]; auto]|].
  destruct (fk && negb _); [discriminate|].
  destruct (stored_real _) as [q|] eqn:Hq; [|discriminate].
  intros [= <-]. right. exists rows, q. auto.
Qed.

(** ** Ratings stay within the CHECK *)

Definition rating_in_range (r : rating_row) : Prop :=
  (0 <= r_rating r)%Q /\ (r_rating r <= 5)%Q.

Definition ratings_in_range (db : DB) : Prop :=
  forall rows, ratings db = Some rows -> Forall rating_in_range rows.

Lemma rating_check_sound v q :
  rating_check v = true -> stored_real v = Some q ->
  (0 <= q)%Q /\ (q <= 5)%Q.
Proof.
  destruct v as [|z|q'|s|b]; simpl; try discriminate.
  - intros Hck [= <-]. apply andb_prop in Hck as [H0 H5].
    apply Z.leb_le in H0, H5. split.
    + change 0%Q with (inject_Z 0). rewrite <- Zle_Qle. exact H0.
    + change 5%Q with (inject_Z 5). rewrite <- Zle_Qle. exact H5.
  - intros Hck [= <-]. apply andb_prop in Hck as [H0 H5].
    split; apply Qle_bool_iff; assumption.
Qed.

Lemma in_range_insert_rating mode fk uid iid v db db' :
  ratings_in_range db ->
  insert_rating mode fk uid iid v db = Done db' ->
  ratings_in_range db'.
Proof.
  intros Hin Hdone.
  destruct (insert_rating_done _ _ _ _ _ _ _ Hdone)
    as [[_ ->]|(rows & q & Hr & _ & Hck & Hq & ->)]; [exact Hin|].
  intros rows' [= <-]. apply Forall_app. split; [apply Hin, Hr|].
  constructor; [|constructor].
  exact (rating_check_sound _ _ Hck Hq).
Qed.

Section MethodInvariant.

(** An invariant that the primitive steps of the manager keep is kept by
    its methods. *)
Variable I : State -> Prop.
Hypothesis I_cursor : keeps I _get_cursor.
Hypothesis I_commit : keeps I _safe_commit.
Hypothesis I_fetch : forall h q, keeps I (fetch_ids h q).
Hypothesis I_draw : keeps I draw.
Hypothesis I_create_users : forall h,
  keeps I (execute h (fun c => Done (create_users_table (view c)))).
Hypothesis I_create_items : forall h,
  keeps I (execute h (fun c => Done (create_items_table (view c)))).
Hypothesis I_create_ratings : forall h,
  keeps I (execute h (fun c => Done (create_ratings_table (view c)))).
Hypothesis I_insert_user : forall h mode name,
  keeps I (execute h (fun c => insert_user mode name (view c))).
Hypothesis I_insert_item : forall h mode t g y d,
  keeps I (execute h (fun c => insert_item mode t g y d (view c))).
Hypothesis I_insert_rating : forall h uid iid v,
  keeps I (execute h (fun c =>
    insert_rating OnIgnore (foreign_keys c) uid iid v (view c))).

Lemma keeps_sample_from k : forall pop, keeps I (sample_from pop k).
Proof.
  induction k as [|k IH]; intros pop; simpl; [apply keeps_ret|].
  apply keeps_bind; [apply I_draw|]. intros n.
  destruct (pop !! _); [|apply keeps_raise].
  apply keeps_bind; [apply IH|]. intros rest. apply keeps_ret.
Qed.

Lemma keeps_random_sample pop k : keeps I (random_sample pop k).
Proof.
  unfold random_sample. apply keeps_if;
    [apply keeps_raise | apply keeps_sample_from].
Qed.

Lemma keeps_round_uniform : keeps I round_uniform_3_5.
Proof.
  apply keeps_bind; [apply I_draw|]. intros n. apply keeps_ret.
Qed.

Lemma keeps_create_tables : keeps I create_tables.
Proof.
  apply keeps_try_except; [|intros e; apply keeps_ret].
  apply keeps_bind; [apply I_cursor|]. intros cur.
  apply keeps_bind; [apply I_create_users|]. intros _.
  apply keeps_bind; [apply I_create_items|]. intros _.
  apply keeps_bind; [apply I_create_ratings|]. intros _.
  apply keeps_bind; [apply I_commit|]. intros _. apply keeps_ret.
Qed.

Lemma keeps_create_sample_users : keeps I _create_sample_users.
Proof.
  apply keeps_try_except; [|intros e; apply keeps_ret].
  apply keeps_bind; [apply I_cursor|]. intros cur.
  apply keeps_bind.
  { apply keeps_for_each. intros user. apply I_insert_user. }
  intros _. apply keeps_bind; [apply I_commit|].
  intros _. apply keeps_ret.
Qed.

Lemma keeps_create_sample_ratings : keeps I _create_sample_ratings.
Proof.
  apply keeps_try_except; [|intros e; apply keeps_ret].
  apply keeps_bind; [apply I_cursor|]. intros cur.
  apply keeps_bind; [apply I_fetch|]. intros user_ids.
  apply keeps_bind; [apply I_fetch|]. intros item_ids.
  apply keeps_if; [apply keeps_ret|].
  apply keeps_bind.
  { apply keeps_for_each. intros user_id.
    apply keeps_bind; [apply keeps_random_sample|]. intros sample.
    apply keeps_for_each. intros item_id.
    apply keeps_bind; [apply keeps_round_uniform|]. intros rating.
    apply keeps_bind; [apply keeps_lift_outcome|]. intros r.
    apply I_insert_rating. }
  intros _. apply keeps_bind; [apply I_commit|].
  intros _. apply keeps_ret.
Qed.

Lemma keeps_execute_insert_item cur mode item :
  keeps I (execute_insert_item cur mode item).
Proof.
  destruct item as [[[title genre] year] description]. simpl.
  apply keeps_bind; [apply keeps_lift_outcome|]. intros t.
  apply keeps_bind; [apply keeps_lift_outcome|]. intros g.
  apply keeps_bind; [apply keeps_lift_outcome|]. intros y.
  apply keeps_bind; [apply keeps_lift_outcome|]. intros d.
  apply I_insert_item.
Qed.

Lemma keeps_ingest_row cur row : keeps I (ingest_row cur row).
Proof.
  apply keeps_try_except; [|intros e; apply keeps_ret].
  apply keeps_execute_insert_item.
Qed.

Lemma keeps_create_sample_data : keeps I _create_sample_data.
Proof.
  apply keeps_try_except; [|intros e; apply keeps_ret].
  apply keeps_bind; [apply I_cursor|]. intros cur.
  apply keeps_bind.
  { apply keeps_for_each. intros item.
    apply keeps_execute_insert_item. }
  intros _. apply keeps_bind; [apply I_commit|].
  intros ok. apply keeps_if; [|apply keeps_ret].
  apply keeps_bind; [apply keeps_create_sample_users|].
  intros _. apply keeps_create_sample_ratings.
Qed.

Lemma keeps_insert_initial_data csv : keeps I (insert_initial_data csv).
Proof.
  apply keeps_bind.
  - assert (keeps I
              (try_except is_exception
                 (df <~ read_csv csv ;;
                  if (nrows df =? 0)%nat then ret (Proceed true)
                  else
                    cur <~ _get_cursor ;;
                    for_each (iterrows df) (ingest_row cur) ;;
                    ok <~ _safe_commit ;;
                    if ok then _create_sample_users ;; ret (Proceed false)
                    else ret Returned)
                 (fun _ => ret (Proceed true)))) as Htry.
    { apply keeps_try_except; [|intros e; apply keeps_ret].
      apply keeps_bind.
      { destruct csv; [apply keeps_raise..|apply keeps_ret]. }
      intros df. apply keeps_if; [apply keeps_ret|].
      apply keeps_bind; [apply I_cursor|]. intros cur.
      apply keeps_bind.
      { apply keeps_for_each. intros row. apply keeps_ingest_row. }
      intros _. apply keeps_bind; [apply I_commit|].
      intros ok. apply keeps_if; [|apply keeps_ret].
      apply keeps_bind; [apply keeps_create_sample_users|].
      intros _. apply keeps_ret. }
    destruct csv; [apply keeps_ret | exact Htry | exact Htry].
  - intros [[|]|]; try apply keeps_ret. apply keeps_create_sample_data.
Qed.

End MethodInvariant.

Section StoreMethods.

(** A property of the database that every statement of the program
    keeps holds of the file and of every view whatever the methods
    do. *)
Variable P : DB -> Prop.
Hypothesis P_create_users : forall db, P db -> P (create_users_table db).
Hypothesis P_create_items : forall db, P db -> P (create_items_table db).
Hypothesis P_create_ratings :
  forall db, P db -> P (create_ratings_table db).
Hypothesis P_insert_user : forall mode name db db',
  P db -> insert_user mode name db = Done db' -> P db'.
Hypothesis P_insert_item : forall mode t g y d db db',
  P db -> insert_item mode t g y d db = Done db' -> P db'.
Hypothesis P_insert_rating : forall fk uid iid v db db',
  P db -> insert_rating OnIgnore fk uid iid v db = Done db' -> P db'.

Lemma stores_create_tables : keeps (stores P) create_tables.
Proof.
  apply keeps_create_tables;
    [apply keeps_get_cursor | apply keeps_safe_commit | ..];
    intros h; apply keeps_execute; intros c db' Hv [= <-]; auto.
Qed.

Lemma stores_create_sample_users : keeps (stores P) _create_sample_users.
Proof.
  apply keeps_create_sample_users;
    [apply keeps_get_cursor | apply keeps_safe_commit |].
  intros h mode name. apply keeps_execute. intros c db'.
  apply P_insert_user.
Qed.

Lemma stores_create_sample_ratings :
  keeps (stores P) _create_sample_ratings.
Proof.
  apply keeps_create_sample_ratings;
    [apply keeps_get_cursor | apply keeps_safe_commit
    | apply keeps_fetch_ids | apply keeps_draw |].
  intros h uid iid v. apply keeps_execute. intros c db'.
  apply P_insert_rating.
Qed.

Lemma stores_create_sample_data : keeps (stores P) _create_sample_data.
Proof.
  apply keeps_create_sample_data;
    [apply keeps_get_cursor | apply keeps_safe_commit
    | apply keeps_fetch_ids | apply keeps_draw | | |].
  - intros h mode name. apply keeps_execute. intros c db'.
    apply P_insert_user.
  - intros h mode t g y d. apply keeps_execute. intros c db'.
    apply P_insert_item.
  - intros h uid iid v. apply keeps_execute. intros c db'.
    apply P_insert_rating.
Qed.

Lemma stores_insert_initial_data csv :
  keeps (stores P) (insert_initial_data csv).
Proof.
  apply keeps_insert_initial_data;
    [apply keeps_get_cursor | apply keeps_safe_commit
    | apply keeps_fetch_ids | apply keeps_draw | | |].
  - intros h mode name. apply keeps_execute. intros c db'.
    apply P_insert_user.
  - intros h mode t g y d. apply keeps_execute. intros c db'.
    apply P_insert_item.
  - intros h uid iid v. apply keeps_execute. intros c db'.
    apply P_insert_rating.
Qed.

End StoreMethods.

Lemma rating_check_out_of_range (q : Q) :
  (q < 0 \/ 5 < q)%Q -> rating_check (SqlReal q) = false.
Proof.
  intros Hq. simpl. apply not_true_is_false. intros Hck.
  apply andb_prop in Hck as [H0 H5].
  apply Qle_bool_iff in H0, H5.
  destruct Hq as [Hq|Hq].
  - exact (Qlt_not_le _ _ Hq H0).
  - exact (Qlt_not_le _ _ Hq H5).
Qed.

(** A rating outside [0, 5] meets the CHECK whatever the conflict clause:
    the statement ends as a violated constraint makes it end, unless a
    missing table stopped it before. *)
Lemma insert_rating_out_of_range mode fk uid iid q db :
  (q < 0 \/ 5 < q)%Q ->
  insert_rating mode fk uid iid (SqlReal q) db =
    match ratings db with
    | None => Failed OperationalError
    | Some _ =>
        if fk && negb (table_exists (users db) && table_exists (items db))
        then Failed OperationalError
        else on_violation mode db
    end.
Proof.
  intros Hq. unfold insert_rating. destruct (ratings db); [|reflexivity].
  destruct (fk && negb _); [reflexivity|].
  cbn [real_affinity is_sql_null].
  rewrite (rating_check_out_of_range q Hq). reflexivity.
Qed.

Lemma put_conn_same (st : State) h c :
  conns (snd st) !! h = Some c ->
  put_conn h (mk_conn (view c) (foreign_keys c)) st = (Ret tt, st).
Proof.
  destruct st as [m [d cs nh ck dr]], c as [v fk]; simpl. intros Hh.
  unfold put_conn; simpl. rewrite (insert_id cs h _ Hh). reflexivity.
Qed.

(** C1, as the code has it: every rating the store holds, in the file and
    in the view of every open connection, lies in [0, 5], and this
    survives every way the
    program has to touch the store (creation of the tables, ingestion from
    any source, sample generation, synthesis of ratings, loading the items)
    as well as a rating statement run directly on any connection with any
    conflict clause and any value.  A statement that carries a rating
    outside [0, 5] leaves the whole state as it was: nothing is stored and
    nothing is clamped.  Whether the refusal is an error depends on the
    conflict clause: a plain INSERT on the existing tables raises
    [IntegrityError], while under OR IGNORE, the clause of sample
    generation, the violated CHECK makes SQLite skip the row and the
    statement ends without any error. *)
Theorem ratings_check_enforced (st : State) :
  stores ratings_in_range st ->
  stores ratings_in_range (snd (create_tables st)) /\
  (forall csv, stores ratings_in_range (snd (insert_initial_data csv st))) /\
  stores ratings_in_range (snd (_create_sample_data st)) /\
  stores ratings_in_range (snd (_create_sample_ratings st)) /\
  stores ratings_in_range (snd (load_data_from_db st)) /\
  (forall h mode uid iid v,
     stores ratings_in_range
       (snd (execute h (fun c =>
               insert_rating mode (foreign_keys c) uid iid v (view c)) st)))
  /\
  (forall h c mode uid iid q,
     conns (snd st) !! h = Some c ->
     (q < 0 \/ 5 < q)%Q ->
     let run :=
       execute h (fun c =>
         insert_rating mode (foreign_keys c) uid iid (SqlReal q) (view c))
         st in
     snd run = st /\
     (fst run = Ret tt -> mode = OnIgnore) /\
     (mode = OnAbort ->
      is_Some (ratings (view c)) ->
      (foreign_keys c = true ->
       is_Some (users (view c)) /\ is_Some (items (view c))) ->
      fst run = Raise IntegrityError) /\
     (mode = OnIgnore ->
      is_Some (ratings (view c)) ->
      (foreign_keys c = true ->
       is_Some (users (view c)) /\ is_Some (items (view c))) ->
      fst run = Ret tt)).
Proof.
  intros Hst.
  assert (Hcr : forall db, ratings_in_range db ->
                           ratings_in_range (create_ratings_table db)).
  { intros db Hdb. unfold create_ratings_table.
    destruct (ratings db) eqn:Hr; [exact Hdb|].
    intros rows [= <-]. constructor. }
  assert (Hu : forall mode name db db', ratings_in_range db ->
            insert_user mode name db = Done db' -> ratings_in_range db').
  { intros mode name db db' Hdb Hdone rows.
    rewrite (ratings_insert_user _ _ _ _ Hdone). apply Hdb. }
  assert (Hi : forall mode t g y d db db', ratings_in_range db ->
            insert_item mode t g y d db = Done db' -> ratings_in_range db').
  { intros mode t g y d db db' Hdb Hdone rows.
    rewrite (ratings_insert_item _ _ _ _ _ _ _ Hdone). apply Hdb. }
  assert (Hr : forall fk uid iid v db db', ratings_in_range db ->
            insert_rating OnIgnore fk uid iid v db = Done db' ->
            ratings_in_range db').
  { intros fk uid iid v db db'. apply in_range_insert_rating. }
  split; [|split; [|split; [|split; [|split; [|split]]]]].
  - refine (stores_create_tables _ _ _ Hcr st Hst); intros db Hdb rows.
    + rewrite ratings_create_users. apply Hdb.
    + rewrite ratings_create_items. apply Hdb.
  - intros csv.
    exact (stores_insert_initial_data _ Hu Hi Hr csv st Hst).
  - exact (stores_create_sample_data _ Hu Hi Hr st Hst).
  - exact (stores_create_sample_ratings _ Hr st Hst).
  - exact (keeps_load_data_from_db _ st Hst).
  - intros h mode uid iid v.
    refine (keeps_execute ratings_in_range h _ _ st Hst).
    intros c db'. apply in_range_insert_rating.
  - intros h c mode uid iid q Hh Hq run. subst run.
    destruct st as [m w]. simpl in Hh.
    unfold execute, with_conn, bind, get_world; simpl. rewrite Hh.
    rewrite (insert_rating_out_of_range _ _ _ _ _ _ Hq).
    destruct (ratings (view c)) as [rows|] eqn:Hrows;
      [|split; [reflexivity|split; [discriminate|]];
        split; intros _ [x Hx]; discriminate].
    destruct (foreign_keys c && negb _) eqn:Hfk.
    + split; [reflexivity|]. split; [discriminate|].
      split; intros _ _ Hparents; exfalso;
        apply andb_prop in Hfk as [Hfk Hneg];
        destruct (Hparents Hfk) as [[us Hus] [its Hits]];
        rewrite Hus, Hits in Hneg; discriminate.
    + destruct mode.
      * simpl. split; [reflexivity|]. split; [discriminate|].
        split; [reflexivity | discriminate].
      * pose proof (put_conn_same (m, w) h c Hh) as Hput.
        unfold on_violation. rewrite Hput. simpl.
        split; [reflexivity|]. split; [reflexivity|].
        split; [discriminate | reflexivity].
Qed.

(** ** The cleaner *)

(** [name in df.columns and df[name].isnull().any()], as a value. *)
Definition column_nulls (df : DataFrame) (name : string) : bool :=
  match columns df !! name with
  | Some col => existsb isnull col
  | None => false
  end.

(** What one of the fixes of [clean_data] leaves: the column [name]
    filled with [value] and passed through [convert], when it held a
    null. *)
Definition fix_column (name : string) (value : pyval)
    (convert : list pyval -> outcome (list pyval)) (df : DataFrame)
  : outcome DataFrame :=
  match columns df !! name with
  | Some col =>
      if existsb isnull col then
        match convert (fillna value col) with
        | Ret col' => Ret (mk_frame (nrows df) (<[name := col']> (columns df)))
        | Raise e => Raise e
        end
      else Ret df
  | None => Ret df
  end.

(** The frame [clean_data] returns, without the trace. *)
Definition cleaned (df : DataFrame) : outcome DataFrame :=
  if df_empty df then Ret df
  else
    match fix_column "title" (PyStr "Unknown Title") Ret df with
    | Ret df1 =>
        match fix_column "genre" (PyStr "Unknown") Ret df1 with
        | Ret df2 =>
            match fix_column "year" (PyInt 0) astype_int df2 with
            | Ret df3 =>
                fix_column "description" (PyStr EmptyString) Ret df3
            | Raise e => Raise e
            end
        | Raise e => Raise e
        end
    | Raise e => Raise e
    end.

Lemma wp_emit e (Q : outcome unit -> list event -> Prop) tr :
  Q (Ret tt) (tr ++ [e]) -> wp (emit e) Q tr.
Proof. auto. Qed.

Lemma wp_has_nulls df name (Q : outcome bool -> list event -> Prop) tr :
  (forall tr', Q (Ret (column_nulls df name)) tr') ->
  wp (has_nulls df name) Q tr.
Proof.
  intros HQ. unfold wp, has_nulls, has_column, get_column, column_nulls,
    bind, emit, ret, raise in *; simpl.
  destruct (columns df !! name); simpl; apply HQ.
Qed.

Lemma wp_get_column df name col
    (Q : outcome (list pyval) -> list event -> Prop) tr :
  columns df !! name = Some col ->
  (forall tr', Q (Ret col) tr') ->
  wp (get_column df name) Q tr.
Proof.
  intros Hcol HQ. unfold wp, get_column, bind, emit, ret; simpl.
  rewrite Hcol. apply HQ.
Qed.

Lemma wp_set_column df name col
    (Q : outcome DataFrame -> list event -> Prop) tr :
  (forall tr',
     Q (Ret (mk_frame (nrows df) (<[name := col]> (columns df)))) tr') ->
  wp (set_column df name col) Q tr.
Proof. intros HQ. apply HQ. Qed.

(** One of the three fixes that only fill, followed by the rest [k] of the
    method. *)
Lemma wp_fill_step {B : Type} df name value msg
    (k : DataFrame -> Mon (list event) B)
    (Q : outcome B -> list event -> Prop) tr :
  (forall tr',
     match fix_column name value Ret df with
     | Ret df' => wp (k df') Q tr'
     | Raise e => Q (Raise e) tr'
     end) ->
  wp (b <~ has_nulls df name ;;
      cleaned_df <~
        (if b then
           emit (EvPrint msg) ;;
           col <~ get_column df name ;;
           set_column df name (fillna value col)
         else ret df) ;;
      k cleaned_df) Q tr.
Proof.
  intros HQ. apply wp_bind, wp_has_nulls. intros tr1.
  unfold column_nulls. unfold fix_column in HQ.
  destruct (columns df !! name) as [col|] eqn:Hcol;
    [|apply wp_bind, wp_ret, HQ].
  destruct (existsb isnull col); [|apply wp_bind, wp_ret, HQ].
  apply wp_bind, wp_bind, wp_emit, wp_bind.
  eapply wp_get_column; [exact Hcol|]. intros tr2.
  apply wp_set_column. exact HQ.
Qed.

(** The fix of [year], which also converts. *)
Lemma wp_year_step {B : Type} df
    (k : DataFrame -> Mon (list event) B)
    (Q : outcome B -> list event -> Prop) tr :
  (forall tr',
     match fix_column "year" (PyInt 0) astype_int df with
     | Ret df' => wp (k df') Q tr'
     | Raise e => Q (Raise e) tr'
     end) ->
  wp (b <~ has_nulls df "year" ;;
      cleaned_df <~
        (if b then
           emit (EvPrint "Null years found, filling with 0") ;;
           col <~ get_column df "year" ;;
           cleaned_df <~ set_column df "year" (fillna (PyInt 0) col) ;;
           col <~ get_column cleaned_df "year" ;;
           col <~ lift_outcome (astype_int col) ;;
           set_column cleaned_df "year" col
         else ret df) ;;
      k cleaned_df) Q tr.
Proof.
  intros HQ. apply wp_bind, wp_has_nulls. intros tr1.
  unfold column_nulls. unfold fix_column in HQ.
  destruct (columns df !! "year") as [col|] eqn:Hcol;
    [|apply wp_bind, wp_ret, HQ].
  destruct (existsb isnull col); [|apply wp_bind, wp_ret, HQ].
  apply wp_bind, wp_bind, wp_emit, wp_bind.
  eapply wp_get_column; [exact Hcol|]. intros tr2.
  apply wp_bind, wp_set_column. intros tr3.
  apply wp_bind. eapply wp_get_column.
  { simpl. apply lookup_insert_eq. }
  intros tr4. apply wp_bind, wp_lift_outcome.
  destruct (astype_int (fillna (PyInt 0) col)) as [col'|e]; [|apply HQ].
  apply wp_set_column. intros tr5. simpl.
  rewrite insert_insert_eq. apply HQ.
Qed.

(** [clean_data] returns what [cleaned] says, whatever was traced
    before. *)
Lemma clean_data_cleaned (df : DataFrame) (tr : list event) :
  fst (clean_data (ObjFrame df) tr) = cleaned df.
Proof.
  change (wp (clean_data (ObjFrame df)) (fun r _ => r = cleaned df) tr).
  unfold clean_data, cleaned. apply wp_bind, wp_emit.
  destruct (df_empty df).
  { apply wp_bind, wp_emit, wp_ret. reflexivity. }
  apply wp_fill_step. intros tr1.
  destruct (fix_column "title" _ _ df) as [df1|e]; [|reflexivity].
  apply wp_fill_step. intros tr2.
  destruct (fix_column "genre" _ _ df1) as [df2|e]; [|reflexivity].
  apply wp_year_step. intros tr3.
  destruct (fix_column "year" _ _ df2) as [df3|e]; [|reflexivity].
  apply wp_fill_step. intros tr4.
  destruct (fix_column "description" _ _ df3) as [df4|e]; [|reflexivity].
  apply wp_bind, wp_emit, wp_ret. reflexivity.
Qed.

Lemma fillna_no_nulls value col :
  isnull value = false -> existsb isnull (fillna value col) = false.
Proof.
  intros Hv. induction col as [|v col IH]; simpl; [reflexivity|].
  rewrite IH, orb_false_r. destruct (isnull v) eqn:Hn; assumption.
Qed.

Lemma to_int64_int z v : to_int64 z = Ret v -> exists z', v = PyInt z'.
Proof.
  unfold to_int64. destruct (in_int64 z); [|discriminate].
  intros [= <-]. eauto.
Qed.

(** A converted cell is an integer. *)
Lemma astype_int_cell_int v v' :
  astype_int_cell v = Ret v' -> exists z, v' = PyInt z.
Proof.
  destruct v as [| |z|q|s| |b]; simpl; try discriminate.
  - apply to_int64_int.
  - intros [= <-]. eauto.
  - destruct (int_of_str s); [apply to_int64_int | discriminate].
  - destruct (int_of_bytes b); [apply to_int64_int | discriminate].
Qed.

Lemma astype_int_no_nulls col : forall col',
  astype_int col = Ret col' -> existsb isnull col' = false.
Proof.
  induction col as [|v col IH]; simpl; intros col'.
  - intros [= <-]. reflexivity.
  - destruct (astype_int_cell v) as [v'|e] eqn:Hv; [|discriminate].
    destruct (astype_int col) as [col''|e]; [|discriminate].
    intros [= <-]. simpl. rewrite (IH col'' eq_refl), orb_false_r.
    destruct (astype_int_cell_int _ _ Hv) as [z ->]. reflexivity.
Qed.

(** A column without nulls is left alone. *)
Lemma fix_column_clean name value convert df :
  column_nulls df name = false -> fix_column name value convert df = Ret df.
Proof.
  unfold column_nulls, fix_column.
  destruct (columns df !! name); [|reflexivity]. intros ->. reflexivity.
Qed.

(** What a fix changes: its own column, which has no null afterwards, and
    nothing else. *)
Lemma fix_column_spec name value convert df df' :
  isnull value = false ->
  (forall col col', existsb isnull col = false ->
                    convert col = Ret col' -> existsb isnull col' = false) ->
  fix_column name value convert df = Ret df' ->
  column_nulls df' name = false /\
  (forall other, other <> name ->
                 columns df' !! other = columns df !! other) /\
  (df_empty df = false -> df_empty df' = false).
Proof.
  intros Hv Hconv. unfold fix_column, column_nulls.
  destruct (columns df !! name) as [col|] eqn:Hcol.
  - destruct (existsb isnull col) eqn:Hnull.
    + destruct (convert (fillna value col)) as [col'|e] eqn:Hc;
        [|discriminate].
      intros [= <-]. simpl. rewrite lookup_insert_eq.
      split; [|split].
      * eapply Hconv; [|exact Hc]. apply fillna_no_nulls, Hv.
      * intros other Hne. apply lookup_insert_ne. congruence.
      * unfold df_empty; simpl. intros He.
        apply orb_false_elim in He as [Hn Hs]. rewrite Hn. simpl.
        apply Nat.eqb_neq, map_size_non_empty_iff, insert_non_empty.
    + intros [= <-]. rewrite Hcol. auto.
  - intros [= <-]. rewrite Hcol. auto.
Qed.

Lemma column_nulls_same df df' name :
  columns df' !! name = columns df !! name ->
  column_nulls df' name = column_nulls df name.
Proof. unfold column_nulls. intros ->. reflexivity. Qed.

(** A frame without nulls in the four columns is its own cleaning. *)
Lemma cleaned_clean df :
  column_nulls df "title" = false ->
  column_nulls df "genre" = false ->
  column_nulls df "year" = false ->
  column_nulls df "description" = false ->
  cleaned df = Ret df.
Proof.
  intros Ht Hg Hy Hd. unfold cleaned.
  rewrite !fix_column_clean by assumption.
  destruct (df_empty df); reflexivity.
Qed.

Lemma cleaned_idempotent df df1 :
  cleaned df = Ret df1 -> cleaned df1 = Ret df1.
Proof.
  unfold cleaned at 1. destruct (df_empty df) eqn:Hempty.
  { intros [= <-]. unfold cleaned. rewrite Hempty. reflexivity. }
  assert (Hret : forall col col' : list pyval,
            existsb isnull col = false -> Ret col = Ret col' ->
            existsb isnull col' = false).
  { intros col col' Hc [= <-]. exact Hc. }
  assert (Hint : forall col col' : list pyval,
            existsb isnull col = false -> astype_int col = Ret col' ->
            existsb isnull col' = false).
  { intros col col' _. apply astype_int_no_nulls. }
  destruct (fix_column "title" _ _ df) as [d1|e] eqn:H1; [|discriminate].
  destruct (fix_column "genre" _ _ d1) as [d2|e] eqn:H2; [|discriminate].
  destruct (fix_column "year" _ _ d2) as [d3|e] eqn:H3; [|discriminate].
  intros H4.
  apply fix_column_spec in H1 as (T1 & _ & _); [|reflexivity|exact Hret].
  apply fix_column_spec in H2 as (G2 & O2 & _); [|reflexivity|exact Hret].
  apply fix_column_spec in H3 as (Y3 & O3 & _); [|reflexivity|exact Hint].
  apply fix_column_spec in H4 as (D4 & O4 & _); [|reflexivity|exact Hret].
  apply cleaned_clean.
  - rewrite (column_nulls_same d3 df1 "title") by (apply O4; discriminate).
    rewrite (column_nulls_same d2 d3 "title") by (apply O3; discriminate).
    rewrite (column_nulls_same d1 d2 "title") by (apply O2; discriminate).
    exact T1.
  - rewrite (column_nulls_same d3 df1 "genre") by (apply O4; discriminate).
    rewrite (column_nulls_same d2 d3 "genre") by (apply O3; discriminate).
    exact G2.
  - rewrite (column_nulls_same d3 df1 "year") by (apply O4; discriminate).
    exact Y3.
  - exact D4.
Qed.

(** No cell of the frame is null. *)
Definition no_nulls (df : DataFrame) : Prop :=
  forall name col, columns df !! name = Some col ->
                   existsb isnull col = false.

Lemma no_nulls_column df name : no_nulls df -> column_nulls df name = false.
Proof.
  intros Hdf. unfold column_nulls.
  destruct (columns df !! name) as [col|] eqn:Hcol; [|reflexivity].
  exact (Hdf name col Hcol).
Qed.

(** C7: cleaning is idempotent, and the identity on what has no null.
    Whenever [clean_data] accepts a frame and returns [df1], it accepts
    [df1] and returns [df1] again; and it returns a frame without nulls as
    it received it.  The trace plays no role in either. *)
Theorem clean_data_idempotent (df df1 : DataFrame) (tr tr' : list event) :
  (fst (clean_data (ObjFrame df) tr) = Ret df1 ->
   fst (clean_data (ObjFrame df1) tr') = Ret df1) /\
  (no_nulls df -> fst (clean_data (ObjFrame df) tr) = Ret df).
Proof.
  rewrite !clean_data_cleaned. split.
  - apply cleaned_idempotent.
  - intros Hdf. apply cleaned_clean; apply no_nulls_column, Hdf.
Qed.

(** ** Running on an open connection *)

(** [connected h db st]: the manager holds the open handle [h], whose view
    is [db]. *)
Definition connected (h : nat) (db : DB) (st : State) : Prop :=
  connection (fst st) = Some h /\
  exists fk, conns (snd st) !! h = Some (mk_conn db fk).

(** The state in which handle [h] stands for connection [c]. *)
Definition set_conn (h : nat) (c : Conn) (st : State) : State :=
  (fst st,
   mk_world (disk (snd st)) (<[h := c]> (conns (snd st)))
            (next_handle (snd st)) (clock (snd st)) (draws (snd st))).

Lemma connected_set_conn h db fk st :
  connection (fst st) = Some h ->
  connected h db (set_conn h (mk_conn db fk) st).
Proof.
  intros Hc. split; [exact Hc|]. exists fk. simpl. apply lookup_insert_eq.
Qed.

Lemma execute_done h c (stmt : Conn -> stmt_result) db' st :
  conns (snd st) !! h = Some c ->
  stmt c = Done db' ->
  execute h stmt st = (Ret tt, set_conn h (mk_conn db' (foreign_keys c)) st).
Proof.
  intros Hh Hs. unfold execute, with_conn, bind, get_world; simpl.
  rewrite Hh, Hs. reflexivity.
Qed.

(** The row an item statement stores for the parameters it was given. *)
Definition stored_item (id : Z) (t g y d : sqlval) : item_row :=
  mk_item id (text_affinity t) (text_affinity g) (integer_affinity y)
          (text_affinity d).

Lemma insert_item_done mode t g y d db rows :
  items db = Some rows ->
  is_sql_null (text_affinity t) = false ->
  insert_item mode t g y d db =
    Done (set_items
            (rows ++ [stored_item
                        (next_rowid (items_seq db) (map i_id rows)) t g y d])
            (next_rowid (items_seq db) (map i_id rows)) db).
Proof.
  intros Hrows Ht. unfold insert_item. rewrite Hrows, Ht. reflexivity.
Qed.

(** An item statement whose parameters bind and whose title is not NULL
    appends one row to the items table of the connection's view. *)
Lemma execute_insert_item_done h c mode title genre year description
    t g y d rows st :
  conns (snd st) !! h = Some c ->
  items (view c) = Some rows ->
  bind_param title = Ret t ->
  bind_param genre = Ret g ->
  bind_param year = Ret y ->
  bind_param description = Ret d ->
  is_sql_null (text_affinity t) = false ->
  let id := next_rowid (items_seq (view c)) (map i_id rows) in
  execute_insert_item h mode (title, genre, year, description) st =
    (Ret tt,
     set_conn h
       (mk_conn (set_items (rows ++ [stored_item id t g y d]) id (view c))
                (foreign_keys c)) st).
Proof.
  intros Hh Hrows Ht Hg Hy Hd Hnn id.
  unfold execute_insert_item, bind, lift_outcome.
  rewrite Ht, Hg, Hy, Hd.
  apply (execute_done h c); [exact Hh|].
  apply insert_item_done; assumption.
Qed.

(** ** Column aliases *)






(** ** Loading the items *)












(** ** What a connected manager keeps *)

(** [on_handle h P G st]: the manager holds the open handle [h], the view
    behind [h] satisfies [P], and the file and the number of draws made
    satisfy [G]. *)
Definition on_handle (h : nat) (P : DB -> Prop) (G : DB -> nat -> Prop)
    (st : State) : Prop :=
  connection (fst st) = Some h /\
  (exists c, conns (snd st) !! h = Some c /\ P (view c)) /\
  G (disk (snd st)) (draws (snd st)).

Lemma keeps_with_conn_any {A : Type} (I : State -> Prop) h
    (f : Conn -> M A) :
  (forall c st, conns (snd st) !! h = Some c -> I st ->
                wp (f c) (fun _ st' => I st') st) ->
  keeps I (with_conn h f).
Proof.
  intros Hf [m w] HI. unfold with_conn. apply wp_bind.
  unfold wp at 1, get_world. simpl.
  destruct (conns w !! h) as [c|] eqn:Hh; [|exact HI].
  apply Hf; [exact Hh | exact HI].
Qed.

Section OnHandle.

Variable h : nat.
Variable P : DB -> Prop.
Variable G : DB -> nat -> Prop.

(** A commit puts in the file a view that satisfies [P]. *)
Hypothesis G_commit : forall d d' n, P d' -> G d n -> G d' n.

Lemma on_handle_get_cursor : keeps (on_handle h P G) _get_cursor.
Proof.
  intros st HI. unfold wp.
  destruct HI as (Hc & (c & Hh & HP) & Hd).
  rewrite (get_cursor_connected st h Hc); [|eauto].
  simpl. split; [exact Hc|]. split; [eauto | exact Hd].
Qed.

Lemma on_handle_fetch_ids h' q : keeps (on_handle h P G) (fetch_ids h' q).
Proof.
  apply keeps_with_conn_any. intros c st _ HI.
  destruct (q (view c)); exact HI.
Qed.

Lemma on_handle_safe_commit : keeps (on_handle h P G) _safe_commit.
Proof.
  intros [m w] (Hc & (c & Hh & HP) & Hd). simpl in *.
  unfold wp, _safe_commit, bind, get_connection; simpl. rewrite Hc.
  unfold try_except, bind, commit, with_conn, bind, get_world, env_op,
    ret; simpl.
  rewrite Hh; simpl.
  destruct (fails (clock w)); simpl.
  - split; [exact Hc|]. split; [eauto|exact Hd].
  - split; [exact Hc|]. split; [eauto|]. simpl. eapply G_commit; eauto.
Qed.

Lemma on_handle_draw :
  (forall d n, G d n -> G d (S n)) -> keeps (on_handle h P G) draw.
Proof.
  intros HG [m w] (Hc & Hv & Hd). split; [exact Hc|].
  split; [exact Hv|]. simpl. apply HG, Hd.
Qed.

(** A statement that keeps [P] on the view it runs on. *)
Lemma on_handle_execute h' (stmt : Conn -> stmt_result) :
  (forall c db', P (view c) -> stmt c = Done db' -> P db') ->
  keeps (on_handle h P G) (execute h' stmt).
Proof.
  intros Hs. apply keeps_with_conn_any. intros c [m w] Hh' HI.
  destruct (stmt c) as [db'|e] eqn:Hst; [|exact HI].
  destruct HI as (Hc & (c0 & Hh & HP) & Hd).
  split; [exact Hc|]. split; [|exact Hd]. simpl in *.
  destruct (decide (h' = h)) as [->|Hne].
  - rewrite lookup_insert_eq. eexists. split; [reflexivity|]. simpl.
    rewrite Hh in Hh'. injection Hh' as <-. eapply Hs; eauto.
  - rewrite lookup_insert_ne by exact Hne. eauto.
Qed.

End OnHandle.

(** ** Methods that cannot raise *)

Lemma try_except_returns (body : M unit) (st : State) :
  fst (try_except is_exception body (fun _ => ret tt) st) = Ret tt.
Proof.
  unfold try_except. destruct (body st) as [[[]|e] st']; reflexivity.
Qed.

Lemma for_each_returns {A : Type} (l : list A) (body : A -> M unit) :
  (forall x st, fst (body x st) = Ret tt) ->
  forall st, fst (for_each l body st) = Ret tt.
Proof.
  intros Hb. induction l as [|x l IH]; intros st; simpl; [reflexivity|].
  unfold bind. specialize (Hb x st).
  destruct (body x st) as [r st']. simpl in Hb. subst r. apply IH.
Qed.

Lemma ingest_row_returns cur row st : fst (ingest_row cur row st) = Ret tt.
Proof. apply try_except_returns. Qed.

Lemma create_sample_users_returns st :
  fst (_create_sample_users st) = Ret tt.
Proof. apply try_except_returns. Qed.

Lemma create_sample_ratings_returns st :
  fst (_create_sample_ratings st) = Ret tt.
Proof. apply try_except_returns. Qed.

(** ** When the environment refuses nothing *)

Definition reliable : Prop := forall n, fails n = false.

(** [sees db st]: [db] is the database as the manager would find it: the
    view of its connection when it has one, the file otherwise. *)
Definition sees (db : DB) (st : State) : Prop :=
  match connection (fst st) with
  | Some h => exists fk, conns (snd st) !! h = Some (mk_conn db fk)
  | None => disk (snd st) = db
  end.

Section Reliable.

Hypothesis Hrel : reliable.

Lemma get_cursor_sees db st :
  sees db st ->
  exists h st',
    _get_cursor st = (Ret h, st') /\
    connected h db st' /\
    disk (snd st') = disk (snd st) /\
    draws (snd st') = draws (snd st).
Proof.
  unfold sees. destruct (connection (fst st)) as [h|] eqn:Hc.
  - intros [fk Hh]. exists h, st.
    rewrite (get_cursor_connected st h Hc); [|eauto].
    repeat split; eauto.
  - intros Hd. destruct st as [m w]; simpl in *.
    unfold _get_cursor, bind, get_connection; simpl. rewrite Hc.
    unfold connect, try_except, bind, sqlite3_connect, env_op, bind,
      set_connection, pragma_foreign_keys_on, with_conn, bind, get_world,
      put_conn, env_op, get_connection, cursor, with_conn, bind,
      get_world, ret, raise; simpl.
    rewrite !Hrel; simpl. rewrite lookup_insert_eq; simpl.
    rewrite !Hrel; simpl. rewrite lookup_insert_eq; simpl.
    eexists _, _. split; [reflexivity|].
    repeat split; simpl; eauto. exists true.
    rewrite lookup_insert_eq, Hd. reflexivity.
Qed.

Lemma safe_commit_connected h db st :
  connected h db st ->
  exists st',
    _safe_commit st = (Ret true, st') /\
    connected h db st' /\
    disk (snd st') = db /\
    draws (snd st') = draws (snd st).
Proof.
  intros [Hc [fk Hh]]. destruct st as [m w]; simpl in *.
  unfold _safe_commit, bind, get_connection; simpl. rewrite Hc.
  unfold try_except, bind, commit, with_conn, bind, get_world, env_op,
    ret; simpl.
  rewrite Hh; simpl. rewrite Hrel; simpl.
  eexists. split; [reflexivity|].
  repeat split; simpl; eauto.
Qed.

End Reliable.

(** ** Ingestion from a source with data *)

Lemma connected_on_handle h db st :
  connected h db st ->
  on_handle h (fun _ => True) (fun _ n => n = draws (snd st)) st.
Proof.
  intros [Hc [fk Hh]]. split; [exact Hc|]. split; [eauto|reflexivity].
Qed.

Lemma on_handle_connected h P G st :
  on_handle h P G st -> exists db, connected h db st.
Proof.
  intros (Hc & ([v fk] & Hh & _) & _). exists v. split; eauto.
Qed.

(** C3: when the source exists and has data and the environment refuses
    nothing (the cursor is obtained, the commit goes through), ingestion
    returns, leaves the ratings table as it was, in the file and in every
    connection, and draws no random number: it is the loop over the rows,
    the commit and [_create_sample_users], and nothing after them. *)
Theorem external_ingest_leaves_ratings (df : DataFrame) (st : State)
    (db : DB) (R : option (list rating_row)) :
  reliable ->
  nrows df <> 0%nat ->
  sees db st ->
  stores (fun d => ratings d = R) st ->
  exists st',
    insert_initial_data (CsvFrame df) st = (Ret tt, st') /\
    stores (fun d => ratings d = R) st' /\
    draws (snd st') = draws (snd st) /\
    (cur <~ _get_cursor ;;
     for_each (iterrows df) (ingest_row cur) ;;
     _safe_commit ;;
     _create_sample_users) st = (Ret tt, st').
Proof.
  intros Hrel Hrows Hsees Hst.
  set (PR := fun d : DB => ratings d = R) in *.
  assert (HPi : forall mode t g y d d0 d1, PR d0 ->
            insert_item mode t g y d d0 = Done d1 -> PR d1).
  { intros mode t g y d d0 d1 H0 Hdone. unfold PR.
    rewrite (ratings_insert_item _ _ _ _ _ _ _ Hdone). exact H0. }
  assert (HPu : forall mode name d0 d1, PR d0 ->
            insert_user mode name d0 = Done d1 -> PR d1).
  { intros mode name d0 d1 H0 Hdone. unfold PR.
    rewrite (ratings_insert_user _ _ _ _ Hdone). exact H0. }
  (* the cursor *)
  destruct (get_cursor_sees Hrel db st Hsees)
    as (h & st1 & E1 & Hcon1 & _ & Hdr1).
  pose proof (keeps_get_cursor PR st Hst) as Hst1.
  unfold wp in Hst1. rewrite E1 in Hst1. simpl in Hst1.
  pose proof (connected_on_handle h db st1 Hcon1) as Hon1.
  set (I := on_handle h (fun _ => True)
              (fun _ n => n = draws (snd st1))) in *.
  assert (Icommit : keeps I _safe_commit).
  { apply on_handle_safe_commit. auto. }
  assert (Iitem : forall h' mode t g y d,
            keeps I (execute h' (fun c => insert_item mode t g y d (view c)))).
  { intros. apply on_handle_execute. auto. }
  assert (Iuser : forall h' mode name,
            keeps I (execute h' (fun c => insert_user mode name (view c)))).
  { intros. apply on_handle_execute. auto. }
  (* the loop over the rows *)
  destruct (for_each (iterrows df) (ingest_row h) st1) as [r2 st2] eqn:E2.
  assert (r2 = Ret tt) as ->.
  { pose proof (for_each_returns (iterrows df) (ingest_row h)
                  (ingest_row_returns h) st1) as Hr.
    rewrite E2 in Hr. exact Hr. }
  assert (Hon2 : I st2).
  { pose proof (keeps_for_each I (iterrows df) (ingest_row h)
                  (fun row => keeps_ingest_row I Iitem h row) st1 Hon1) as Hk.
    unfold wp in Hk. rewrite E2 in Hk. exact Hk. }
  assert (Hst2 : stores PR st2).
  { pose proof (keeps_for_each (stores PR) (iterrows df) (ingest_row h)
                  (fun row => keeps_ingest_row (stores PR)
                     (fun h' mode t g y d =>
                        keeps_execute PR h' _
                          (fun c db' => HPi mode t g y d (view c) db'))
                     h row) st1 Hst1) as Hk.
    unfold wp in Hk. rewrite E2 in Hk. exact Hk. }
  (* the commit *)
  destruct (on_handle_connected _ _ _ _ Hon2) as [db2 Hcon2].
  destruct (safe_commit_connected Hrel h db2 st2 Hcon2)
    as (st3 & E3 & _ & _ & _).
  pose proof (Icommit st2 Hon2) as Hon3.
  unfold wp in Hon3. rewrite E3 in Hon3. simpl in Hon3.
  pose proof (keeps_safe_commit PR st2 Hst2) as Hst3.
  unfold wp in Hst3. rewrite E3 in Hst3. simpl in Hst3.
  (* the sample users *)
  destruct (_create_sample_users st3) as [r4 st4] eqn:E4.
  assert (r4 = Ret tt) as ->.
  { pose proof (create_sample_users_returns st3) as Hr.
    rewrite E4 in Hr. exact Hr. }
  assert (Hon4 : I st4).
  { pose proof (keeps_create_sample_users I
                  (on_handle_get_cursor h _ _)
                  Icommit Iuser st3 Hon3) as Hk.
    unfold wp in Hk. rewrite E4 in Hk. exact Hk. }
  assert (Hst4 : stores PR st4).
  { pose proof (stores_create_sample_users PR HPu st3 Hst3) as Hk.
    unfold wp in Hk. rewrite E4 in Hk. exact Hk. }
  exists st4.
  assert (Hrun : (cur <~ _get_cursor ;;
                  for_each (iterrows df) (ingest_row cur) ;;
                  _safe_commit ;;
                  _create_sample_users) st = (Ret tt, st4)).
  { unfold bind. rewrite E1, E2, E3, E4. reflexivity. }
  split; [|split; [exact Hst4|split; [|exact Hrun]]].
  - unfold insert_initial_data, bind, try_except, read_csv, ret.
    apply Nat.eqb_neq in Hrows. rewrite Hrows.
    rewrite E1, E2, E3, E4. reflexivity.
  - destruct Hon4 as (_ & _ & Hd). rewrite Hd. exact Hdr1.
Qed.

(** ** The sample catalog, inserted again and again *)

(** [n] invocations in a row. *)
Fixpoint times (n : nat) (c : M unit) : M unit :=
  match n with
  | O => ret tt
  | S n' => c ;; times n' c
  end.

(** The items table exists and holds [k] rows. *)
Definition item_count (k : nat) (db : DB) : Prop :=
  exists rows, items db = Some rows /\ length rows = k.

Lemma wp_run {S A : Type} (c : Mon S A) (Q : outcome A -> S -> Prop)
    st r st' :
  c st = (r, st') -> Q r st' -> wp c Q st.
Proof. unfold wp. intros ->. auto. Qed.

Lemma wp_keeps_returns (I : State -> Prop) (c : M unit) st :
  keeps I c -> (forall st0, fst (c st0) = Ret tt) -> I st ->
  wp c (fun r st' => r = Ret tt /\ I st') st.
Proof.
  intros Hk Hr HI. split; [apply Hr | apply Hk, HI].
Qed.

Lemma items_insert_user mode name db db' :
  insert_user mode name db = Done db' -> items db' = items db.
Proof.
  unfold insert_user, on_violation. destruct (users db); [|discriminate].
  destruct (existsb _ _); [destruct mode; [discriminate|]|];
    intros [= <-]; reflexivity.
Qed.

Lemma items_insert_rating mode fk uid iid v db db' :
  insert_rating mode fk uid iid v db = Done db' -> items db' = items db.
Proof.
  intros Hdone.
  destruct (insert_rating_done _ _ _ _ _ _ _ Hdone)
    as [[_ ->]|(rows & q & _ & _ & _ & _ & ->)]; reflexivity.
Qed.

(** A plain INSERT of an item whose parameters bind and whose title is not
    NULL adds one row, on a connected manager. *)
Lemma on_handle_insert_item h G k title genre year description t g y d st :
  bind_param title = Ret t ->
  bind_param genre = Ret g ->
  bind_param year = Ret y ->
  bind_param description = Ret d ->
  is_sql_null (text_affinity t) = false ->
  on_handle h (item_count k) G st ->
  wp (execute_insert_item h OnAbort (title, genre, year, description))
     (fun r st' => r = Ret tt /\ on_handle h (item_count (S k)) G st') st.
Proof.
  intros Ht Hg Hy Hd Hnn (Hc & (c & Hh & rows & Hrows & Hlen) & HG).
  eapply wp_run.
  { eapply execute_insert_item_done; eauto. }
  split; [reflexivity|]. split; [exact Hc|]. split; [|exact HG].
  simpl. rewrite lookup_insert_eq. eexists. split; [reflexivity|].
  simpl. eexists. split; [reflexivity|].
  rewrite length_app. simpl. lia.
Qed.

(** After [_safe_commit] the file holds what the view holds, unless the
    environment refused the commit. *)
Lemma safe_commit_syncs h P G st :
  on_handle h P G st ->
  wp _safe_commit
     (fun r st' =>
        (exists b, r = Ret b) /\
        on_handle h P (fun d _ => reliable -> P d) st') st.
Proof.
  destruct st as [m w]. intros (Hc & (c & Hh & HP) & Hd). simpl in *.
  unfold wp, _safe_commit, bind, get_connection; simpl. rewrite Hc.
  unfold try_except, bind, commit, with_conn, bind, get_world, env_op,
    ret; simpl.
  rewrite Hh; simpl.
  destruct (fails (clock w)) eqn:Hf; simpl.
  - split; [eauto|]. split; [exact Hc|]. split; [eauto|].
    intros Hrel. rewrite (Hrel (clock w)) in Hf. discriminate.
  - split; [eauto|]. split; [exact Hc|]. split; [eauto|]. auto.
Qed.

(** One invocation of [_create_sample_data] on a connected manager adds five
    rows to the items table, and they are in the file when the environment
    refused nothing. *)
Lemma create_sample_data_adds h G k st :
  on_handle h (item_count k) G st ->
  wp _create_sample_data
     (fun r st' =>
        r = Ret tt /\
        on_handle h (item_count (k + 5))
                  (fun d _ => reliable -> item_count (k + 5) d) st') st.
Proof.
  intros Hon. unfold _create_sample_data. apply wp_try_except.
  eapply (wp_conseq _
            (fun r st' =>
               r = Ret tt /\
               on_handle h (item_count (k + 5))
                 (fun d _ => reliable -> item_count (k + 5) d) st'));
    [|intros r st' [-> H]; exact (conj eq_refl H)].
  apply wp_bind.
  destruct Hon as (Hc & (c & Hh & HP) & HG).
  eapply wp_run; [apply (get_cursor_connected st h Hc); eauto|].
  assert (Hon : on_handle h (item_count k) G st).
  { split; [exact Hc|]. split; [eauto|exact HG]. }
  clear c Hh HP HG.
  apply wp_bind. unfold sample_items. cbn [for_each].
  apply wp_bind. eapply wp_conseq;
    [eapply (on_handle_insert_item h G k); [reflexivity..|exact Hon]|].
  clear st Hc Hon. intros r st [-> Hon].
  apply wp_bind. eapply wp_conseq;
    [eapply (on_handle_insert_item h G (S k)); [reflexivity..|exact Hon]|].
  clear st Hon. intros r st [-> Hon].
  apply wp_bind. eapply wp_conseq;
    [eapply (on_handle_insert_item h G (S (S k))); [reflexivity..|exact Hon]|].
  clear st Hon. intros r st [-> Hon].
  apply wp_bind. eapply wp_conseq;
    [eapply (on_handle_insert_item h G (S (S (S k)))); [reflexivity..|exact Hon]|].
  clear st Hon. intros r st [-> Hon].
  apply wp_bind. eapply wp_conseq;
    [eapply (on_handle_insert_item h G (S (S (S (S k))))); [reflexivity..|exact Hon]|].
  clear st Hon. intros r st [-> Hon].
  apply wp_ret. apply wp_bind.
  replace (S (S (S (S (S k))))) with (k + 5)%nat in Hon by lia.
  eapply wp_conseq; [apply (safe_commit_syncs h _ G st Hon)|].
  clear st Hon. intros r st [[ok ->] Hon].
  set (I := on_handle h (item_count (k + 5))
              (fun d _ => reliable -> item_count (k + 5) d)) in *.
  assert (Icommit : keeps I _safe_commit).
  { apply on_handle_safe_commit. auto. }
  assert (Iuser : forall h' mode name,
            keeps I (execute h' (fun c => insert_user mode name (view c)))).
  { intros. apply on_handle_execute.
    intros c db' (rows & Hrows & Hlen) Hdone. exists rows.
    rewrite (items_insert_user _ _ _ _ Hdone). auto. }
  assert (Irating : forall h' uid iid v,
            keeps I (execute h' (fun c =>
              insert_rating OnIgnore (foreign_keys c) uid iid v (view c)))).
  { intros. apply on_handle_execute.
    intros c db' (rows & Hrows & Hlen) Hdone. exists rows.
    rewrite (items_insert_rating _ _ _ _ _ _ _ Hdone). auto. }
  destruct ok; [|apply wp_ret; auto].
  apply wp_bind. eapply wp_conseq.
  { apply (wp_keeps_returns I _create_sample_users st);
      [|apply create_sample_users_returns|exact Hon].
    apply keeps_create_sample_users;
      [apply on_handle_get_cursor | exact Icommit | exact Iuser]. }
  clear st Hon. intros r st [-> Hon].
  apply (wp_keeps_returns I _create_sample_ratings st);
    [|apply create_sample_ratings_returns|exact Hon].
  apply keeps_create_sample_ratings;
    [apply on_handle_get_cursor | exact Icommit
    | apply on_handle_fetch_ids | apply on_handle_draw; auto
    | exact Irating].
Qed.

(** C10: [_create_sample_data] inserts its five items with a plain INSERT,
    so every invocation on a connected manager adds five rows to the items
    table: after [n] invocations the table the connection sees holds [5 * n]
    rows more than before, whatever the environment and the random generator
    do, and so does the file when at least one invocation ran and the
    environment refused nothing.  From an empty table that is [5 * n]
    rows. *)
Theorem sample_catalog_not_idempotent (n : nat) (st : State) (h : nat)
    (c : Conn) (rows : list item_row) :
  connection (fst st) = Some h ->
  conns (snd st) !! h = Some c ->
  items (view c) = Some rows ->
  exists st' c' rows',
    times n _create_sample_data st = (Ret tt, st') /\
    connection (fst st') = Some h /\
    conns (snd st') !! h = Some c' /\
    items (view c') = Some rows' /\
    length rows' = (length rows + 5 * n)%nat /\
    (reliable -> (0 < n)%nat ->
     exists stored, items (disk (snd st')) = Some stored /\
                    length stored = (length rows + 5 * n)%nat).
Proof.
  intros Hc Hh Hrows.
  assert (Hgen : forall n k G st,
            on_handle h (item_count k) G st ->
            wp (times n _create_sample_data)
               (fun r st' =>
                  r = Ret tt /\
                  on_handle h (item_count (k + 5 * n))
                    (fun d _ => reliable -> (0 < n)%nat ->
                                item_count (k + 5 * n) d) st') st).
  { clear. induction n as [|n IH]; intros k G st Hon.
    - apply wp_ret. split; [reflexivity|].
      destruct Hon as (Hc & Hv & _). split; [exact Hc|].
      replace (k + 5 * 0)%nat with k by lia. split; [exact Hv|]. lia.
    - simpl times. apply wp_bind.
      eapply wp_conseq; [apply (create_sample_data_adds h G k st Hon)|].
      clear st Hon. intros r st [-> Hon].
      destruct n as [|n].
      + apply wp_ret. split; [reflexivity|].
        replace (k + 5 * 1)%nat with (k + 5)%nat by lia.
        destruct Hon as (Hc & Hv & Hd). split; [exact Hc|].
        split; [exact Hv|]. auto.
      + eapply wp_conseq; [apply (IH (k + 5)%nat _ st Hon)|].
        intros r st' [-> Hon'].
        replace (k + 5 * S (S n))%nat with (k + 5 + 5 * S n)%nat by lia.
        split; [reflexivity|].
        destruct Hon' as (Hc & Hv & Hd). split; [exact Hc|].
        split; [exact Hv|]. intros Hrel _. apply Hd; [exact Hrel|lia]. }
  assert (Hon : on_handle h (item_count (length rows)) (fun _ _ => True) st).
  { split; [exact Hc|]. split; [|exact I]. exists c. split; [exact Hh|].
    exists rows. auto. }
  specialize (Hgen n (length rows) (fun _ _ => True) st Hon).
  unfold wp in Hgen.
  destruct (times n _create_sample_data st) as [r st'] eqn:Hrun.
  simpl in Hgen.
  destruct Hgen as (-> & Hc' & (c' & Hh' & rows' & Hrows' & Hlen') & Hd).
  exists st', c', rows'. repeat split; auto.
Qed.

(** ** Exact runs on a connected manager *)

(** The manager, the connections and the file are the same in both states
    (the clock and the number of draws may differ). *)
Definition same_conns (st st' : State) : Prop :=
  fst st' = fst st /\
  conns (snd st') = conns (snd st) /\
  disk (snd st') = disk (snd st).

Lemma same_conns_refl st : same_conns st st.
Proof. repeat split. Qed.

Lemma same_conns_trans st1 st2 st3 :
  same_conns st1 st2 -> same_conns st2 st3 -> same_conns st1 st3.
Proof.
  intros (H1 & H2 & H3) (H4 & H5 & H6). repeat split; congruence.
Qed.

Lemma connected_same_conns h db st st' :
  same_conns st st' -> connected h db st -> connected h db st'.
Proof.
  intros (Hm & Hc & _) [Hcon Hv]. split; [congruence|].
  rewrite Hc. exact Hv.
Qed.

Lemma draw_run st :
  exists st', draw st = (Ret (rand (draws (snd st))), st') /\ same_conns st st'.
Proof. eexists. split; [reflexivity|]. repeat split. Qed.

Lemma delete_nodup (pop : list Z) i x :
  pop !! i = Some x -> NoDup pop ->
  NoDup (delete i pop) /\ x ∉ delete i pop.
Proof.
  intros Hx Hnd. rewrite delete_take_drop.
  rewrite <- (take_drop_middle pop i x Hx) in Hnd.
  apply NoDup_app in Hnd as (Ht & Hdisj & Hxd).
  apply NoDup_cons in Hxd as (Hxd & Hd).
  split.
  - apply NoDup_app. split; [exact Ht|]. split; [|exact Hd].
    intros y Hy Hyd. apply (Hdisj y Hy). right. exact Hyd.
  - intros Hin. apply elem_of_app in Hin as [Hin|Hin].
    + apply (Hdisj x Hin). left.
    + exact (Hxd Hin).
Qed.

(** [random.sample] returns [k] distinct members of the population. *)
Lemma sample_from_spec k : forall pop st,
  (k <= length pop)%nat -> NoDup pop ->
  exists s st',
    sample_from pop k st = (Ret s, st') /\
    same_conns st st' /\
    length s = k /\ NoDup s /\ (forall x, x ∈ s -> x ∈ pop).
Proof.
  induction k as [|k IH]; intros pop st Hlen Hnd.
  - exists [], st. split; [reflexivity|]. split; [apply same_conns_refl|].
    split; [reflexivity|]. split; [constructor|].
    intros x Hx. inversion Hx.
  - simpl. unfold bind at 1.
    destruct (draw_run st) as (st1 & -> & Hs1).
    set (i := (rand (draws (snd st)) mod length pop)%nat).
    assert (Hi : (i < length pop)%nat).
    { apply Nat.mod_upper_bound. lia. }
    destruct (lookup_lt_is_Some_2 pop i Hi) as [x Hx]. rewrite Hx.
    destruct (delete_nodup pop i x Hx Hnd) as [Hnd' Hnotin].
    destruct (IH (delete i pop) st1) as (s & st2 & Hrun & Hs2 & Hl & Hn & Hsub).
    { rewrite length_delete by eauto. lia. }
    { exact Hnd'. }
    unfold bind. rewrite Hrun. exists (x :: s), st2.
    split; [reflexivity|].
    split; [eapply same_conns_trans; eauto|].
    split; [simpl; lia|]. split.
    + apply NoDup_cons. split; [|exact Hn].
      intros Hin. apply Hnotin, Hsub, Hin.
    + intros y Hy. apply elem_of_cons in Hy as [->|Hy].
      * eapply list_elem_of_lookup_2, Hx.
      * eapply list_elem_of_delete_inv, Hsub, Hy.
Qed.

Lemma random_sample_spec pop k st :
  (k <= length pop)%nat -> NoDup pop ->
  exists s st',
    random_sample pop k st = (Ret s, st') /\
    same_conns st st' /\
    length s = k /\ NoDup s /\ (forall x, x ∈ s -> x ∈ pop).
Proof.
  intros Hlen Hnd. unfold random_sample.
  destruct (length pop <? k)%nat eqn:Hlt.
  - apply Nat.ltb_lt in Hlt. lia.
  - apply sample_from_spec; assumption.
Qed.

(** The rating drawn lies in [3, 5]. *)
Lemma round_uniform_spec st :
  exists q st',
    round_uniform_3_5 st = (Ret (PyFloat q), st') /\
    same_conns st st' /\
    (3 <= q)%Q /\ (q <= 5)%Q.
Proof.
  unfold round_uniform_3_5, bind.
  destruct (draw_run st) as (st1 & -> & Hs1).
  eexists _, st1. split; [reflexivity|]. split; [exact Hs1|].
  set (n := rand (draws (snd st))).
  assert (Hn : (n mod 21 < 21)%nat) by (apply Nat.mod_upper_bound; lia).
  unfold Qle; simpl. lia.
Qed.

Lemma execute_connected h db db' (stmt : Conn -> stmt_result) st :
  connected h db st ->
  (forall fk, stmt (mk_conn db fk) = Done db') ->
  exists st',
    execute h stmt st = (Ret tt, st') /\
    connected h db' st' /\
    disk (snd st') = disk (snd st).
Proof.
  intros [Hc [fk Hh]] Hs.
  exists (set_conn h (mk_conn db' fk) st).
  split; [|split; [apply connected_set_conn, Hc | reflexivity]].
  apply (execute_done h (mk_conn db fk)); [exact Hh | apply Hs].
Qed.

(** A sequence of statements, each on the result of the one before. *)
Fixpoint run_stmts (l : list (DB -> stmt_result)) (db : DB) : stmt_result :=
  match l with
  | [] => Done db
  | stmt :: l' =>
      match stmt db with
      | Done db1 => run_stmts l' db1
      | Failed e => Failed e
      end
  end.

(** A loop whose turns each run one statement that succeeds. *)
Lemma for_each_connected {A : Type} h (l : list A) (body : A -> M unit)
    (stmt : A -> DB -> stmt_result) :
  (forall x db db' st,
     connected h db st -> stmt x db = Done db' ->
     exists st',
       body x st = (Ret tt, st') /\ connected h db' st' /\
       disk (snd st') = disk (snd st)) ->
  forall db db' st,
    connected h db st ->
    run_stmts (map stmt l) db = Done db' ->
    exists st',
      for_each l body st = (Ret tt, st') /\ connected h db' st' /\
      disk (snd st') = disk (snd st).
Proof.
  intros Hbody. induction l as [|x l IH]; intros db db' st Hcon Hrun.
  - injection Hrun as <-. exists st. auto.
  - simpl in Hrun. destruct (stmt x db) as [db1|e] eqn:Hx; [|discriminate].
    destruct (Hbody x db db1 st Hcon Hx) as (st1 & E1 & Hcon1 & Hd1).
    destruct (IH db1 db' st1 Hcon1 Hrun) as (st2 & E2 & Hcon2 & Hd2).
    exists st2. simpl. unfold bind. rewrite E1, E2.
    split; [reflexivity|]. split; [exact Hcon2|congruence].
Qed.

(** The statement of [execute_insert_item], with the binding of its
    parameters. *)
Definition item_stmt (mode : conflict) (item : pyval * pyval * pyval * pyval)
    (db : DB) : stmt_result :=
  let '(title, genre, year, description) := item in
  match bind_param title, bind_param genre, bind_param year,
        bind_param description with
  | Ret t, Ret g, Ret y, Ret d => insert_item mode t g y d db
  | _, _, _, _ => Failed ProgrammingError
  end.

Lemma execute_insert_item_connected h mode item db db' st :
  connected h db st ->
  item_stmt mode item db = Done db' ->
  exists st',
    execute_insert_item h mode item st = (Ret tt, st') /\
    connected h db' st' /\
    disk (snd st') = disk (snd st).
Proof.
  intros Hcon Hs. destruct item as [[[title genre] year] description].
  unfold item_stmt in Hs. unfold execute_insert_item, bind, lift_outcome.
  destruct (bind_param title) as [t|]; [|discriminate].
  destruct (bind_param genre) as [g|]; [|discriminate].
  destruct (bind_param year) as [y|]; [|discriminate].
  destruct (bind_param description) as [d|]; [|discriminate].
  apply (execute_connected h db db'); [exact Hcon|]. intros fk. exact Hs.
Qed.

Section ReliableRuns.

Hypothesis Hrel : reliable.

(** [_create_sample_users] on a connected manager, when its three
    statements succeed. *)
Lemma create_sample_users_connected h db db' st :
  connected h db st ->
  run_stmts (map (insert_user OnIgnore) sample_users) db = Done db' ->
  exists st',
    _create_sample_users st = (Ret tt, st') /\
    connected h db' st' /\
    disk (snd st') = db'.
Proof.
  intros Hcon Hrun. unfold _create_sample_users, try_except, bind.
  destruct Hcon as [Hc Hv]. destruct (Hv) as [fk Hh].
  rewrite (get_cursor_connected st h Hc) by eauto.
  destruct (for_each_connected h sample_users
              (fun user => execute h (fun c => insert_user OnIgnore user (view c)))
              (insert_user OnIgnore)) with (db := db) (db' := db') (st := st)
    as (st1 & E1 & Hcon1 & _); [|split; assumption|exact Hrun|].
  { intros x d d' st0 Hcon0 Hx.
    apply (execute_connected h d d'); [exact Hcon0|]. intros fk0. exact Hx. }
  rewrite E1.
  destruct (safe_commit_connected Hrel h db' st1 Hcon1)
    as (st2 & E2 & Hcon2 & Hd2 & _).
  rewrite E2. exists st2. auto.
Qed.

End ReliableRuns.

(** ** The synthesised ratings *)

(** The ratings of user [u] among [rs]. *)
Definition rows_of (u : Z) (rs : list rating_row) : list rating_row :=
  List.filter (fun r => r_user_id r =? u) rs.

Definition in_3_5 (r : rating_row) : Prop :=
  (3 <= r_rating r)%Q /\ (r_rating r <= 5)%Q.

(** [rated uids iids k rs]: every row of [rs] rates an item of [iids] for a
    user of [uids] with a value in [3, 5], and every user of [uids] has [k]
    rows, on [k] different items. *)
Definition rated (uids iids : list Z) (k : nat) (rs : list rating_row)
  : Prop :=
  Forall (fun r => in_3_5 r /\ r_user_id r ∈ uids /\ r_item_id r ∈ iids) rs /\
  forall u, u ∈ uids ->
    length (rows_of u rs) = k /\ NoDup (map r_item_id (rows_of u rs)).

Lemma has_id_true id (ids : list Z) : id ∈ ids -> has_id id ids = true.
Proof.
  intros Hin. unfold has_id. apply existsb_exists. exists id.
  split; [apply list_elem_of_In, Hin | apply Z.eqb_refl].
Qed.

Lemma has_rating_app uid iid rs rs' :
  has_rating uid iid (rs ++ rs') =
  has_rating uid iid rs || has_rating uid iid rs'.
Proof. apply existsb_app. Qed.

Lemma has_rating_other_user uid iid rs :
  (forall r, r ∈ rs -> r_user_id r <> uid) -> has_rating uid iid rs = false.
Proof.
  intros Hrs. unfold has_rating. apply not_true_is_false. intros Hex.
  apply existsb_exists in Hex as (r & Hin & Hr).
  apply andb_prop in Hr as [Hu _]. apply Z.eqb_eq in Hu.
  apply (Hrs r); [apply list_elem_of_In, Hin | exact Hu].
Qed.

Lemma rows_of_app u rs rs' :
  rows_of u (rs ++ rs') = rows_of u rs ++ rows_of u rs'.
Proof. apply List.filter_app. Qed.

Lemma rows_of_all u rs :
  Forall (fun r => r_user_id r = u) rs -> rows_of u rs = rs.
Proof.
  induction 1 as [|r rs Hr _ IH]; simpl; [reflexivity|].
  rewrite Hr, Z.eqb_refl, IH. reflexivity.
Qed.

Lemma rows_of_none u rs :
  Forall (fun r => r_user_id r <> u) rs -> rows_of u rs = [].
Proof.
  induction 1 as [|r rs Hr _ IH]; simpl; [reflexivity|].
  apply Z.eqb_neq in Hr. rewrite Hr. exact IH.
Qed.

(** The INSERT OR IGNORE of a rating in [3, 5] for an existing user and an
    existing item that the user has not rated appends the row. *)
Lemma insert_rating_fresh fk u i q db us its rs :
  users db = Some us ->
  items db = Some its ->
  u ∈ map u_id us ->
  i ∈ map i_id its ->
  (3 <= q)%Q -> (q <= 5)%Q ->
  has_rating u i rs = false ->
  insert_rating OnIgnore fk u i (SqlReal q) (set_ratings rs db) =
    Done (set_ratings (rs ++ [mk_rating u i q]) db).
Proof.
  intros Hus Hits Hu Hi H3 H5 Hpk. unfold insert_rating.
  cbn [ratings set_ratings users items select_user_ids select_item_ids
       real_affinity is_sql_null stored_real].
  rewrite Hus, Hits. cbn [table_exists andb negb fmap option_fmap option_map
                          default from_option].
  rewrite andb_false_r.
  assert (Hck : rating_check (SqlReal q) = true).
  { simpl. apply andb_true_intro. split; apply Qle_bool_iff; [|exact H5].
    apply Qle_trans with 3%Q; [discriminate | exact H3]. }
  rewrite Hck, Hpk. cbn [negb].
  unfold select_user_ids, select_item_ids.
  cbn [users items set_ratings]. rewrite Hus, Hits.
  cbn [fmap option_fmap option_map default from_option id].
  rewrite (has_id_true u _ Hu), (has_id_true i _ Hi). cbn [andb negb].
  rewrite andb_false_r. reflexivity.
Qed.

Section RatingLoops.

Variable h : nat.
Variable db : DB.
Variable us : list user_row.
Variable its : list item_row.
Hypothesis Hus : users db = Some us.
Hypothesis Hits : items db = Some its.

(** The loop over the sampled items of one user. *)
Lemma rate_items u :
  u ∈ map u_id us ->
  forall s, NoDup s -> (forall i, i ∈ s -> i ∈ map i_id its) ->
  forall rs st,
    connected h (set_ratings rs db) st ->
    (forall i, i ∈ s -> has_rating u i rs = false) ->
    exists st' added,
      for_each s (fun item_id =>
        rating <~ round_uniform_3_5 ;;
        r <~ lift_outcome (bind_param rating) ;;
        execute h (fun c =>
          insert_rating OnIgnore (foreign_keys c) u item_id r (view c))) st
      = (Ret tt, st') /\
      connected h (set_ratings (rs ++ added) db) st' /\
      disk (snd st') = disk (snd st) /\
      Forall (fun r => r_user_id r = u) added /\
      map r_item_id added = s /\
      Forall in_3_5 added.
Proof.
  intros Hu. induction s as [|i s IH]; intros Hnd Hsub rs st Hcon Hfresh.
  - exists st, []. rewrite app_nil_r.
    split; [reflexivity|]. split; [exact Hcon|]. split; [reflexivity|].
    split; [constructor|]. split; [reflexivity|constructor].
  - apply NoDup_cons in Hnd as [Hi Hnd].
    destruct (round_uniform_spec st) as (q & st1 & E1 & Hs1 & H3 & H5).
    pose proof (connected_same_conns h _ st st1 Hs1 Hcon) as Hcon1.
    destruct (execute_connected h (set_ratings rs db)
                (set_ratings (rs ++ [mk_rating u i q]) db)
                (fun c => insert_rating OnIgnore (foreign_keys c) u i
                            (SqlReal q) (view c)) st1 Hcon1)
      as (st2 & E2 & Hcon2 & Hd2).
    { intros fk. simpl. apply (insert_rating_fresh fk u i q db us its rs);
        auto.
      - apply Hsub. left.
      - apply Hfresh. left. }
    destruct (IH Hnd (fun j Hj => Hsub j (list_elem_of_further _ _ _ Hj))
                (rs ++ [mk_rating u i q]) st2 Hcon2)
      as (st3 & added & E3 & Hcon3 & Hd3 & Hau & Hai & Har).
    { intros j Hj. rewrite has_rating_app, (Hfresh j) by (right; exact Hj).
      simpl. rewrite orb_false_r. apply andb_false_intro2.
      apply Z.eqb_neq. intros ->. exact (Hi Hj). }
    exists st3, (mk_rating u i q :: added).
    split.
    { cbn [for_each]. unfold bind in *. rewrite E1.
      cbn [bind_param lift_outcome]. rewrite E2. exact E3. }
    split; [rewrite <- app_assoc in Hcon3; exact Hcon3|].
    split; [destruct Hs1 as (_ & _ & Hd1); congruence|].
    split; [constructor; [reflexivity|exact Hau]|].
    split; [simpl; rewrite Hai; reflexivity|].
    constructor; [split; assumption|exact Har].
Qed.

(** The loop over the users. *)
Lemma rate_users (item_ids : list Z) (k : nat) :
  item_ids = map i_id its ->
  NoDup item_ids ->
  (k <= length item_ids)%nat ->
  forall uids, NoDup uids -> (forall u, u ∈ uids -> u ∈ map u_id us) ->
  forall rs st,
    connected h (set_ratings rs db) st ->
    (forall r, r ∈ rs -> r_user_id r ∉ uids) ->
    exists st' added,
      for_each uids (fun user_id =>
        sample_items <~ random_sample item_ids k ;;
        for_each sample_items (fun item_id =>
          rating <~ round_uniform_3_5 ;;
          r <~ lift_outcome (bind_param rating) ;;
          execute h (fun c =>
            insert_rating OnIgnore (foreign_keys c)
                          user_id item_id r (view c)))) st
      = (Ret tt, st') /\
      connected h (set_ratings (rs ++ added) db) st' /\
      disk (snd st') = disk (snd st) /\
      rated uids item_ids k added.
Proof.
  intros Hids Hnd_items Hk.
  induction uids as [|u uids IH]; intros Hnd Hsub rs st Hcon Hrs.
  - exists st, []. rewrite app_nil_r.
    split; [reflexivity|]. split; [exact Hcon|]. split; [reflexivity|].
    split; [constructor|]. intros u Hu. inversion Hu.
  - apply NoDup_cons in Hnd as [Hu Hnd].
    destruct (random_sample_spec item_ids k st Hk Hnd_items)
      as (s & st1 & E1 & Hs1 & Hlen & Hnds & Hsubs).
    pose proof (connected_same_conns h _ st st1 Hs1 Hcon) as Hcon1.
    destruct (rate_items u (Hsub u (list_elem_of_here _ _)) s Hnds
                (fun i Hi => eq_ind _ (fun l => i ∈ l) (Hsubs i Hi) _ Hids)
                rs st1 Hcon1)
      as (st2 & added_u & E2 & Hcon2 & Hd2 & Hau & Hai & Har).
    { intros i _. apply has_rating_other_user. intros r Hr Heq.
      apply (Hrs r Hr). rewrite Heq. left. }
    destruct (IH Hnd (fun v Hv => Hsub v (list_elem_of_further _ _ _ Hv))
                (rs ++ added_u) st2 Hcon2)
      as (st3 & added & E3 & Hcon3 & Hd3 & Hall & Hcount).
    { intros r Hr Hin. apply elem_of_app in Hr as [Hr|Hr].
      - apply (Hrs r Hr). right. exact Hin.
      - rewrite (proj1 (Forall_forall _ _) Hau r Hr) in Hin. exact (Hu Hin). }
    exists st3, (added_u ++ added).
    split.
    { cbn [for_each]. unfold bind in *. rewrite E1, E2. exact E3. }
    split; [rewrite <- app_assoc in Hcon3; exact Hcon3|].
    split; [destruct Hs1 as (_ & _ & Hd1); congruence|].
    assert (Hothers : Forall (fun r => r_user_id r <> u) added).
    { eapply Forall_impl; [exact Hall|].
      intros r (_ & Hr & _) Heq. simpl in Heq. rewrite Heq in Hr.
      exact (Hu Hr). }
    split.
    + apply Forall_app. split.
      * apply Forall_forall. intros r Hr.
        split; [exact (proj1 (Forall_forall _ _) Har r Hr)|].
        split.
        -- rewrite (proj1 (Forall_forall _ _) Hau r Hr). left.
        -- apply Hsubs. rewrite <- Hai.
           apply list_elem_of_fmap. exists r. auto.
      * eapply Forall_impl; [exact Hall|].
        intros r (H35 & Hr & Hi). split; [exact H35|].
        split; [right; exact Hr|exact Hi].
    + intros v Hv. rewrite rows_of_app.
      apply elem_of_cons in Hv as [->|Hv].
      * rewrite (rows_of_all u added_u Hau), (rows_of_none u added Hothers),
          app_nil_r, Hai.
        split; [|exact Hnds].
        rewrite <- Hlen, <- Hai, length_map. reflexivity.
      * rewrite (rows_of_none v added_u), app_nil_l; [apply Hcount, Hv|].
        eapply Forall_impl; [exact Hau|].
        intros r Hr Heq. simpl in Hr. rewrite Hr in Heq. subst v.
        exact (Hu Hv).
Qed.

End RatingLoops.

Lemma fetch_ids_connected h db (query : DB -> option (list Z)) ids st :
  connected h db st ->
  query db = Some ids ->
  fetch_ids h query st = (Ret ids, st).
Proof.
  intros [_ [fk Hh]] Hq. unfold fetch_ids, with_conn, bind, get_world; simpl.
  rewrite Hh; simpl. rewrite Hq. reflexivity.
Qed.

Lemma set_ratings_same db rs : ratings db = Some rs -> set_ratings rs db = db.
Proof. destruct db; simpl. intros ->. reflexivity. Qed.

(** The database a statement leaves, when it succeeds. *)
Definition db_of (r : stmt_result) : DB :=
  match r with Done db => db | Failed _ => empty_db end.

(** The fresh store with the sample catalog, and with the sample users as
    well. *)
Definition catalog_db : DB :=
  db_of (run_stmts (map (item_stmt OnAbort) sample_items) fresh_db).

Definition seeded_db : DB :=
  db_of (run_stmts (map (insert_user OnIgnore) sample_users) catalog_db).

Section ReliableSample.

Hypothesis Hrel : reliable.

(** [_create_sample_ratings] on a connected manager whose view has users and
    items, none of the users having rated anything yet. *)
Lemma create_sample_ratings_connected h db us its rs st :
  connected h db st ->
  users db = Some us ->
  items db = Some its ->
  ratings db = Some rs ->
  us <> [] -> its <> [] ->
  NoDup (map u_id us) ->
  NoDup (map i_id its) ->
  (forall r, r ∈ rs -> r_user_id r ∉ map u_id us) ->
  exists st' added,
    _create_sample_ratings st = (Ret tt, st') /\
    connected h (set_ratings (rs ++ added) db) st' /\
    disk (snd st') = set_ratings (rs ++ added) db /\
    rated (map u_id us) (map i_id its) (Nat.min 5 (length its)) added.
Proof.
  intros Hcon Hus Hits Hrs Hne_us Hne_its Hnd_us Hnd_its Hfresh.
  assert (Hcon0 : connected h (set_ratings rs db) st).
  { rewrite (set_ratings_same db rs Hrs). exact Hcon. }
  destruct (rate_users h db us its Hus Hits (map i_id its)
              (Nat.min 5 (length (map i_id its))) eq_refl Hnd_its
              (Nat.le_min_r _ _) (map u_id us) Hnd_us (fun u Hu => Hu)
              rs st Hcon0 Hfresh)
    as (st1 & added & E1 & Hcon1 & Hd1 & Hrated).
  destruct (safe_commit_connected Hrel h _ st1 Hcon1)
    as (st2 & E2 & Hcon2 & Hd2 & _).
  exists st2, added.
  split; [|split; [exact Hcon2|split; [exact Hd2|]]].
  - unfold _create_sample_ratings, try_except.
    unfold bind at 1.
    rewrite (get_cursor_connected st h (proj1 Hcon))
      by (destruct Hcon as [_ [fk Hh]]; eauto).
    unfold bind at 1.
    rewrite (fetch_ids_connected h db select_user_ids (map u_id us) st Hcon)
      by (unfold select_user_ids; rewrite Hus; reflexivity).
    unfold bind at 1.
    rewrite (fetch_ids_connected h db select_item_ids (map i_id its) st Hcon)
      by (unfold select_item_ids; rewrite Hits; reflexivity).
    assert (is_empty_list (map u_id us) = false) as ->
      by (destruct us; [contradiction|reflexivity]).
    assert (is_empty_list (map i_id its) = false) as ->
      by (destruct its; [contradiction|reflexivity]).
    cbn [orb].
    unfold bind at 1. rewrite E1.
    unfold bind at 1. rewrite E2. reflexivity.
  - rewrite length_map in Hrated. exact Hrated.
Qed.

(** [_create_sample_data] on a fresh store. *)
Lemma create_sample_data_fresh st :
  sees fresh_db st ->
  exists st' added,
    _create_sample_data st = (Ret tt, st') /\
    disk (snd st') = set_ratings added seeded_db /\
    rated [1; 2; 3] [1; 2; 3; 4; 5] 5 added.
Proof.
  intros Hsees.
  destruct (get_cursor_sees Hrel fresh_db st Hsees)
    as (h & st1 & E1 & Hcon1 & _ & _).
  destruct (for_each_connected h sample_items
              (fun item => execute_insert_item h OnAbort item)
              (item_stmt OnAbort)
              (fun x d d' st0 => execute_insert_item_connected h OnAbort x d d' st0)
              fresh_db catalog_db st1 Hcon1 eq_refl)
    as (st2 & E2 & Hcon2 & _).
  destruct (safe_commit_connected Hrel h catalog_db st2 Hcon2)
    as (st3 & E3 & Hcon3 & _ & _).
  destruct (create_sample_users_connected Hrel h catalog_db seeded_db st3
              Hcon3 eq_refl)
    as (st4 & E4 & Hcon4 & _).
  destruct (create_sample_ratings_connected h seeded_db _ _ [] st4 Hcon4
              eq_refl eq_refl eq_refl)
    as (st5 & added & E5 & _ & Hd5 & Hrated).
  { discriminate. }
  { discriminate. }
  { vm_compute.
    repeat (apply NoDup_cons; split;
            [rewrite ?elem_of_cons, ?elem_of_nil; lia|]).
    constructor. }
  { vm_compute.
    repeat (apply NoDup_cons; split;
            [rewrite ?elem_of_cons, ?elem_of_nil; lia|]).
    constructor. }
  { intros r Hr. inversion Hr. }
  exists st5, added. split; [|split; [exact Hd5|exact Hrated]].
  unfold _create_sample_data, try_except.
  unfold bind at 1. rewrite E1.
  unfold bind at 1. rewrite E2.
  unfold bind at 1. rewrite E3.
  unfold bind at 1. rewrite E4. rewrite E5. reflexivity.
Qed.

End ReliableSample.

(** The four fields of an item row, as Python values. *)
Definition item_fields (r : item_row) : pyval * pyval * pyval * pyval :=
  (py_of_sql (i_title r), py_of_sql (i_genre r), py_of_sql (i_year r),
   py_of_sql (i_description r)).

(** C2: ingestion on a fresh store with the source missing, when the
    environment refuses nothing, returns and leaves in the file exactly the
    five sample items and exactly the three sample users; every rating
    belongs to one of these users and one of these items and lies in
    [3, 5]; and every user has between 1 and 5 ratings: min(5, number of
    items) of them, each on a different item.  This holds whatever the
    random generator draws. *)
Theorem missing_source_gives_sample_data (st : State) :
  reliable ->
  sees fresh_db st ->
  exists st' us its rs,
    insert_initial_data CsvMissing st = (Ret tt, st') /\
    users (disk (snd st')) = Some us /\
    map u_name us = sample_users /\
    items (disk (snd st')) = Some its /\
    map item_fields its = sample_items /\
    ratings (disk (snd st')) = Some rs /\
    Forall (fun r => in_3_5 r /\
                     r_user_id r ∈ map u_id us /\
                     r_item_id r ∈ map i_id its) rs /\
    forall u, u ∈ us ->
      (1 <= length (rows_of (u_id u) rs) <= 5)%nat /\
      length (rows_of (u_id u) rs) = Nat.min 5 (length its) /\
      NoDup (map r_item_id (rows_of (u_id u) rs)).
Proof.
  intros Hrel Hsees.
  destruct (create_sample_data_fresh Hrel st Hsees)
    as (st' & added & Erun & Hd & Hall & Hcount).
  exists st', (default [] (users seeded_db)),
    (default [] (items seeded_db)), added.
  rewrite Hd.
  split; [exact Erun|].
  split; [reflexivity|]. split; [reflexivity|].
  split; [reflexivity|]. split; [reflexivity|].
  split; [reflexivity|]. split; [exact Hall|].
  intros u Hu.
  assert (Hin : u_id u ∈ [1; 2; 3]).
  { change [1; 2; 3] with (map u_id (default [] (users seeded_db))).
    apply list_elem_of_fmap. exists u. auto. }
  destruct (Hcount (u_id u) Hin) as [Hlen Hnd].
  rewrite Hlen. split; [lia|]. split; [reflexivity|exact Hnd].
Qed.

(** * Further properties of the manager *)

(** ** Errors stay inside the methods *)

(** [connect], run to the end in each of its three cases. *)
Lemma connect_run (m : DatabaseManager) (w : World) :
  let h := next_handle w in
  let opened fk :=
    (mk_manager (db_path m) (Some h),
     mk_world (disk w) (<[h := mk_conn (disk w) fk]> (conns w)) (S h)
              (S (S (clock w))) (draws w)) in
  connect (m, w) =
    if fails (clock w) then (Ret None, (m, tick w))
    else if fails (S (clock w)) then (Ret None, opened false)
    else (Ret (Some h), opened true).
Proof.
  intros h opened. subst h opened.
  unfold connect, try_except, bind, sqlite3_connect, env_op, bind,
    set_connection, pragma_foreign_keys_on, with_conn, bind, get_world,
    put_conn, env_op, get_connection, ret, raise; simpl.
  destruct (fails (clock w)) eqn:Hf1; simpl; [reflexivity|].
  rewrite lookup_insert_eq; simpl.
  destruct (fails (S (clock w))) eqn:Hf2; simpl; [reflexivity|].
  rewrite insert_insert_eq. reflexivity.
Qed.

Lemma connect_returns st : exists c, fst (connect st) = Ret c.
Proof.
  destruct st as [m w].
  unfold connect, try_except, bind, sqlite3_connect, env_op, bind,
    set_connection, pragma_foreign_keys_on, with_conn, bind, get_world,
    put_conn, env_op, get_connection, ret, raise; simpl.
  destruct (fails (clock w)); simpl; [eauto|].
  rewrite lookup_insert_eq; simpl.
  destruct (fails (S (clock w))); simpl; eauto.
Qed.

(** [_safe_commit] answers with a boolean; what it leaves. *)
Lemma safe_commit_cases (st : State) :
  exists b st',
    _safe_commit st = (Ret b, st') /\
    fst st' = fst st /\
    conns (snd st') = conns (snd st) /\
    (connection (fst st) = None -> b = false /\ st' = st) /\
    (b = false -> disk (snd st') = disk (snd st)) /\
    (b = true ->
     exists h c, connection (fst st) = Some h /\
                 conns (snd st) !! h = Some c /\
                 disk (snd st') = view c).
Proof.
  destruct st as [m w].
  unfold _safe_commit, bind, get_connection; simpl.
  destruct (connection m) as [h|] eqn:Hc.
  - unfold try_except, bind, commit, with_conn, bind, get_world, env_op,
      ret, raise; simpl.
    destruct (conns w !! h) as [c|] eqn:Hh; simpl.
    + destruct (fails (clock w)); simpl.
      * eexists _, _. split; [reflexivity|]. simpl.
        repeat split; auto; discriminate.
      * eexists _, _. split; [reflexivity|]. simpl.
        repeat split; auto; try discriminate. eauto.
    + eexists _, _. split; [reflexivity|]. simpl.
      repeat split; auto; discriminate.
  - eexists _, _. split; [reflexivity|]. simpl.
    repeat split; auto; discriminate.
Qed.

(** [close] returns; what it leaves. *)
Lemma close_run (st : State) :
  exists st',
    close st = (Ret tt, st') /\
    connection (fst st') = None /\
    disk (snd st') = disk (snd st) /\
    (forall h, connection (fst st) = Some h ->
               conns (snd st') = delete h (conns (snd st))) /\
    (connection (fst st) = None -> st' = st) /\
    close st' = (Ret tt, st').
Proof.
  destruct st as [m w]. unfold close, bind, get_connection; simpl.
  destruct (connection m) as [h|] eqn:Hc.
  - eexists. split; [reflexivity|]. simpl.
    split; [reflexivity|]. split; [reflexivity|].
    split; [intros h' [= <-]; reflexivity|]. split; [discriminate|].
    reflexivity.
  - exists (m, w). split; [reflexivity|]. simpl. rewrite Hc.
    split; [reflexivity|]. split; [reflexivity|].
    split; [discriminate|]. split; reflexivity.
Qed.

(** X4: [connect] never raises.  When SQLite opens the file and accepts the
    PRAGMA, the handle returned is new, is the one the manager holds, sees
    the file as it is and enforces foreign keys; when SQLite refuses to open
    the file, [None] is returned and neither the manager nor the connections
    change; when the file opens and the PRAGMA is refused, [None] is
    returned although the manager now holds the new handle, which is open
    and does not enforce foreign keys. *)
Theorem connect_outcome (st : State) :
  let h := next_handle (snd st) in
  exists r st',
    connect st = (Ret r, st') /\
    disk (snd st') = disk (snd st) /\
    (fails (clock (snd st)) = true ->
     r = None /\ fst st' = fst st /\ conns (snd st') = conns (snd st)) /\
    (fails (clock (snd st)) = false ->
     fails (S (clock (snd st))) = false ->
     r = Some h /\ connection (fst st') = Some h /\
     conns (snd st') !! h = Some (mk_conn (disk (snd st)) true)) /\
    (fails (clock (snd st)) = false ->
     fails (S (clock (snd st))) = true ->
     r = None /\ connection (fst st') = Some h /\
     conns (snd st') !! h = Some (mk_conn (disk (snd st)) false)).
Proof.
  destruct st as [m w]. intros h. subst h.
  unfold connect, try_except, bind, sqlite3_connect, env_op, bind,
    set_connection, pragma_foreign_keys_on, with_conn, bind, get_world,
    put_conn, env_op, get_connection, ret, raise; simpl.
  destruct (fails (clock w)) eqn:Hf1; simpl.
  - eexists _, _. split; [reflexivity|]. simpl.
    repeat split; auto; discriminate.
  - rewrite lookup_insert_eq; simpl.
    destruct (fails (S (clock w))) eqn:Hf2; simpl.
    + eexists _, _. split; [reflexivity|]. simpl.
      split; [reflexivity|]. split; [discriminate|].
      split; [discriminate|]. intros _ _.
      split; [reflexivity|]. split; [reflexivity|].
      apply lookup_insert_eq.
    + eexists _, _. split; [reflexivity|]. simpl.
      split; [reflexivity|]. split; [discriminate|].
      split; [|discriminate]. intros _ _.
      split; [reflexivity|]. split; [reflexivity|].
      apply lookup_insert_eq.
Qed.

(** [_get_cursor] on a manager without connection, when SQLite refuses
    to open the file. *)
Lemma get_cursor_refused (st : State) :
  connection (fst st) = None ->
  fails (clock (snd st)) = true ->
  _get_cursor st =
    (Raise (PlainException "Could not establish connection to the database"),
     (fst st, tick (snd st))).
Proof.
  destruct st as [m w]. simpl. intros Hc Hf.
  unfold _get_cursor, bind, get_connection; simpl. rewrite Hc.
  unfold connect, try_except, bind, sqlite3_connect, env_op, bind,
    ret, raise; simpl.
  rewrite Hf; simpl. rewrite Hc. reflexivity.
Qed.

(** X5: [_get_cursor] is where an error can leave: on a manager without
    connection, when SQLite refuses to open the file, it raises the
    exception "Could not establish connection to the database"; the manager
    stays without connection and no handle was opened.  The methods that
    start by asking for the cursor catch it: each returns having changed
    nothing but the time, and ingestion of a source with rows, which then
    turns to the sample data and asks again, does so when SQLite refuses
    again. *)
Theorem get_cursor_cannot_connect (st : State) :
  connection (fst st) = None ->
  fails (clock (snd st)) = true ->
  let st' := (fst st, tick (snd st)) in
  _get_cursor st =
    (Raise (PlainException "Could not establish connection to the database"),
     st') /\
  create_tables st = (Ret tt, st') /\
  _create_sample_users st = (Ret tt, st') /\
  _create_sample_ratings st = (Ret tt, st') /\
  _create_sample_data st = (Ret tt, st') /\
  insert_initial_data CsvMissing st = (Ret tt, st') /\
  (forall df,
     nrows df <> 0%nat ->
     fails (S (clock (snd st))) = true ->
     insert_initial_data (CsvFrame df) st =
       (Ret tt, (fst st, tick (tick (snd st))))).
Proof.
  intros Hc Hf st'. pose proof (get_cursor_refused st Hc Hf) as E.
  fold st' in E.
  assert (Hdata : _create_sample_data st = (Ret tt, st')).
  { unfold _create_sample_data, try_except. unfold bind at 1.
    rewrite E. reflexivity. }
  split; [exact E|].
  split; [unfold create_tables, try_except, bind; rewrite E; reflexivity|].
  split; [unfold _create_sample_users, try_except, bind; rewrite E;
          reflexivity|].
  split; [unfold _create_sample_ratings, try_except, bind; rewrite E;
          reflexivity|].
  split; [exact Hdata|]. split; [exact Hdata|].
  intros df Hn Hf2.
  assert (E2 : _get_cursor st' =
               (Raise (PlainException
                         "Could not establish connection to the database"),
                (fst st, tick (tick (snd st)))))
    by (apply (get_cursor_refused st'); [exact Hc | exact Hf2]).
  assert (Hdata2 : _create_sample_data st' =
                   (Ret tt, (fst st, tick (tick (snd st))))).
  { unfold _create_sample_data, try_except. unfold bind at 1.
    rewrite E2. reflexivity. }
  unfold insert_initial_data, try_except, bind, read_csv, ret.
  apply Nat.eqb_neq in Hn. rewrite Hn, E. exact Hdata2.
Qed.

Lemma create_tables_returns st : fst (create_tables st) = Ret tt.
Proof.
  unfold create_tables, try_except.
  match goal with |- context [?body st] => destruct (body st) as [[[]|e] st'] end;
    simpl; [reflexivity|].
  rewrite orb_true_r. reflexivity.
Qed.

Lemma insert_initial_data_returns csv st :
  fst (insert_initial_data csv st) = Ret tt.
Proof.
  unfold insert_initial_data. unfold bind at 1.
  match goal with
  | |- context [match ?c st with _ => _ end] =>
      assert (Hfl : exists fl, fst (c st) = Ret fl)
  end.
  { destruct csv; [eexists; reflexivity| |];
      (unfold try_except;
       match goal with
       | |- context [match ?b st with _ => _ end] =>
           destruct (b st) as [[fl|e] st']
       end; simpl; eexists; reflexivity). }
  destruct Hfl as [fl Hfl].
  match goal with
  | |- context [match ?c st with _ => _ end] =>
      destruct (c st) as [r st1]
  end.
  simpl in Hfl. subst r.
  destruct fl as [[|]|]; try reflexivity. apply try_except_returns.
Qed.

(** X1: no method of the manager that catches lets an error through:
    [create_tables], [insert_initial_data] (for every source) and the three
    sample generators return [None], and so does [initialize_database]
    from its [connect] on, whatever the environment does.  (The creation of
    the data directory, which comes first in [initialize_database], is not
    part of the model.) *)
Theorem initialization_never_raises (csv : csv_file) (st : State)
    (w : World) :
  fst (create_tables st) = Ret tt /\
  fst (insert_initial_data csv st) = Ret tt /\
  fst (_create_sample_users st) = Ret tt /\
  fst (_create_sample_ratings st) = Ret tt /\
  fst (_create_sample_data st) = Ret tt /\
  fst (initialize_database csv w) = Ret tt.
Proof.
  split; [apply create_tables_returns|].
  split; [apply insert_initial_data_returns|].
  split; [apply try_except_returns|].
  split; [apply try_except_returns|].
  split; [apply try_except_returns|].
  unfold initialize_database. unfold bind at 1.
  destruct (connect_returns (mk_manager "recommendations.db" None, w))
    as [c Hc].
  destruct (connect _) as [r st1]. simpl in Hc. subst r.
  destruct c as [h|]; [|destruct st1; reflexivity].
  unfold bind.
  pose proof (create_tables_returns st1) as H1.
  destruct (create_tables st1) as [r1 st2]. simpl in H1. subst r1.
  pose proof (insert_initial_data_returns csv st2) as H2.
  destruct (insert_initial_data csv st2) as [r2 st3]. simpl in H2. subst r2.
  destruct (close_run st3) as (st4 & -> & _). destruct st4; reflexivity.
Qed.

(** ** The schema *)

Lemma execute_failed_run h c (stmt : Conn -> stmt_result) e st :
  conns (snd st) !! h = Some c ->
  stmt c = Failed e ->
  execute h stmt st = (Raise e, st).
Proof.
  intros Hh Hs. unfold execute, with_conn, bind, get_world; simpl.
  rewrite Hh, Hs. reflexivity.
Qed.

(** What the three CREATE TABLE IF NOT EXISTS statements make of a
    database. *)
Definition with_schema (db : DB) : DB :=
  create_ratings_table (create_items_table (create_users_table db)).

(** [_safe_commit] on a connected manager, whatever the environment. *)
Lemma safe_commit_connected_any h db st :
  connected h db st ->
  exists b st',
    _safe_commit st = (Ret b, st') /\
    connected h db st' /\
    (b = true -> disk (snd st') = db) /\
    (b = false -> disk (snd st') = disk (snd st)).
Proof.
  intros [Hc [fk Hh]].
  destruct (safe_commit_cases st)
    as (b & st' & Hrun & Hm & Hcs & _ & Hfalse & Htrue).
  exists b, st'. split; [exact Hrun|]. split.
  - split; [congruence|]. exists fk. rewrite Hcs. exact Hh.
  - split; [|exact Hfalse]. intros Hb.
    destruct (Htrue Hb) as (h' & c & Hc' & Hh' & Hd).
    rewrite Hc in Hc'. injection Hc' as <-. rewrite Hh in Hh'.
    injection Hh' as <-. exact Hd.
Qed.

(** [create_tables] on a connected manager. *)
Lemma create_tables_connected h db st :
  connected h db st ->
  exists st',
    create_tables st = (Ret tt, st') /\
    connected h (with_schema db) st'.
Proof.
  intros Hcon.
  destruct (execute_connected h db (create_users_table db)
              (fun c => Done (create_users_table (view c))) st Hcon)
    as (st1 & E1 & Hcon1 & Hd1); [reflexivity|].
  destruct (execute_connected h _ (create_items_table (create_users_table db))
              (fun c => Done (create_items_table (view c))) st1 Hcon1)
    as (st2 & E2 & Hcon2 & Hd2); [reflexivity|].
  destruct (execute_connected h _ (with_schema db)
              (fun c => Done (create_ratings_table (view c))) st2 Hcon2)
    as (st3 & E3 & Hcon3 & Hd3); [reflexivity|].
  destruct (safe_commit_connected_any h _ st3 Hcon3)
    as (b & st4 & E4 & Hcon4 & Htrue & Hfalse).
  exists st4. split; [|exact Hcon4].
  unfold create_tables, try_except, bind.
  rewrite (get_cursor_connected st h (proj1 Hcon))
    by (destruct Hcon as [_ [fk Hh]]; eauto).
  rewrite E1, E2, E3, E4. reflexivity.
Qed.

(** X6: [create_tables] on a connected manager returns and leaves in the
    connection's view a database where the three tables exist; a table that
    existed keeps every row it had (nothing is cleared) and the key counters
    are untouched; running it on the result changes nothing more; on a
    database that has the three tables it changes nothing. *)
Theorem create_tables_keeps_rows (st : State) (h : nat) (db : DB) :
  connected h db st ->
  exists st',
    create_tables st = (Ret tt, st') /\
    connected h (with_schema db) st' /\
    is_Some (users (with_schema db)) /\
    is_Some (items (with_schema db)) /\
    is_Some (ratings (with_schema db)) /\
    (forall rows, users db = Some rows ->
                  users (with_schema db) = Some rows) /\
    (forall rows, items db = Some rows ->
                  items (with_schema db) = Some rows) /\
    (forall rows, ratings db = Some rows ->
                  ratings (with_schema db) = Some rows) /\
    users_seq (with_schema db) = users_seq db /\
    items_seq (with_schema db) = items_seq db /\
    with_schema (with_schema db) = with_schema db /\
    (is_Some (users db) -> is_Some (items db) -> is_Some (ratings db) ->
     with_schema db = db).
Proof.
  intros Hcon.
  destruct (create_tables_connected h db st Hcon) as (st4 & E4 & Hcon4).
  exists st4. split; [exact E4|]. split; [exact Hcon4|].
  unfold with_schema, create_ratings_table, create_items_table,
    create_users_table.
  destruct db as [u useq i iseq r]; simpl.
  destruct u, i, r; simpl; repeat split; eauto;
    try (intros rows [= <-]; reflexivity); try discriminate;
    intros [x Hx] [y Hy] [z Hz]; discriminate.
Qed.

(** ** One row per user name *)

Definition unique_names (db : DB) : Prop :=
  forall rows, users db = Some rows -> NoDup (map u_name rows).

Lemma users_create_items db : users (create_items_table db) = users db.
Proof. unfold create_items_table. destruct (items db); reflexivity. Qed.

Lemma users_create_ratings db : users (create_ratings_table db) = users db.
Proof. unfold create_ratings_table. destruct (ratings db); reflexivity. Qed.

Lemma users_insert_item mode t g y d db db' :
  insert_item mode t g y d db = Done db' -> users db' = users db.
Proof.
  unfold insert_item, on_violation. destruct (items db); [|discriminate].
  destruct (is_sql_null _); [destruct mode; [discriminate|]|];
    intros [= <-]; reflexivity.
Qed.

Lemma users_insert_rating mode fk uid iid v db db' :
  insert_rating mode fk uid iid v db = Done db' -> users db' = users db.
Proof.
  intros Hdone.
  destruct (insert_rating_done _ _ _ _ _ _ _ Hdone)
    as [[_ ->]|(rows & q & _ & _ & _ & _ & ->)]; reflexivity.
Qed.

Lemma name_taken_iff name (rows : list user_row) :
  existsb (fun u => String.eqb (u_name u) name) rows = true <->
  name ∈ map u_name rows.
Proof.
  rewrite existsb_exists, list_elem_of_fmap. split.
  - intros (u & Hin & Heq). apply String.eqb_eq in Heq.
    exists u. split; [auto | apply list_elem_of_In, Hin].
  - intros (u & Heq & Hin). exists u.
    split; [apply list_elem_of_In, Hin | apply String.eqb_eq; auto].
Qed.

(** What a user statement that succeeds did: it skipped the row, the name
    being taken, or appended it, the name being new. *)
Lemma insert_user_done mode name db db' :
  insert_user mode name db = Done db' ->
  exists rows,
    users db = Some rows /\
    ((mode = OnIgnore /\ name ∈ map u_name rows /\ users db' = Some rows) \/
     ((name ∉ map u_name rows) /\
      exists id, users db' = Some (rows ++ [mk_user id name]))).
Proof.
  unfold insert_user, on_violation.
  destruct (users db) as [rows|]; [|discriminate].
  destruct (existsb _ rows) eqn:Hex.
  - destruct mode; [discriminate|]. intros [= <-]. exists rows.
    split; [reflexivity|]. left. split; [reflexivity|].
    split; [apply name_taken_iff, Hex | reflexivity].
  - intros [= <-]. exists rows. split; [reflexivity|]. right. split.
    + intros Hin. apply name_taken_iff in Hin. congruence.
    + eexists. reflexivity.
Qed.

Lemma unique_names_insert_user mode name db db' :
  unique_names db -> insert_user mode name db = Done db' -> unique_names db'.
Proof.
  intros Hu Hdone rows' Hrows'.
  destruct (insert_user_done _ _ _ _ Hdone)
    as (rows & Hrows & [(_ & _ & Hsame)|(Hnew & id & Happ)]).
  - rewrite Hsame in Hrows'. injection Hrows' as <-. apply Hu, Hrows.
  - rewrite Happ in Hrows'. injection Hrows' as <-.
    rewrite map_app. apply NoDup_app. split; [apply Hu, Hrows|].
    split; [|apply NoDup_singleton].
    intros x Hx Hx'. apply list_elem_of_singleton in Hx'. simpl in Hx'.
    subst x. exact (Hnew Hx).
Qed.

(** X7: user names are unique, in the file and in every connection, and
    stay so whatever method runs and whatever user statement is run
    directly, with either conflict clause.  A plain INSERT of a name that is
    taken raises [IntegrityError], and INSERT OR IGNORE of it returns; both
    leave the rows of the users table as they were. *)
Theorem user_names_stay_unique (st : State) :
  stores unique_names st ->
  stores unique_names (snd (create_tables st)) /\
  (forall csv, stores unique_names (snd (insert_initial_data csv st))) /\
  stores unique_names (snd (_create_sample_users st)) /\
  stores unique_names (snd (_create_sample_data st)) /\
  (forall h mode name,
     stores unique_names
       (snd (execute h (fun c => insert_user mode name (view c)) st))) /\
  (forall h c rows name mode,
     conns (snd st) !! h = Some c ->
     users (view c) = Some rows ->
     name ∈ map u_name rows ->
     let run := execute h (fun c => insert_user mode name (view c)) st in
     (mode = OnAbort -> run = (Raise IntegrityError, st)) /\
     (mode = OnIgnore ->
      fst run = Ret tt /\
      exists c', conns (snd (snd run)) !! h = Some c' /\
                 users (view c') = Some rows)).
Proof.
  intros Hst.
  assert (Hcu : forall db, unique_names db ->
                           unique_names (create_users_table db)).
  { intros db Hdb. unfold create_users_table.
    destruct (users db) eqn:Hu; [exact Hdb|].
    intros rows [= <-]. constructor. }
  assert (Hci : forall db, unique_names db ->
                           unique_names (create_items_table db)).
  { intros db Hdb rows. rewrite users_create_items. apply Hdb. }
  assert (Hcr : forall db, unique_names db ->
                           unique_names (create_ratings_table db)).
  { intros db Hdb rows. rewrite users_create_ratings. apply Hdb. }
  assert (Hi : forall mode t g y d db db', unique_names db ->
            insert_item mode t g y d db = Done db' -> unique_names db').
  { intros mode t g y d db db' Hdb Hdone rows.
    rewrite (users_insert_item _ _ _ _ _ _ _ Hdone). apply Hdb. }
  assert (Hr : forall fk uid iid v db db', unique_names db ->
            insert_rating OnIgnore fk uid iid v db = Done db' ->
            unique_names db').
  { intros fk uid iid v db db' Hdb Hdone rows.
    rewrite (users_insert_rating _ _ _ _ _ _ _ Hdone). apply Hdb. }
  split; [exact (stores_create_tables _ Hcu Hci Hcr st Hst)|].
  split; [intros csv;
          exact (stores_insert_initial_data _ unique_names_insert_user
                   Hi Hr csv st Hst)|].
  split; [exact (stores_create_sample_users _ unique_names_insert_user
                   st Hst)|].
  split; [exact (stores_create_sample_data _ unique_names_insert_user
                   Hi Hr st Hst)|].
  split.
  { intros h mode name.
    refine (keeps_execute unique_names h _ _ st Hst).
    intros c db'. apply unique_names_insert_user. }
  intros h c rows name mode Hh Hrows Hin run. subst run.
  assert (Hstmt : insert_user mode name (view c) =
                  on_violation mode
                    (set_users rows
                       (next_rowid (users_seq (view c)) (map u_id rows))
                       (view c))).
  { unfold insert_user. rewrite Hrows.
    apply name_taken_iff in Hin. rewrite Hin. reflexivity. }
  split.
  - intros ->. apply (execute_failed_run h c); [exact Hh|exact Hstmt].
  - intros ->.
    rewrite (execute_done h c _ _ st Hh Hstmt). simpl.
    split; [reflexivity|]. eexists. rewrite lookup_insert_eq.
    split; reflexivity.
Qed.

(** ** One rating per user and item *)








(** ** Ratings point at rows that exist *)


(** ** Sample ratings need users and items *)

Definition no_rows {A : Type} (t : option (list A)) : bool :=
  match t with
  | Some (_ :: _) => false
  | _ => true
  end.

(** X10: on a connected manager whose users table or items table is
    missing or has no row, [_create_sample_ratings] returns and does
    nothing: no number is drawn, nothing is written or committed, the state
    is the one it started from. *)
Theorem sample_ratings_need_rows (st : State) (h : nat) (db : DB) :
  connected h db st ->
  no_rows (users db) || no_rows (items db) = true ->
  _create_sample_ratings st = (Ret tt, st).
Proof.
  intros Hcon Hno.
  assert (Hcur : _get_cursor st = (Ret h, st)).
  { destruct Hcon as [Hc [fk Hh]]. apply get_cursor_connected; eauto. }
  assert (Hfail : forall query, query db = None ->
            fetch_ids h query st = (Raise OperationalError, st)).
  { intros query Hq. destruct Hcon as [_ [fk Hh]].
    unfold fetch_ids, with_conn, bind, get_world; simpl.
    rewrite Hh; simpl. rewrite Hq. reflexivity. }
  unfold _create_sample_ratings, try_except, bind. rewrite Hcur.
  destruct (users db) as [us|] eqn:Hus.
  - rewrite (fetch_ids_connected h db select_user_ids (map u_id us) st Hcon)
      by (unfold select_user_ids; rewrite Hus; reflexivity).
    destruct (items db) as [its|] eqn:Hits.
    + rewrite (fetch_ids_connected h db select_item_ids (map i_id its) st
                 Hcon)
        by (unfold select_item_ids; rewrite Hits; reflexivity).
      destruct us as [|u us]; [reflexivity|].
      destruct its as [|i its]; [reflexivity|]. discriminate.
    + rewrite (Hfail select_item_ids)
        by (unfold select_item_ids; rewrite Hits; reflexivity).
      reflexivity.
  - rewrite (Hfail select_user_ids)
      by (unfold select_user_ids; rewrite Hus; reflexivity).
    reflexivity.
Qed.

(** ** Sample users are added once *)

Lemma users_set_users rows id db : users (set_users rows id db) = Some rows.
Proof. reflexivity. Qed.

(** A batch of INSERT OR IGNORE on a users table that exists: every
    statement succeeds, the rows that were there stay in front, the rows
    added carry names of the batch that were missing, and afterwards every
    name of the batch has a row. *)
Lemma insert_users_run (names : list string) :
  forall db rows,
    users db = Some rows ->
    exists db' new,
      run_stmts (map (insert_user OnIgnore) names) db = Done db' /\
      users db' = Some (rows ++ new) /\
      items db' = items db /\
      ratings db' = ratings db /\
      (forall n, n ∈ map u_name new ->
                 n ∈ names /\ ~ (n ∈ map u_name rows)) /\
      (forall n, n ∈ names -> n ∈ map u_name (rows ++ new)).
Proof.
  induction names as [|name names IH]; intros db rows Hrows.
  - exists db, []. simpl. rewrite app_nil_r.
    split; [reflexivity|]. split; [exact Hrows|].
    split; [reflexivity|]. split; [reflexivity|].
    split; intros n Hn; inversion Hn.
  - simpl.
    destruct (insert_user OnIgnore name db) as [db1|e] eqn:Hstmt.
    2:{ exfalso. revert Hstmt. unfold insert_user, on_violation.
        rewrite Hrows. destruct (existsb _ _); discriminate. }
    pose proof (items_insert_user _ _ _ _ Hstmt) as Hi1.
    pose proof (ratings_insert_user _ _ _ _ Hstmt) as Hr1.
    destruct (insert_user_done _ _ _ _ Hstmt)
      as (rows0 & Hrows0 & [(_ & Hin & Hsame)|(Hnew & id & Happ)]);
      rewrite Hrows in Hrows0; injection Hrows0 as <-.
    + destruct (IH db1 rows Hsame)
        as (db' & new & Hrun & Hus & Hi & Hr & Hfrom & Hall).
      exists db', new. split; [exact Hrun|]. split; [exact Hus|].
      split; [congruence|]. split; [congruence|]. split.
      * intros n Hn. destruct (Hfrom n Hn) as [Hn1 Hn2].
        split; [apply list_elem_of_further, Hn1 | exact Hn2].
      * intros n Hn. apply elem_of_cons in Hn as [->|Hn].
        -- rewrite map_app. apply elem_of_app. left. exact Hin.
        -- apply Hall, Hn.
    + destruct (IH db1 _ Happ)
        as (db' & new & Hrun & Hus & Hi & Hr & Hfrom & Hall).
      exists db', (mk_user id name :: new). split; [exact Hrun|].
      split; [rewrite Hus, <- app_assoc; reflexivity|].
      split; [congruence|]. split; [congruence|]. split.
      * intros n Hn. simpl in Hn. apply elem_of_cons in Hn as [->|Hn].
        -- split; [apply list_elem_of_here | exact Hnew].
        -- destruct (Hfrom n Hn) as [Hn1 Hn2].
           split; [apply list_elem_of_further, Hn1|].
           intros Hin. apply Hn2. rewrite map_app. apply elem_of_app.
           left. exact Hin.
      * intros n Hn.
        replace (rows ++ mk_user id name :: new)
          with ((rows ++ [mk_user id name]) ++ new)
          by (rewrite <- app_assoc; reflexivity).
        apply elem_of_cons in Hn as [->|Hn]; [|apply Hall, Hn].
        rewrite !map_app. apply elem_of_app. left. apply elem_of_app.
        right. simpl. apply list_elem_of_here.
Qed.

(** [_create_sample_users] on a connected manager whose users table
    exists, in any environment. *)
Lemma create_sample_users_run h db rows st :
  connected h db st ->
  users db = Some rows ->
  exists st' db' new,
    _create_sample_users st = (Ret tt, st') /\
    connected h db' st' /\
    users db' = Some (rows ++ new) /\
    items db' = items db /\
    ratings db' = ratings db /\
    (forall n, n ∈ map u_name new ->
               n ∈ sample_users /\ ~ (n ∈ map u_name rows)) /\
    (forall n, n ∈ sample_users -> n ∈ map u_name (rows ++ new)) /\
    (disk (snd st') = db' \/ disk (snd st') = disk (snd st)).
Proof.
  intros Hcon Hrows.
  destruct (insert_users_run sample_users db rows Hrows)
    as (db' & new & Hrun & Hus & Hi & Hr & Hfrom & Hall).
  destruct (for_each_connected h sample_users
              (fun user =>
                 execute h (fun c => insert_user OnIgnore user (view c)))
              (insert_user OnIgnore)) with (db := db) (db' := db') (st := st)
    as (st1 & E1 & Hcon1 & Hd1); [|exact Hcon|exact Hrun|].
  { intros x d d' st0 Hcon0 Hx.
    apply (execute_connected h d d'); [exact Hcon0|]. intros fk0. exact Hx. }
  destruct (safe_commit_connected_any h db' st1 Hcon1)
    as (b & st2 & E2 & Hcon2 & Htrue & Hfalse).
  exists st2, db', new. split.
  { unfold _create_sample_users, try_except, bind.
    rewrite (get_cursor_connected st h (proj1 Hcon))
      by (destruct Hcon as [_ [fk Hh]]; eauto).
    rewrite E1, E2. reflexivity. }
  split; [exact Hcon2|]. split; [exact Hus|]. split; [exact Hi|].
  split; [exact Hr|]. split; [exact Hfrom|]. split; [exact Hall|].
  destruct b; [left; auto | right; rewrite Hfalse by reflexivity].
  exact Hd1.
Qed.

(** X11: on a connected manager whose users table exists,
    [_create_sample_users] returns; the rows that were there stay, in
    order and in front; the rows added are sample names that had no row;
    afterwards each of the three sample names has a row; items and ratings
    are untouched.  A second call returns and leaves the users rows exactly
    as the first call left them. *)
Theorem sample_users_added_once (st : State) (h : nat) (db : DB)
    (rows : list user_row) :
  connected h db st ->
  users db = Some rows ->
  exists st1 db1 new,
    _create_sample_users st = (Ret tt, st1) /\
    connected h db1 st1 /\
    users db1 = Some (rows ++ new) /\
    items db1 = items db /\
    ratings db1 = ratings db /\
    (forall n, n ∈ map u_name new ->
               n ∈ sample_users /\ ~ (n ∈ map u_name rows)) /\
    (forall n, n ∈ sample_users -> n ∈ map u_name (rows ++ new)) /\
    exists st2 db2,
      _create_sample_users st1 = (Ret tt, st2) /\
      connected h db2 st2 /\
      users db2 = Some (rows ++ new).
Proof.
  intros Hcon Hrows.
  destruct (create_sample_users_run h db rows st Hcon Hrows)
    as (st1 & db1 & new & E1 & Hcon1 & Hus1 & Hi1 & Hr1 & Hfrom1 & Hall1
        & _).
  exists st1, db1, new. repeat (split; [assumption|]).
  destruct (create_sample_users_run h db1 _ st1 Hcon1 Hus1)
    as (st2 & db2 & new2 & E2 & Hcon2 & Hus2 & _ & _ & Hfrom2 & _ & _).
  exists st2, db2. split; [exact E2|]. split; [exact Hcon2|].
  destruct new2 as [|u new2]; [rewrite Hus2, app_nil_r; reflexivity|].
  exfalso. destruct (Hfrom2 (u_name u)) as [Hn1 Hn2];
    [simpl; apply list_elem_of_here|].
  apply Hn2, Hall1, Hn1.
Qed.

(** ** What an external source adds *)

(** The loop over the source asks nothing of the environment. *)
Lemma execute_clock h (stmt : Conn -> stmt_result) st :
  clock (snd (snd (execute h stmt st))) = clock (snd st).
Proof.
  destruct st as [m w]. unfold execute, with_conn, bind, get_world; simpl.
  destruct (conns w !! h) as [c|]; simpl; [|reflexivity].
  destruct (stmt c); reflexivity.
Qed.

Lemma ingest_row_clock h row st :
  clock (snd (snd (ingest_row h row st))) = clock (snd st).
Proof.
  unfold ingest_row, try_except, execute_insert_item.
  destruct (resolve_fields row) as [[[title genre] year] description].
  unfold bind, lift_outcome.
  destruct (bind_param title); [|reflexivity].
  destruct (bind_param genre); [|reflexivity].
  destruct (bind_param year); [|reflexivity].
  destruct (bind_param description); [|reflexivity].
  pose proof (execute_clock h
                (fun c => insert_item OnIgnore a a0 a1 a2 (view c)) st) as Hc.
  destruct (execute h _ st) as [[[]|e] st']; exact Hc.
Qed.

Lemma for_each_clock (l : list (gmap string pyval)) h :
  forall st,
    clock (snd (snd (for_each l (ingest_row h) st))) = clock (snd st).
Proof.
  induction l as [|x l IH]; intros st; [reflexivity|].
  cbn [for_each]. unfold bind.
  pose proof (ingest_row_clock h x st) as Hc.
  pose proof (ingest_row_returns h x st) as Hr.
  destruct (ingest_row h x st) as [r st1]. simpl in Hr, Hc. subst r.
  rewrite IH. exact Hc.
Qed.


(** [_safe_commit] when SQLite refuses the commit. *)
Lemma safe_commit_refused h db st :
  connected h db st ->
  fails (clock (snd st)) = true ->
  _safe_commit st = (Ret false, (fst st, tick (snd st))).
Proof.
  intros [Hc [fk Hh]] Hf. destruct st as [m w]; simpl in *.
  unfold _safe_commit, bind, get_connection; simpl. rewrite Hc.
  unfold try_except, bind, commit, with_conn, bind, get_world; simpl.
  rewrite Hh; simpl. unfold env_op; simpl. rewrite Hf. reflexivity.
Qed.

Lemma execute_insert_item_failed h mode item db e st :
  connected h db st ->
  item_stmt mode item db = Failed e ->
  exists e', execute_insert_item h mode item st = (Raise e', st).
Proof.
  intros [_ [fk Hh]] Hs. destruct item as [[[title genre] year] description].
  unfold item_stmt in Hs. unfold execute_insert_item, bind, lift_outcome.
  destruct (bind_param title) as [t|e1]; [|eexists; reflexivity].
  destruct (bind_param genre) as [g|e2]; [|eexists; reflexivity].
  destruct (bind_param year) as [y|e3]; [|eexists; reflexivity].
  destruct (bind_param description) as [d|e4]; [|eexists; reflexivity].
  exists e. apply (execute_failed_run h (mk_conn db fk)); [exact Hh|].
  exact Hs.
Qed.

(** What one turn of the loop over the source does to the connection's
    view: the statement's result, or nothing when the turn was left by the
    [except]. *)
Definition ingest_stmt (row : gmap string pyval) (db : DB) : stmt_result :=
  match item_stmt OnIgnore (resolve_fields row) db with
  | Done db' => Done db'
  | Failed _ => Done db
  end.

Lemma ingest_row_connected h row db db' st :
  connected h db st ->
  ingest_stmt row db = Done db' ->
  exists st',
    ingest_row h row st = (Ret tt, st') /\
    connected h db' st' /\
    disk (snd st') = disk (snd st).
Proof.
  intros Hcon Hs. unfold ingest_stmt in Hs. unfold ingest_row, try_except.
  destruct (item_stmt OnIgnore (resolve_fields row) db) as [db1|e] eqn:Hi.
  - injection Hs as <-.
    destruct (execute_insert_item_connected h _ _ db db1 st Hcon Hi)
      as (st' & E & Hcon' & Hd).
    exists st'. rewrite E. auto.
  - injection Hs as <-.
    destruct (execute_insert_item_failed h _ _ db e st Hcon Hi) as [e' E].
    exists st. rewrite E. auto.
Qed.

(** The values a source row puts in the items table, when it puts any:
    its four fields must bind and the title must not be NULL. *)
Definition insertable (row : gmap string pyval)
  : option (sqlval * sqlval * sqlval * sqlval) :=
  let '(title, genre, year, description) := resolve_fields row in
  match bind_param title, bind_param genre, bind_param year,
        bind_param description with
  | Ret t, Ret g, Ret y, Ret d =>
      if is_sql_null (text_affinity t) then None
      else Some (text_affinity t, text_affinity g, integer_affinity y,
                 text_affinity d)
  | _, _, _, _ => None
  end.

Definition stored_fields (r : item_row) : sqlval * sqlval * sqlval * sqlval :=
  (i_title r, i_genre r, i_year r, i_description r).

Definition option_list {A : Type} (o : option A) : list A :=
  match o with Some a => [a] | None => [] end.

Lemma ingest_stmt_spec row db rows :
  items db = Some rows ->
  exists db' new,
    ingest_stmt row db = Done db' /\
    items db' = Some (rows ++ new) /\
    users db' = users db /\
    users_seq db' = users_seq db /\
    ratings db' = ratings db /\
    map stored_fields new = option_list (insertable row).
Proof.
  intros Hrows. unfold ingest_stmt, insertable, item_stmt.
  destruct (resolve_fields row) as [[[title genre] year] description].
  destruct (bind_param title) as [t|e1];
    [|exists db, []; rewrite app_nil_r; auto 10].
  destruct (bind_param genre) as [g|e2];
    [|exists db, []; rewrite app_nil_r; auto 10].
  destruct (bind_param year) as [y|e3];
    [|exists db, []; rewrite app_nil_r; auto 10].
  destruct (bind_param description) as [d|e4];
    [|exists db, []; rewrite app_nil_r; auto 10].
  unfold insert_item, on_violation. rewrite Hrows.
  destruct (is_sql_null (text_affinity t)).
  - eexists _, []. split; [reflexivity|]. simpl. rewrite app_nil_r. auto 10.
  - eexists _, [_]. split; [reflexivity|]. simpl. auto 10.
Qed.

Lemma ingest_run (src : list (gmap string pyval)) :
  forall db rows,
    items db = Some rows ->
    exists db' new,
      run_stmts (map ingest_stmt src) db = Done db' /\
      items db' = Some (rows ++ new) /\
      users db' = users db /\
      users_seq db' = users_seq db /\
      ratings db' = ratings db /\
      map stored_fields new = concat (map (fun r => option_list (insertable r)) src).
Proof.
  induction src as [|row src IH]; intros db rows Hrows.
  - exists db, []. simpl. rewrite app_nil_r. auto 10.
  - destruct (ingest_stmt_spec row db rows Hrows)
      as (db1 & new1 & E1 & Hi1 & Hu1 & Hs1 & Hr1 & Hf1).
    destruct (IH db1 _ Hi1) as (db2 & new2 & E2 & Hi2 & Hu2 & Hs2 & Hr2 & Hf2).
    exists db2, (new1 ++ new2). simpl. rewrite E1.
    split; [exact E2|]. split; [rewrite Hi2, app_assoc; reflexivity|].
    split; [congruence|]. split; [congruence|]. split; [congruence|].
    rewrite map_app, Hf1, Hf2. reflexivity.
Qed.

(** [_create_sample_users] on a connected manager, whatever the tables
    and the environment. *)
Lemma create_sample_users_any h db st :
  connected h db st ->
  exists st' db',
    _create_sample_users st = (Ret tt, st') /\
    connected h db' st' /\
    items db' = items db /\
    ratings db' = ratings db /\
    (disk (snd st') = db' \/ disk (snd st') = disk (snd st)).
Proof.
  intros Hcon. destruct (users db) as [rows|] eqn:Hus.
  - destruct (create_sample_users_run h db rows st Hcon Hus)
      as (st' & db' & new & E & Hcon' & _ & Hi & Hr & _ & _ & Hd).
    exists st', db'. auto.
  - exists st, db. split; [|auto].
    unfold _create_sample_users, try_except, bind.
    rewrite (get_cursor_connected st h (proj1 Hcon))
      by (destruct Hcon as [_ [fk Hh]]; eauto).
    destruct Hcon as [_ [fk Hh]]. unfold sample_users. cbn [for_each].
    unfold bind.
    rewrite (execute_failed_run h (mk_conn db fk) _ OperationalError st Hh)
      by (unfold insert_user; simpl; rewrite Hus; reflexivity).
    reflexivity.
Qed.

(** A source in which some cell is a text.  pandas then keeps the values
    of the frame as Python objects, and a row of [iterrows] holds every
    cell as the frame holds it. *)
Definition holds_text (df : DataFrame) : Prop :=
  exists name col s, columns df !! name = Some col /\ PyStr s ∈ col.

(** A source whose [year] and [release_year] columns hold no text: numbers,
    missing values and other objects only. *)
Definition numeric_years (df : DataFrame) : Prop :=
  forall name col s,
    name = "year"%string \/ name = "release_year"%string ->
    columns df !! name = Some col -> ~ (PyStr s ∈ col).

(** The rows of a frame, each cell as the frame holds it. *)
Definition frame_rows (df : DataFrame) : list (gmap string pyval) :=
  map (fun i => omap (fun col : list pyval => col !! i) (columns df))
      (seq 0 (nrows df)).

Lemma column_dtype_text col s : PyStr s ∈ col -> column_dtype col = Object.
Proof.
  intros Hin. apply list_elem_of_In in Hin. unfold column_dtype.
  destruct (forallb int_cell col) eqn:Hi.
  { rewrite forallb_forall in Hi. discriminate (Hi _ Hin). }
  destruct (forallb float_cell col) eqn:Hf; [|reflexivity].
  rewrite forallb_forall in Hf. discriminate (Hf _ Hin).
Qed.

Lemma common_dtype_text df : holds_text df -> common_dtype df = Object.
Proof.
  intros (name & col & s & Hcol & Hin). unfold common_dtype.
  assert (Hk : In Object (map (fun kv => column_dtype (snd kv))
                              (map_to_list (columns df)))).
  { apply in_map_iff. exists (name, col). split.
    - apply (column_dtype_text _ _ Hin).
    - apply list_elem_of_In, elem_of_map_to_list, Hcol. }
  cbv zeta.
  set (kinds := map (fun kv : string * list pyval => column_dtype (snd kv))
                    (map_to_list (columns df))) in *.
  destruct (forallb (fun k => match k with Int64 => true | _ => false end)
                    kinds) eqn:H1.
  { rewrite forallb_forall in H1. discriminate (H1 _ Hk). }
  destruct (forallb (fun k => match k with Object => false | _ => true end)
                    kinds) eqn:H2; [|reflexivity].
  rewrite forallb_forall in H2. discriminate (H2 _ Hk).
Qed.

Lemma iterrows_text df : holds_text df -> iterrows df = frame_rows df.
Proof.
  intros Htext. unfold iterrows, frame_rows.
  rewrite (common_dtype_text df Htext).
  apply map_ext. intros i. apply omap_ext. intros k col _.
  destruct (col !! i); reflexivity.
Qed.

(** X12: ingestion of a source that has rows, on a connected manager whose
    items table exists, for a source in which some cell is a text and whose
    [year] and [release_year] columns hold no text.  The method returns; the
    rows the table had stay, in order and in front; behind them comes one
    row for each source row whose four values bind and whose title is not
    NULL, in the order of the source, with the values SQLite stores for
    them; the other source rows are skipped.  No row is dropped for
    repeating a title.  Ratings are untouched.  When SQLite refuses the
    commit, the users table is left alone as well and the file is
    unchanged. *)
Theorem external_ingest_appends (st : State) (h : nat) (db : DB)
    (rows : list item_row) (df : DataFrame) :
  connected h db st ->
  items db = Some rows ->
  nrows df <> 0%nat ->
  holds_text df ->
  numeric_years df ->
  exists st' db' new,
    insert_initial_data (CsvFrame df) st = (Ret tt, st') /\
    connected h db' st' /\
    items db' = Some (rows ++ new) /\
    map stored_fields new =
      concat (map (fun r => option_list (insertable r)) (frame_rows df)) /\
    ratings db' = ratings db /\
    (fails (clock (snd st)) = true ->
     users db' = users db /\ disk (snd st') = disk (snd st)).
Proof.
  intros Hcon Hrows Hn Htext _.
  pose proof (iterrows_text df Htext) as Hcells.
  destruct (ingest_run (iterrows df) db rows Hrows)
    as (db1 & new & Hrun & Hi1 & Hu1 & _ & Hr1 & Hf1).
  destruct (for_each_connected h (iterrows df) (ingest_row h) ingest_stmt)
    with (db := db) (db' := db1) (st := st)
    as (st1 & E1 & Hcon1 & Hd1); [|exact Hcon|exact Hrun|].
  { intros x d d' st0. apply ingest_row_connected. }
  assert (Hclock : clock (snd st1) = clock (snd st)).
  { pose proof (for_each_clock (iterrows df) h st) as Hck.
    rewrite E1 in Hck. exact Hck. }
  assert (Hhead : forall k : flow -> M unit,
    (fl <~ try_except is_exception
             (df0 <~ read_csv (CsvFrame df) ;;
              if (nrows df0 =? 0)%nat then ret (Proceed true)
              else
                cur <~ _get_cursor ;;
                for_each (iterrows df0) (ingest_row cur) ;;
                ok <~ _safe_commit ;;
                if ok then _create_sample_users ;; ret (Proceed false)
                else ret Returned)
             (fun _ => ret (Proceed true)) ;; k fl) st =
    (let '(r, st2) := _safe_commit st1 in
     match r with
     | Ret true =>
         let '(r', st3) := _create_sample_users st2 in
         match r' with
         | Ret _ => k (Proceed false) st3
         | Raise _ => k (Proceed true) st3
         end
     | Ret false => k Returned st2
     | Raise _ => k (Proceed true) st2
     end)).
  { intros k. unfold try_except, bind, read_csv, ret.
    apply Nat.eqb_neq in Hn. rewrite Hn.
    rewrite (get_cursor_connected st h (proj1 Hcon))
      by (destruct Hcon as [_ [fk Hh]]; eauto).
    rewrite E1. destruct (_safe_commit st1) as [[[|]|e] st2]; simpl;
      [|reflexivity|reflexivity].
    destruct (_create_sample_users st2) as [[[]|e] st3]; reflexivity. }
  unfold insert_initial_data. rewrite Hhead. clear Hhead.
  destruct (safe_commit_connected_any h db1 st1 Hcon1)
    as (b & st2 & E2 & Hcon2 & Htrue & Hfalse).
  rewrite E2. destruct b.
  - destruct (create_sample_users_any h db1 st2 Hcon2)
      as (st3 & db3 & E3 & Hcon3 & Hi3 & Hr3 & _).
    rewrite E3. exists st3, db3, new. split; [reflexivity|].
    split; [exact Hcon3|]. split; [congruence|].
    split; [rewrite <- Hcells; exact Hf1|].
    split; [congruence|]. intros Hf. exfalso.
    rewrite <- Hclock in Hf.
    rewrite (safe_commit_refused h db1 st1 Hcon1 Hf) in E2. discriminate.
  - exists st2, db1, new. split; [reflexivity|]. split; [exact Hcon2|].
    split; [exact Hi1|]. split; [rewrite <- Hcells; exact Hf1|].
    split; [exact Hr1|].
    intros _. split; [exact Hu1|]. rewrite Hfalse by reflexivity. exact Hd1.
Qed.

(** * Further properties of the cleaner *)

Lemma fillna_id value col :
  existsb isnull col = false -> fillna value col = col.
Proof.
  induction col as [|v col IH]; simpl; [reflexivity|].
  intros Hn. apply orb_false_iff in Hn as [Hv Hcol].
  rewrite Hv, IH by exact Hcol. reflexivity.
Qed.

Lemma length_fillna value col : length (fillna value col) = length col.
Proof. apply length_map. Qed.

Definition is_int (v : pyval) : bool :=
  match v with PyInt _ => true | _ => false end.

Lemma astype_int_ints col : forall col',
  astype_int col = Ret col' ->
  forallb is_int col' = true /\ length col' = length col.
Proof.
  induction col as [|v col IH]; simpl; intros col'.
  - intros [= <-]. auto.
  - destruct (astype_int_cell v) as [v'|e] eqn:Hv; [|discriminate].
    destruct (astype_int col) as [col''|e]; [|discriminate].
    intros [= <-]. destruct (IH col'' eq_refl) as [Hall Hlen]. simpl.
    rewrite Hall, Hlen, andb_true_r. split; [|reflexivity].
    destruct (astype_int_cell_int _ _ Hv) as [z ->]. reflexivity.
Qed.

(** A fix without conversion returns, and what it leaves. *)
Lemma fix_column_fill name value df :
  exists df',
    fix_column name value Ret df = Ret df' /\
    nrows df' = nrows df /\
    columns df' !! name = fillna value <$> columns df !! name /\
    (forall other, other <> name ->
                   columns df' !! other = columns df !! other).
Proof.
  unfold fix_column. destruct (columns df !! name) as [col|] eqn:Hcol.
  - destruct (existsb isnull col) eqn:Hnull.
    + eexists. split; [reflexivity|]. simpl. split; [reflexivity|].
      split; [apply lookup_insert_eq|].
      intros other Ho. apply lookup_insert_ne. congruence.
    + exists df. rewrite Hcol. simpl. rewrite fillna_id by exact Hnull. auto.
  - exists df. rewrite Hcol. auto.
Qed.

(** The fix of the year column. *)
Lemma fix_year_spec df :
  match columns df !! "year" with
  | Some col =>
      if existsb isnull col then
        match astype_int (fillna (PyInt 0) col) with
        | Ret col' =>
            exists df',
              fix_column "year" (PyInt 0) astype_int df = Ret df' /\
              nrows df' = nrows df /\
              columns df' !! "year" = Some col' /\
              (forall other, other <> "year"%string ->
                             columns df' !! other = columns df !! other)
        | Raise e => fix_column "year" (PyInt 0) astype_int df = Raise e
        end
      else fix_column "year" (PyInt 0) astype_int df = Ret df
  | None => fix_column "year" (PyInt 0) astype_int df = Ret df
  end.
Proof.
  unfold fix_column. destruct (columns df !! "year") as [col|]; [|reflexivity].
  destruct (existsb isnull col); [|reflexivity].
  destruct (astype_int (fillna (PyInt 0) col)) as [col'|e]; [|reflexivity].
  eexists. split; [reflexivity|]. simpl. split; [reflexivity|].
  split; [apply lookup_insert_eq|].
  intros other Ho. apply lookup_insert_ne. congruence.
Qed.

Definition cleaned_columns : list string :=
  ["title"; "genre"; "year"; "description"]%string.

(** The frame [clean_data] returns, in terms of the conversion of the
    year column. *)
Lemma cleaned_frame_spec (df df' : DataFrame) (tr : list event) :
  df_empty df = false ->
  fst (clean_data (ObjFrame df) tr) = Ret df' ->
  nrows df' = nrows df /\
  (forall name, is_Some (columns df' !! name) <->
                is_Some (columns df !! name)) /\
  columns df' !! "title" =
    fillna (PyStr "Unknown Title") <$> columns df !! "title" /\
  columns df' !! "genre" =
    fillna (PyStr "Unknown") <$> columns df !! "genre" /\
  columns df' !! "description" =
    fillna (PyStr EmptyString) <$> columns df !! "description" /\
  (columns df !! "year" = None -> columns df' !! "year" = None) /\
  (forall col, columns df !! "year" = Some col ->
     (existsb isnull col = false -> columns df' !! "year" = Some col) /\
     (existsb isnull col = true ->
      exists col',
        astype_int (fillna (PyInt 0) col) = Ret col' /\
        columns df' !! "year" = Some col' /\
        forallb is_int col' = true /\
        length col' = length col)) /\
  (forall name, ~ (name ∈ cleaned_columns) ->
                columns df' !! name = columns df !! name).
Proof.
  intros Hempty. rewrite clean_data_cleaned. unfold cleaned.
  rewrite Hempty.
  destruct (fix_column_fill "title" (PyStr "Unknown Title") df)
    as (d1 & -> & Hn1 & Hc1 & Ho1).
  destruct (fix_column_fill "genre" (PyStr "Unknown") d1)
    as (d2 & -> & Hn2 & Hc2 & Ho2).
  pose proof (fix_year_spec d2) as Hy.
  assert (Hyear2 : columns d2 !! "year" = columns df !! "year")
    by (rewrite Ho2, Ho1 by discriminate; reflexivity).
  rewrite Hyear2 in Hy.
  assert (Hmain : forall d3,
    nrows d3 = nrows df ->
    columns d3 !! "title" =
      fillna (PyStr "Unknown Title") <$> columns df !! "title" ->
    columns d3 !! "genre" =
      fillna (PyStr "Unknown") <$> columns df !! "genre" ->
    columns d3 !! "description" = columns df !! "description" ->
    (forall name, ~ (name ∈ cleaned_columns) ->
                  columns d3 !! name = columns df !! name) ->
    fix_column "description" (PyStr EmptyString) Ret d3 = Ret df' ->
    nrows df' = nrows df /\
    columns df' !! "title" =
      fillna (PyStr "Unknown Title") <$> columns df !! "title" /\
    columns df' !! "genre" =
      fillna (PyStr "Unknown") <$> columns df !! "genre" /\
    columns df' !! "description" =
      fillna (PyStr EmptyString) <$> columns df !! "description" /\
    columns df' !! "year" = columns d3 !! "year" /\
    (forall name, ~ (name ∈ cleaned_columns) ->
                  columns df' !! name = columns df !! name)).
  { intros d3 Hn3 Ht3 Hg3 Hd3 Ho3 H4.
    destruct (fix_column_fill "description" (PyStr EmptyString) d3)
      as (d4 & E4 & Hn4 & Hc4 & Ho4).
    rewrite E4 in H4. injection H4 as <-.
    split; [congruence|].
    split; [rewrite Ho4 by discriminate; exact Ht3|].
    split; [rewrite Ho4 by discriminate; exact Hg3|].
    split; [rewrite Hc4, Hd3; reflexivity|].
    split; [apply Ho4; discriminate|].
    intros name Hname. rewrite Ho4; [apply Ho3, Hname|].
    intros ->. apply Hname. unfold cleaned_columns.
    rewrite !elem_of_cons. auto. }
  assert (Hpack : forall d3,
    nrows d3 = nrows d2 ->
    (forall other, other <> "year"%string ->
                   columns d3 !! other = columns d2 !! other) ->
    fix_column "description" (PyStr EmptyString) Ret d3 = Ret df' ->
    nrows df' = nrows df /\
    columns df' !! "title" =
      fillna (PyStr "Unknown Title") <$> columns df !! "title" /\
    columns df' !! "genre" =
      fillna (PyStr "Unknown") <$> columns df !! "genre" /\
    columns df' !! "description" =
      fillna (PyStr EmptyString) <$> columns df !! "description" /\
    columns df' !! "year" = columns d3 !! "year" /\
    (forall name, ~ (name ∈ cleaned_columns) ->
                  columns df' !! name = columns df !! name)).
  { intros d3 Hn3 Ho3. apply Hmain.
    - congruence.
    - rewrite Ho3, Ho2 by discriminate. exact Hc1.
    - rewrite Ho3 by discriminate. rewrite Hc2, Ho1 by discriminate.
      reflexivity.
    - rewrite Ho3, Ho2, Ho1 by discriminate. reflexivity.
    - intros name Hname. unfold cleaned_columns in Hname.
      rewrite !elem_of_cons in Hname.
      rewrite Ho3, Ho2, Ho1; [reflexivity|..]; intros ->; apply Hname; auto. }
  clear Hmain.
  assert (Hfinish : forall d3,
    columns df' !! "year" = columns d3 !! "year" ->
    (is_Some (columns d3 !! "year") <-> is_Some (columns df !! "year")) ->
    nrows df' = nrows df /\
    columns df' !! "title" =
      fillna (PyStr "Unknown Title") <$> columns df !! "title" /\
    columns df' !! "genre" =
      fillna (PyStr "Unknown") <$> columns df !! "genre" /\
    columns df' !! "description" =
      fillna (PyStr EmptyString) <$> columns df !! "description" /\
    (forall name, ~ (name ∈ cleaned_columns) ->
                  columns df' !! name = columns df !! name) ->
    forall name, is_Some (columns df' !! name) <->
                 is_Some (columns df !! name)).
  { intros d3 Hy3 Hsome (_ & Ht & Hg & Hd & Ho) name.
    destruct (decide (name = "title"%string)) as [->|Nt];
      [rewrite Ht; apply fmap_is_Some|].
    destruct (decide (name = "genre"%string)) as [->|Ng];
      [rewrite Hg; apply fmap_is_Some|].
    destruct (decide (name = "description"%string)) as [->|Nd];
      [rewrite Hd; apply fmap_is_Some|].
    destruct (decide (name = "year"%string)) as [->|Ny];
      [rewrite Hy3; exact Hsome|].
    rewrite Ho; [reflexivity|]. unfold cleaned_columns.
    rewrite !elem_of_cons, elem_of_nil. tauto. }
  destruct (columns df !! "year") as [col|] eqn:Hyear.
  - destruct (existsb isnull col) eqn:Hnull.
    + destruct (astype_int (fillna (PyInt 0) col)) as [col'|e] eqn:Hconv.
      * destruct Hy as (d3 & -> & Hn3 & Hc3 & Ho3). intros H4.
        destruct (Hpack d3 Hn3 Ho3 H4) as (Hn & Ht & Hg & Hd & Hyr & Ho).
        destruct (astype_int_ints _ _ Hconv) as [Hints Hlen].
        rewrite length_fillna in Hlen.
        split; [exact Hn|]. split.
        { apply (Hfinish d3 Hyr); [rewrite Hc3; split; eauto | auto 10]. }
        split; [exact Ht|]. split; [exact Hg|]. split; [exact Hd|].
        split; [discriminate|]. split; [|exact Ho].
        intros col0 [= <-]. split; [congruence|]. intros _.
        exists col'. rewrite Hyr, Hc3. auto.
      * rewrite Hy. discriminate.
    + rewrite Hy. intros H4.
      destruct (Hpack d2 eq_refl (fun _ _ => eq_refl) H4)
        as (Hn & Ht & Hg & Hd & Hyr & Ho).
      split; [exact Hn|]. split.
      { apply (Hfinish d2 Hyr); [rewrite Hyear2; tauto | auto 10]. }
      split; [exact Ht|]. split; [exact Hg|]. split; [exact Hd|].
      split; [discriminate|]. split; [|exact Ho].
      intros col0 [= <-]. split; [|congruence]. intros _.
      rewrite Hyr. exact Hyear2.
  - rewrite Hy. intros H4.
    destruct (Hpack d2 eq_refl (fun _ _ => eq_refl) H4)
      as (Hn & Ht & Hg & Hd & Hyr & Ho).
    split; [exact Hn|]. split.
    { apply (Hfinish d2 Hyr); [rewrite Hyear2; tauto | auto 10]. }
    split; [exact Ht|]. split; [exact Hg|]. split; [exact Hd|].
    split; [intros _; rewrite Hyr; exact Hyear2|].
    split; [discriminate | exact Ho].
Qed.

(** When [clean_data] raises, in terms of the conversion of the year
    column. *)
Lemma cleaned_raise_spec (df : DataFrame) (tr : list event) (e : exn) :
  (fst (clean_data (ObjFrame df) tr) = Raise e <->
   df_empty df = false /\
   exists col,
     columns df !! "year" = Some col /\
     existsb isnull col = true /\
     astype_int (fillna (PyInt 0) col) = Raise e) /\
  (df_empty df = true -> fst (clean_data (ObjFrame df) tr) = Ret df).
Proof.
  rewrite clean_data_cleaned. unfold cleaned.
  destruct (df_empty df) eqn:Hempty.
  { split; [|reflexivity]. split; [discriminate|].
    intros [Hf _]. discriminate. }
  split; [|discriminate].
  destruct (fix_column_fill "title" (PyStr "Unknown Title") df)
    as (d1 & -> & Hn1 & Hc1 & Ho1).
  destruct (fix_column_fill "genre" (PyStr "Unknown") d1)
    as (d2 & -> & Hn2 & Hc2 & Ho2).
  pose proof (fix_year_spec d2) as Hy.
  assert (Hyear2 : columns d2 !! "year" = columns df !! "year")
    by (rewrite Ho2, Ho1 by discriminate; reflexivity).
  rewrite Hyear2 in Hy.
  destruct (columns df !! "year") as [col|] eqn:Hyear.
  - destruct (existsb isnull col) eqn:Hnull.
    + destruct (astype_int (fillna (PyInt 0) col)) as [col'|e'] eqn:Hconv.
      * destruct Hy as (d3 & -> & _).
        destruct (fix_column_fill "description" (PyStr EmptyString) d3)
          as (d4 & -> & _).
        split; [discriminate|].
        intros (_ & col0 & [= <-] & _ & Hr). congruence.
      * rewrite Hy. split.
        -- intros [= ->]. split; [reflexivity|]. exists col. auto.
        -- intros (_ & col0 & [= <-] & _ & Hr). congruence.
    + rewrite Hy.
      destruct (fix_column_fill "description" (PyStr EmptyString) d2)
        as (d4 & -> & _).
      split; [discriminate|].
      intros (_ & col0 & [= <-] & Hn & _). congruence.
  - rewrite Hy.
    destruct (fix_column_fill "description" (PyStr EmptyString) d2)
      as (d4 & -> & _).
    split; [discriminate|]. intros (_ & col0 & Hcol & _). discriminate.
Qed.

(** ** Year columns of numbers *)

(** The integral part of a float. *)
Definition trunc (q : Q) : Z := Z.quot (Qnum q) (Zpos (Qden q)).

(** A cell that is missing or a 64-bit integer, and a cell that is missing
    or a float whose integral part fits 64 bits. *)
Definition int_or_null (v : pyval) : bool :=
  match v with
  | PyNone | PyNaN => true
  | PyInt z => in_int64 z
  | _ => false
  end.

Definition float_or_null (v : pyval) : bool :=
  match v with
  | PyNone | PyNaN => true
  | PyFloat q => in_int64 (trunc q)
  | _ => false
  end.

(** A column of missing values and 64-bit integers, or of missing values
    and floats whose integral parts fit 64 bits. *)
Definition numeric_column (col : list pyval) : bool :=
  forallb int_or_null col || forallb float_or_null col.

(** A column of missing values and Python integers of any size. *)
Definition integer_column (col : list pyval) : bool :=
  forallb (fun v => isnull v || is_int v) col.

(** The integer a cell of a numeric column becomes: 0 for a missing value,
    the integral part for a float. *)
Definition year_value (v : pyval) : pyval :=
  match v with
  | PyInt z => PyInt z
  | PyFloat q => PyInt (trunc q)
  | _ => PyInt 0
  end.

Lemma astype_numeric_cells col :
  forallb (fun v => int_or_null v || float_or_null v) col = true ->
  astype_int (fillna (PyInt 0) col) = Ret (map year_value col).
Proof.
  induction col as [|v col IH]; [reflexivity|].
  cbn [forallb]. intros Hall. apply andb_prop in Hall as [Hv Hcol].
  cbn [fillna map astype_int]. fold (fillna (PyInt 0) col).
  rewrite (IH Hcol).
  destruct v as [| |z|q|s| |b]; try discriminate Hv; try reflexivity.
  - simpl in Hv. rewrite orb_false_r in Hv.
    cbn [isnull astype_int_cell]. unfold to_int64. rewrite Hv. reflexivity.
  - simpl in Hv. unfold trunc in Hv.
    cbn [isnull astype_int_cell year_value]. unfold trunc. cbv zeta.
    rewrite Hv. reflexivity.
Qed.

Lemma astype_numeric col :
  numeric_column col = true ->
  astype_int (fillna (PyInt 0) col) = Ret (map year_value col).
Proof.
  intros Hnum. apply astype_numeric_cells.
  unfold numeric_column in Hnum. apply orb_prop in Hnum.
  apply forallb_forall. intros v Hin.
  destruct Hnum as [Hall|Hall]; rewrite forallb_forall in Hall;
    rewrite (Hall v Hin); [reflexivity | apply orb_true_r].
Qed.

(** The conversion of a column of integers stops at the first one that
    does not fit 64 bits. *)
Lemma astype_integers col :
  integer_column col = true ->
  match astype_int (fillna (PyInt 0) col) with
  | Ret _ => forall z, PyInt z ∈ col -> in_int64 z = true
  | Raise e =>
      exists z, e = OverflowError (int64_overflow z) /\
                PyInt z ∈ col /\ in_int64 z = false
  end.
Proof.
  unfold integer_column. induction col as [|v col IH].
  - intros _ z Hin. inversion Hin.
  - cbn [forallb]. intros Hall. apply andb_prop in Hall as [Hv Hcol].
    specialize (IH Hcol).
    cbn [fillna map astype_int]. fold (fillna (PyInt 0) col).
    assert (Hcell : exists z,
              (if isnull v then PyInt 0 else v) = PyInt z /\
              (v = PyInt z \/ (isnull v = true /\ z = 0%Z))).
    { destruct v as [| |z|q|s| |b]; try discriminate Hv;
        [exists 0%Z | exists 0%Z | exists z]; simpl; auto. }
    destruct Hcell as (z & -> & Hz). cbn [astype_int_cell]. unfold to_int64.
    destruct (in_int64 z) eqn:Hfit.
    + destruct (astype_int (fillna (PyInt 0) col)) as [col'|e].
      * intros z' Hin. apply elem_of_cons in Hin as [Heq|Hin];
          [|apply IH, Hin].
        destruct Hz as [->|[Hnull _]]; [congruence|].
        rewrite <- Heq in Hnull. discriminate.
      * destruct IH as (z' & -> & Hin & Hbad). exists z'.
        split; [reflexivity|]. split; [right; exact Hin | exact Hbad].
    + exists z. split; [reflexivity|].
      destruct Hz as [->|[_ ->]]; [|discriminate Hfit].
      split; [left | exact Hfit].
Qed.

(** X13: what [clean_data] does with a frame that is not empty and whose
    year column, when it has one, holds missing values and 64-bit integers
    only, or missing values and floats whose integral parts fit 64 bits.
    It returns a frame.  The number of rows and the column labels are those
    of the frame received.  The title, genre and description columns are
    the received ones with each null replaced by "Unknown Title", "Unknown"
    and the empty string.  The year column is returned as received when it
    has no null (it is not converted then); when it has one, every cell is
    converted: a null becomes 0, an integer stays, a float becomes its
    integral part.  Every other column is returned as received. *)
Theorem clean_data_fills (df : DataFrame) (tr : list event) :
  df_empty df = false ->
  (forall col, columns df !! "year" = Some col ->
               numeric_column col = true) ->
  exists df',
    fst (clean_data (ObjFrame df) tr) = Ret df' /\
    nrows df' = nrows df /\
    (forall name, is_Some (columns df' !! name) <->
                  is_Some (columns df !! name)) /\
    columns df' !! "title" =
      fillna (PyStr "Unknown Title") <$> columns df !! "title" /\
    columns df' !! "genre" =
      fillna (PyStr "Unknown") <$> columns df !! "genre" /\
    columns df' !! "description" =
      fillna (PyStr EmptyString) <$> columns df !! "description" /\
    (columns df !! "year" = None -> columns df' !! "year" = None) /\
    (forall col, columns df !! "year" = Some col ->
       (existsb isnull col = false -> columns df' !! "year" = Some col) /\
       (existsb isnull col = true ->
        columns df' !! "year" = Some (map year_value col))) /\
    (forall name, ~ (name ∈ cleaned_columns) ->
                  columns df' !! name = columns df !! name).
Proof.
  intros Hempty Hnum.
  destruct (fst (clean_data (ObjFrame df) tr)) as [df'|e] eqn:Hrun.
  - exists df'. split; [reflexivity|].
    destruct (cleaned_frame_spec df df' tr Hempty Hrun)
      as (Hn & Hlab & Ht & Hg & Hd & Hnone & Hyear & Ho).
    split; [exact Hn|]. split; [exact Hlab|]. split; [exact Ht|].
    split; [exact Hg|]. split; [exact Hd|]. split; [exact Hnone|].
    split; [|exact Ho].
    intros col Hcol. destruct (Hyear col Hcol) as [Hkeep Hconv].
    split; [exact Hkeep|]. intros Hnull.
    destruct (Hconv Hnull) as (col' & Hc & Hy & _).
    rewrite (astype_numeric col (Hnum col Hcol)) in Hc.
    injection Hc as <-. exact Hy.
  - exfalso.
    destruct (proj1 (proj1 (cleaned_raise_spec df tr e)) Hrun)
      as (_ & col & Hcol & _ & Hc).
    rewrite (astype_numeric col (Hnum col Hcol)) in Hc. discriminate.
Qed.

(** X14: when [clean_data] returns and when it raises.  An empty frame is
    returned as it is.  A frame without a year column, or whose year column
    holds no null, is never refused: a frame is returned.  So an exception
    can only come from a frame that is not empty and whose year column holds
    a null beside a cell that is neither a 64-bit integer nor a float whose
    integral part fits 64 bits.  One such case: when the year column holds
    a null and otherwise Python integers, and one of them lies below -2^63
    or at 2^64 or above, [clean_data] raises the [OverflowError] of the
    conversion to [int64], for an integer of the column that does not fit
    64 bits. *)
Theorem clean_data_raises_on_year (df : DataFrame) (tr : list event) :
  (df_empty df = true -> fst (clean_data (ObjFrame df) tr) = Ret df) /\
  (column_nulls df "year" = false ->
   exists df', fst (clean_data (ObjFrame df) tr) = Ret df') /\
  (forall e,
     fst (clean_data (ObjFrame df) tr) = Raise e ->
     df_empty df = false /\
     exists col,
       columns df !! "year" = Some col /\
       existsb isnull col = true /\
       numeric_column col = false) /\
  (forall col z,
     df_empty df = false ->
     columns df !! "year" = Some col ->
     existsb isnull col = true ->
     integer_column col = true ->
     PyInt z ∈ col ->
     (z < - 2 ^ 63 \/ 2 ^ 64 <= z)%Z ->
     exists z',
       fst (clean_data (ObjFrame df) tr) =
         Raise (OverflowError (int64_overflow z')) /\
       PyInt z' ∈ col /\
       in_int64 z' = false).
Proof.
  split; [apply (cleaned_raise_spec df tr TypeError)|].
  split; [|split].
  - intros Hnone.
    destruct (fst (clean_data (ObjFrame df) tr)) as [df'|e] eqn:Hrun;
      [eauto|exfalso].
    destruct (proj1 (proj1 (cleaned_raise_spec df tr e)) Hrun)
      as (_ & col & Hcol & Hnull & _).
    unfold column_nulls in Hnone. rewrite Hcol in Hnone. congruence.
  - intros e Hrun.
    destruct (proj1 (proj1 (cleaned_raise_spec df tr e)) Hrun)
      as (Hempty & col & Hcol & Hnull & Hc).
    split; [exact Hempty|]. exists col.
    split; [exact Hcol|]. split; [exact Hnull|].
    destruct (numeric_column col) eqn:Hnum; [|reflexivity].
    rewrite (astype_numeric col Hnum) in Hc. discriminate.
  - intros col z Hempty Hcol Hnull Hints Hin Hz.
    pose proof (astype_integers col Hints) as Hconv.
    destruct (astype_int (fillna (PyInt 0) col)) as [col'|e] eqn:Hc.
    + exfalso. specialize (Hconv z Hin). unfold in_int64 in Hconv.
      apply andb_prop in Hconv as [Hlo Hhi].
      apply Z.leb_le in Hlo. apply Z.ltb_lt in Hhi. lia.
    + destruct Hconv as (z' & -> & Hin' & Hbad). exists z'.
      split; [|auto].
      apply (proj2 (proj1 (cleaned_raise_spec df tr _))).
      split; [exact Hempty|]. exists col. auto.
Qed.

(** * Further properties of the sample catalog *)

(** A loop keeps what each of its turns keeps. *)
Lemma for_each_frame {A B : Type} (f : State -> B) (l : list A)
    (body : A -> M unit) :
  (forall x st, f (snd (body x st)) = f st) ->
  forall st, f (snd (for_each l body st)) = f st.
Proof.
  intros Hbody. induction l as [|x l IH]; intros st; [reflexivity|].
  cbn [for_each]. unfold bind. specialize (Hbody x st).
  destruct (body x st) as [[[]|e] st1]; simpl in Hbody.
  - rewrite IH. exact Hbody.
  - exact Hbody.
Qed.

Definition time_and_draws (st : State) : nat * nat :=
  (clock (snd st), draws (snd st)).

Lemma execute_time_and_draws h (stmt : Conn -> stmt_result) st :
  time_and_draws (snd (execute h stmt st)) = time_and_draws st.
Proof.
  destruct st as [m w]. unfold execute, with_conn, bind, get_world; simpl.
  destruct (conns w !! h) as [c|]; simpl; [|reflexivity].
  destruct (stmt c); reflexivity.
Qed.

Lemma execute_insert_item_time_and_draws h mode item st :
  time_and_draws (snd (execute_insert_item h mode item st)) =
  time_and_draws st.
Proof.
  destruct item as [[[title genre] year] description].
  unfold execute_insert_item, bind, lift_outcome.
  destruct (bind_param title); [|reflexivity].
  destruct (bind_param genre); [|reflexivity].
  destruct (bind_param year); [|reflexivity].
  destruct (bind_param description); [|reflexivity].
  apply execute_time_and_draws.
Qed.

Lemma bind_param_int (z : Z) :
  (- 2 ^ 63 <= z < 2 ^ 63)%Z -> bind_param (PyInt z) = Ret (SqlInt z).
Proof.
  intros [Hlo Hhi]. unfold bind_param.
  apply Z.leb_le in Hlo. apply Z.ltb_lt in Hhi. rewrite Hlo, Hhi.
  reflexivity.
Qed.

(** Each statement of the sample catalog appends its row. *)
Lemma sample_item_step item db rows :
  item ∈ sample_items ->
  items db = Some rows ->
  exists db' r,
    item_stmt OnAbort item db = Done db' /\
    items db' = Some (rows ++ [r]) /\
    users db' = users db /\
    ratings db' = ratings db.
Proof.
  intros Hin Hrows. unfold sample_items in Hin.
  repeat (apply elem_of_cons in Hin as [->|Hin]);
    [..|inversion Hin];
    unfold item_stmt; rewrite bind_param_int by lia; cbn [bind_param];
    rewrite (insert_item_done _ _ _ _ _ _ rows Hrows) by reflexivity;
    eexists _, _; (split; [reflexivity|]); simpl; auto.
Qed.

Lemma item_stmts_run (l : list (pyval * pyval * pyval * pyval)) :
  (forall item, item ∈ l -> item ∈ sample_items) ->
  forall db rows,
    items db = Some rows ->
    exists db' new,
      run_stmts (map (item_stmt OnAbort) l) db = Done db' /\
      items db' = Some (rows ++ new) /\
      length new = length l /\
      users db' = users db /\
      ratings db' = ratings db.
Proof.
  induction l as [|item l IH]; intros Hl db rows Hrows.
  - exists db, []. simpl. rewrite app_nil_r. auto.
  - destruct (sample_item_step item db rows) as (db1 & r & E1 & Hi1 & Hu1 & Hr1);
      [apply Hl, list_elem_of_here | exact Hrows |].
    destruct (IH (fun i Hi => Hl i (list_elem_of_further _ _ _ Hi)) db1 _ Hi1)
      as (db2 & new & E2 & Hi2 & Hlen & Hu2 & Hr2).
    exists db2, (r :: new). simpl. rewrite E1.
    split; [exact E2|].
    split; [rewrite Hi2, <- app_assoc; reflexivity|].
    split; [congruence|]. split; congruence.
Qed.

(** X15: [_create_sample_data] on a connected manager.  With no items
    table the first INSERT fails and the method returns with the state it
    started from.  With the table there and the commit refused by SQLite,
    the five items are in the connection's view behind the rows that were
    there, and the method stops at that: no user and no rating is added, no
    random number is drawn and the file is as before. *)
Theorem sample_data_stops_without_commit (st : State) (h : nat) (db : DB) :
  connected h db st ->
  (items db = None -> _create_sample_data st = (Ret tt, st)) /\
  (forall rows,
     items db = Some rows ->
     fails (clock (snd st)) = true ->
     exists st' db' new,
       _create_sample_data st = (Ret tt, st') /\
       connected h db' st' /\
       items db' = Some (rows ++ new) /\
       length new = 5%nat /\
       users db' = users db /\
       ratings db' = ratings db /\
       disk (snd st') = disk (snd st) /\
       draws (snd st') = draws (snd st)).
Proof.
  intros Hcon.
  assert (Hcur : _get_cursor st = (Ret h, st)).
  { destruct Hcon as [Hc [fk Hh]]. apply get_cursor_connected; eauto. }
  split.
  - intros Hnone. destruct Hcon as [_ [fk Hh]].
    unfold _create_sample_data, try_except. unfold bind at 1. rewrite Hcur.
    unfold sample_items. cbn [for_each]. unfold bind at 1. unfold bind at 1.
    unfold execute_insert_item. rewrite bind_param_int by lia.
    cbn [bind_param]. unfold lift_outcome, bind.
    rewrite (execute_failed_run h (mk_conn db fk) _ OperationalError st Hh)
      by (unfold insert_item; simpl; rewrite Hnone; reflexivity).
    reflexivity.
  - intros rows Hrows Hf.
    destruct (item_stmts_run sample_items (fun _ Hi => Hi) db rows Hrows)
      as (db1 & new & Hrun & Hi1 & Hlen & Hu1 & Hr1).
    destruct (for_each_connected h sample_items
                (fun item => execute_insert_item h OnAbort item)
                (item_stmt OnAbort)
                (fun x d d' st0 =>
                   execute_insert_item_connected h OnAbort x d d' st0)
                db db1 st Hcon Hrun)
      as (st1 & E1 & Hcon1 & Hd1).
    pose proof (for_each_frame time_and_draws sample_items
                  (fun item => execute_insert_item h OnAbort item)
                  (fun x st0 =>
                     execute_insert_item_time_and_draws h OnAbort x st0) st)
      as Hframe.
    rewrite E1 in Hframe. unfold time_and_draws in Hframe. simpl in Hframe.
    injection Hframe as Hclock Hdraws.
    rewrite <- Hclock in Hf.
    pose proof (safe_commit_refused h db1 st1 Hcon1 Hf) as E2.
    exists (fst st1, tick (snd st1)), db1, new.
    split.
    { unfold _create_sample_data, try_except. unfold bind at 1.
      rewrite Hcur. unfold bind at 1. rewrite E1. unfold bind at 1.
      rewrite E2. reflexivity. }
    split.
    { destruct Hcon1 as [Hc1 [fk Hh1]]. split; [exact Hc1|]. exists fk.
      exact Hh1. }
    split; [exact Hi1|]. split; [exact Hlen|]. split; [exact Hu1|].
    split; [exact Hr1|]. split; [exact Hd1 | exact Hdraws].
Qed.

(** * Reading the items back *)

Definition file_is (D : DB) (st : State) : Prop := disk (snd st) = D.

Lemma file_connect D : keeps (file_is D) connect.
Proof.
  intros [m w] HI. unfold wp. rewrite connect_run. cbv zeta.
  destruct (fails (clock w)); [exact HI|].
  destruct (fails (S (clock w))); exact HI.
Qed.

Lemma file_close D : keeps (file_is D) close.
Proof.
  intros st HI. unfold wp.
  destruct (close_run st) as (st' & E & _ & Hd & _).
  rewrite E. unfold file_is in *. simpl. congruence.
Qed.

Lemma file_env_op D e : keeps (file_is D) (env_op e).
Proof.
  intros [m w] HI. unfold wp, env_op. simpl.
  destruct (fails (clock w)); exact HI.
Qed.

Lemma file_get_cursor D : keeps (file_is D) _get_cursor.
Proof.
  apply keeps_bind; [intros st HI; exact HI|]. intros c.
  apply keeps_bind.
  - destruct c; [apply keeps_ret|].
    apply keeps_bind; [apply file_connect|]. intros _. apply keeps_ret.
  - intros _. apply keeps_bind; [intros st HI; exact HI|].
    intros [h|]; [|apply keeps_raise].
    apply keeps_with_conn_any. intros c' st _ HI. exact HI.
Qed.

Lemma file_load_data_from_db D : keeps (file_is D) load_data_from_db.
Proof.
  apply keeps_try_finally; [|apply file_close].
  apply keeps_try_except; [|intros e; apply keeps_ret].
  unfold query_items.
  apply keeps_bind; [apply file_connect|]. intros _.
  apply keeps_bind; [apply file_get_cursor|]. intros _.
  apply keeps_bind; [intros st HI; exact HI|]. intros con.
  apply keeps_bind; [|intros df; apply keeps_ret].
  destruct con as [h|]; [|apply keeps_raise].
  apply keeps_with_conn_any. intros c st _ HI. revert st HI.
  change (keeps (file_is D)
            (env_op DatabaseError ;;
             match items (view c) with
             | Some rows => ret (frame_of_items str_dtype rows)
             | None => raise DatabaseError
             end)).
  apply keeps_bind; [apply file_env_op|]. intros _.
  destruct (items (view c)); [apply keeps_ret | apply keeps_raise].
Qed.

(** What [load_data_from_db] returns when the environment refuses
    nothing. *)
Lemma load_data_reliable (st : State) :
  reliable ->
  fst (load_data_from_db st) =
    Ret (match items (disk (snd st)) with
         | Some rows => frame_of_items str_dtype rows
         | None => empty_frame
         end).
Proof.
  intros Hrel. destruct st as [m w].
  pose proof (connect_run m w) as E1. cbv zeta in E1.
  rewrite (Hrel (clock w)), (Hrel (S (clock w))) in E1.
  set (st1 := (mk_manager (db_path m) (Some (next_handle w)),
               mk_world (disk w)
                        (<[next_handle w := mk_conn (disk w) true]> (conns w))
                        (S (next_handle w)) (S (S (clock w))) (draws w)))
    in E1.
  assert (Hc1 : connection (fst st1) = Some (next_handle w)) by reflexivity.
  assert (Hh1 : conns (snd st1) !! next_handle w =
                Some (mk_conn (disk w) true)) by apply lookup_insert_eq.
  clearbody st1. cbn [fst snd].
  assert (Hcur : _get_cursor st1 = (Ret (next_handle w), st1))
    by (apply get_cursor_connected; eauto).
  assert (Hq : query_items (m, w) =
               (match items (disk w) with
                | Some rows => Ret (frame_of_items str_dtype rows)
                | None => Raise DatabaseError
                end, (fst st1, tick (snd st1)))).
  { unfold query_items. unfold bind at 1. rewrite E1.
    unfold bind at 1. rewrite Hcur.
    unfold bind, get_connection, read_sql_query_items.
    cbn [fst snd]. rewrite Hc1. unfold with_conn, bind, get_world.
    cbn [fst snd]. rewrite Hh1.
    unfold env_op. cbn [fst snd]. rewrite (Hrel (clock (snd st1))).
    cbn [view]. destruct (items (disk w)); reflexivity. }
  unfold load_data_from_db, try_finally, try_except. rewrite Hq.
  destruct (items (disk w)) as [rows|]; simpl.
  - destruct (close_run (fst st1, tick (snd st1))) as (st' & -> & _).
    reflexivity.
  - destruct (close_run (fst st1, tick (snd st1))) as (st' & -> & _).
    reflexivity.
Qed.

(** How a cell of the frame stands for the value the row stores. *)
Definition cell_agrees (v : sqlval) (c : pyval) : Prop :=
  match v with
  | SqlNull => isnull c = true
  | SqlInt z =>
      c = PyInt z \/
      exists q, c = PyFloat q /\ ((Z.abs z <= 2 ^ 53)%Z -> q = inject_Z z)
  | SqlReal q => c = PyFloat q
  | SqlText s => c = PyStr s
  | SqlBlob b => c = PyBuffer b
  end.

Lemma column_of_sql_agrees (infer : bool) (cells : list sqlval) :
  Forall2 cell_agrees cells (column_of_sql infer cells).
Proof.
  assert (Hmap : forall (f : sqlval -> pyval) (ok : sqlval -> bool)
                        (l : list sqlval),
            (forall v, ok v = true -> cell_agrees v (f v)) ->
            forallb ok l = true -> Forall2 cell_agrees l (map f l)).
  { intros f ok l Hf. induction l as [|v l IH]; simpl; [constructor|].
    intros Hall. apply andb_prop in Hall as [Hv Hl].
    constructor; [apply Hf, Hv | apply IH, Hl]. }
  assert (Hpy : forall l, Forall2 cell_agrees l (map py_of_sql l)).
  { intros l. apply (Hmap py_of_sql (fun _ => true)).
    - intros [|z|q|t|b] _; simpl; auto.
    - clear. induction l; simpl; auto. }
  unfold column_of_sql.
  destruct (forallb is_sql_int cells); [apply Hpy|].
  destruct (forallb (fun v => is_sql_number v || is_sql_null v) cells
            && existsb is_sql_number cells) eqn:Hnum.
  { apply andb_prop in Hnum as [Hall _].
    refine (Hmap float_of_sql _ cells _ Hall).
    intros [|z|q|t|b]; simpl; try discriminate; eauto. }
  destruct (infer && forallb (fun v => is_sql_text v || is_sql_null v) cells
            && existsb is_sql_text cells) eqn:Hstr; [|apply Hpy].
  apply andb_prop in Hstr as [Hstr _]. apply andb_prop in Hstr as [_ Hall].
  refine (Hmap str_of_sql _ cells _ Hall).
  intros [|z|q|t|b]; simpl; try discriminate; eauto.
Qed.

(** The four columns of the query result besides the key. *)
Definition item_columns : list (string * (item_row -> sqlval)) :=
  [("title"%string, i_title); ("genre"%string, i_genre);
   ("year"%string, i_year); ("description"%string, i_description)].

(** X16: [load_data_from_db] never writes the file.  When the environment
    refuses nothing, it returns the items the file holds, and the empty
    frame when the file has no items table.  The frame has one row per
    stored row; its id column holds the keys; each of the columns title,
    genre, year and description holds, row by row, the stored value: a text
    as a string, a REAL as a float, an INTEGER as an integer or as the float
    of the same value (pandas makes the column a float column when it holds
    a NULL or a REAL), a BLOB as its bytes, and a NULL as a missing cell.
    This is so whatever connection the manager held before the call, since
    the call opens its own: what an earlier connection had pending is not
    read. *)
Theorem load_data_reads_file (st : State) :
  disk (snd (snd (load_data_from_db st))) = disk (snd st) /\
  (reliable ->
   match items (disk (snd st)) with
   | None => fst (load_data_from_db st) = Ret empty_frame
   | Some rows =>
       exists df,
         fst (load_data_from_db st) = Ret df /\
         nrows df = length rows /\
         columns df !! "id" = Some (map (fun r => PyInt (i_id r)) rows) /\
         forall name field,
           (name, field) ∈ item_columns ->
           exists col,
             columns df !! name = Some col /\
             Forall2 cell_agrees (map field rows) col
   end).
Proof.
  split.
  - exact (file_load_data_from_db (disk (snd st)) st eq_refl).
  - intros Hrel. rewrite (load_data_reliable st Hrel).
    destruct (items (disk (snd st))) as [rows|]; [|reflexivity].
    exists (frame_of_items str_dtype rows).
    split; [reflexivity|]. split; [reflexivity|]. split; [reflexivity|].
    intros name field Hin. unfold item_columns in Hin.
    repeat (apply elem_of_cons in Hin as [[= -> ->]|Hin]);
      [..|inversion Hin];
      (eexists; split; [reflexivity | apply column_of_sql_agrees]).
Qed.

(** * The handles of a whole initialisation *)

(** The manager holds [h], and the open handles are those of [D]. *)
Definition holds (h : nat) (D : gset nat) (st : State) : Prop :=
  connection (fst st) = Some h /\ h ∈ D /\ dom (conns (snd st)) = D.

Lemma holds_execute h D h' (stmt : Conn -> stmt_result) :
  keeps (holds h D) (execute h' stmt).
Proof.
  intros [m w] (Hc & Hin & Hdom). unfold wp, execute, with_conn, bind,
    get_world; simpl in *.
  destruct (conns w !! h') as [c|] eqn:Hh'; simpl;
    [|split; [exact Hc | split; [exact Hin | exact Hdom]]].
  destruct (stmt c); simpl;
    [|split; [exact Hc | split; [exact Hin | exact Hdom]]].
  split; [exact Hc|]. split; [exact Hin|].
  cbn [snd conns]. rewrite dom_insert_lookup_L by eauto. exact Hdom.
Qed.

Lemma holds_get_cursor h D : keeps (holds h D) _get_cursor.
Proof.
  intros st (Hc & Hin & Hdom). unfold wp.
  rewrite (get_cursor_connected st h Hc).
  - split; [exact Hc | split; [exact Hin | exact Hdom]].
  - apply elem_of_dom. rewrite Hdom. exact Hin.
Qed.

Lemma holds_safe_commit h D : keeps (holds h D) _safe_commit.
Proof.
  intros st (Hc & Hin & Hdom). unfold wp.
  destruct (safe_commit_cases st) as (b & st' & E & Hm & Hcs & _).
  rewrite E. simpl. split; [congruence|]. split; [exact Hin|].
  rewrite Hcs. exact Hdom.
Qed.

Lemma holds_fetch_ids h D h' q : keeps (holds h D) (fetch_ids h' q).
Proof.
  intros [m w] HI. unfold wp, fetch_ids, with_conn, bind, get_world; simpl.
  destruct (conns w !! h') as [c|]; simpl; [|exact HI].
  destruct (q (view c)); exact HI.
Qed.

Lemma holds_draw h D : keeps (holds h D) draw.
Proof. intros [m w] HI. exact HI. Qed.

Lemma holds_create_tables h D : keeps (holds h D) create_tables.
Proof.
  apply keeps_create_tables;
    first [apply holds_get_cursor | apply holds_safe_commit
          | intros; apply holds_execute].
Qed.

Lemma holds_insert_initial_data h D csv :
  keeps (holds h D) (insert_initial_data csv).
Proof.
  apply keeps_insert_initial_data;
    first [apply holds_get_cursor | apply holds_safe_commit
          | apply holds_draw
          | intros; apply holds_fetch_ids
          | intros; apply holds_execute].
Qed.

(** [initialize_database] when SQLite opens the file and accepts the
    PRAGMA: the three steps it runs, and what it leaves. *)
Lemma initialize_database_run (csv : csv_file) (w : World) :
  fails (clock w) = false ->
  fails (S (clock w)) = false ->
  exists st1 st2 st3 st4,
    connected (next_handle w) (disk w) st1 /\
    disk (snd st1) = disk w /\
    clock (snd st1) = S (S (clock w)) /\
    draws (snd st1) = draws w /\
    create_tables st1 = (Ret tt, st2) /\
    insert_initial_data csv st2 = (Ret tt, st3) /\
    close st3 = (Ret tt, st4) /\
    initialize_database csv w = (Ret tt, snd st4) /\
    disk (snd st4) = disk (snd st3) /\
    dom (conns (snd st4)) = dom (conns w) ∖ {[next_handle w]}.
Proof.
  intros Hf1 Hf2.
  assert (Hrun : initialize_database csv w =
    let '(r, (_, w')) :=
      (let (o, st') :=
         connect (mk_manager "recommendations.db" None, w) in
       match o with
       | Ret (Some _) =>
           (create_tables ;; insert_initial_data csv ;; close) st'
       | Ret None => (Ret tt, st')
       | Raise e => (Raise e, st')
       end) in
    (r, w')).
  { unfold initialize_database. unfold bind at 1.
    destruct (connect _) as [[[c|]|e] st']; reflexivity. }
  rewrite connect_run in Hrun. cbv zeta in Hrun.
  rewrite Hf1, Hf2 in Hrun. cbn [db_path] in Hrun.
  set (h := next_handle w) in *.
  set (st1 := (mk_manager "recommendations.db" (Some h),
               mk_world (disk w) (<[h := mk_conn (disk w) true]> (conns w))
                        (S h) (S (S (clock w))) (draws w))) in Hrun.
  set (D := ({[h]} : gset nat) ∪ dom (conns w)).
  assert (H1 : holds h D st1).
  { split; [reflexivity|].
    split; [apply elem_of_union_l, elem_of_singleton; reflexivity|].
    subst st1 D. simpl. apply dom_insert_L. }
  pose proof (holds_create_tables h D st1 H1) as H2. unfold wp in H2.
  pose proof (create_tables_returns st1) as R2.
  destruct (create_tables st1) as [r2 st2] eqn:E2.
  simpl in H2, R2. subst r2.
  pose proof (holds_insert_initial_data h D csv st2 H2) as H3.
  unfold wp in H3.
  pose proof (insert_initial_data_returns csv st2) as R3.
  destruct (insert_initial_data csv st2) as [r3 st3] eqn:E3.
  simpl in H3, R3. subst r3.
  destruct (close_run st3) as (st4 & E4 & _ & Hd4 & Hdel & _).
  destruct H3 as (Hc3 & _ & Hdom3). specialize (Hdel h Hc3).
  exists st1, st2, st3, st4.
  split.
  { split; [reflexivity|]. exists true. apply lookup_insert_eq. }
  split; [reflexivity|]. split; [reflexivity|]. split; [reflexivity|].
  split; [exact E2|]. split; [exact E3|]. split; [exact E4|].
  split.
  { rewrite Hrun. unfold bind. rewrite E2, E3, E4.
    destruct st4; reflexivity. }
  split; [exact Hd4|].
  rewrite Hdel, dom_delete_L, Hdom3. subst D.
  rewrite difference_union_distr_l_L, difference_diag_L, union_empty_l_L.
  reflexivity.
Qed.

(** X17: the connections of [initialize_database], from its [connect]
    on.  When SQLite refuses to open the file, nothing happens to the world
    but the passing of time.
    When the file opens and the PRAGMA is refused, nothing is created or
    inserted, the file is unchanged, and the connection that was opened
    stays open: it is never closed.  When both go through, the handle that
    was opened is closed at the end and the open handles are those that
    were open before, whatever happened in between. *)
Theorem initialize_database_handles (csv : csv_file) (w : World) :
  let h := next_handle w in
  let run := initialize_database csv w in
  (fails (clock w) = true -> run = (Ret tt, tick w)) /\
  (fails (clock w) = false -> fails (S (clock w)) = true ->
   fst run = Ret tt /\
   disk (snd run) = disk w /\
   conns (snd run) = <[h := mk_conn (disk w) false]> (conns w)) /\
  (fails (clock w) = false -> fails (S (clock w)) = false ->
   fst run = Ret tt /\
   dom (conns (snd run)) = dom (conns w) ∖ {[h]}).
Proof.
  intros h run. split; [|split].
  - intros Hf1. subst run. unfold initialize_database. unfold bind at 1.
    rewrite connect_run. cbv zeta. rewrite Hf1. reflexivity.
  - intros Hf1 Hf2.
    assert (E : run =
              (Ret tt,
               mk_world (disk w) (<[h := mk_conn (disk w) false]> (conns w))
                        (S h) (S (S (clock w))) (draws w))).
    { subst run h. unfold initialize_database. unfold bind at 1.
      rewrite connect_run. cbv zeta. rewrite Hf1, Hf2. reflexivity. }
    rewrite E. split; [reflexivity|]. split; reflexivity.
  - intros Hf1 Hf2.
    destruct (initialize_database_run csv w Hf1 Hf2)
      as (st1 & st2 & st3 & st4 & _ & _ & _ & _ & _ & _ & _ & E & _ & Hdom).
    subst run. rewrite E. split; [reflexivity | exact Hdom].
Qed.

(** * Committing and closing *)

(** X2: [_safe_commit] always answers with a boolean and never raises; it
    touches neither the manager nor the connections, and after [False] the
    file is as before.  Without connection, or with a connection whose
    handle is closed, it answers [False] and changes nothing.  With an open
    connection it answers [False] when SQLite refuses the commit, and
    otherwise [True], the file being then the view of that connection. *)
Theorem safe_commit_outcome (st : State) :
  (exists b st',
     _safe_commit st = (Ret b, st') /\
     fst st' = fst st /\
     conns (snd st') = conns (snd st) /\
     (b = false -> disk (snd st') = disk (snd st))) /\
  (connection (fst st) = None -> _safe_commit st = (Ret false, st)) /\
  (forall h, connection (fst st) = Some h ->
             conns (snd st) !! h = None ->
             _safe_commit st = (Ret false, st)) /\
  (forall h c,
     connection (fst st) = Some h ->
     conns (snd st) !! h = Some c ->
     _safe_commit st =
       if fails (clock (snd st))
       then (Ret false, (fst st, tick (snd st)))
       else (Ret true,
             (fst st,
              mk_world (view c) (conns (snd st)) (next_handle (snd st))
                       (S (clock (snd st))) (draws (snd st))))).
Proof.
  split.
  { destruct (safe_commit_cases st) as (b & st' & E & Hm & Hc & _ & Hf & _).
    exists b, st'. auto. }
  destruct st as [m w]. cbn [fst snd].
  unfold _safe_commit, bind, get_connection. cbn [fst snd].
  split; [intros ->; reflexivity|]. split.
  - intros h -> Hh.
    unfold try_except, bind, commit, with_conn, bind, get_world.
    cbn [fst snd]. rewrite Hh. reflexivity.
  - intros h c -> Hh.
    unfold try_except, bind, commit, with_conn, bind, get_world.
    cbn [fst snd]. rewrite Hh. unfold env_op. cbn [fst snd].
    destruct (fails (clock w)); reflexivity.
Qed.

(** X3: [close] never raises and leaves the manager without connection;
    the handle it held is no longer open, the file is untouched, a manager
    without connection is left exactly as it was, and closing again changes
    nothing.  What the connection had not committed is lost: the connection
    [_get_cursor] opens next, when SQLite lets it, sees the file and not
    what the closed one saw. *)
Theorem close_outcome (st : State) :
  exists st',
    close st = (Ret tt, st') /\
    connection (fst st') = None /\
    disk (snd st') = disk (snd st) /\
    (forall h, connection (fst st) = Some h ->
               conns (snd st') !! h = None) /\
    (connection (fst st) = None -> st' = st) /\
    close st' = (Ret tt, st') /\
    (fails (clock (snd st')) = false ->
     fails (S (clock (snd st'))) = false ->
     exists st'',
       _get_cursor st' = (Ret (next_handle (snd st')), st'') /\
       connected (next_handle (snd st')) (disk (snd st)) st'').
Proof.
  destruct (close_run st) as (st' & E & Hnone & Hd & Hdel & Hsame & Hagain).
  exists st'. split; [exact E|]. split; [exact Hnone|]. split; [exact Hd|].
  split; [intros h Hh; rewrite (Hdel h Hh); apply lookup_delete_eq|].
  split; [exact Hsame|]. split; [exact Hagain|].
  intros Hf1 Hf2. destruct st' as [m' w']. cbn [fst snd] in *.
  unfold _get_cursor. unfold bind at 1. unfold get_connection at 1.
  cbn [fst snd]. rewrite Hnone.
  unfold bind at 1. unfold bind at 1. rewrite connect_run. cbv zeta.
  rewrite Hf1, Hf2. unfold ret at 1.
  unfold bind, get_connection. cbn [fst snd connection].
  unfold cursor, with_conn, bind, get_world. cbn [fst snd conns].
  rewrite lookup_insert_eq. eexists. split; [reflexivity|].
  split; [reflexivity|]. exists true. cbn [fst snd conns].
  rewrite lookup_insert_eq, Hd. reflexivity.
Qed.

(** * A whole initialisation on an empty file *)

(** The three sample users on a users table without rows. *)
Lemma sample_users_fresh db :
  users db = Some [] ->
  exists db' us,
    run_stmts (map (insert_user OnIgnore) sample_users) db = Done db' /\
    users db' = Some us /\
    map u_name us = sample_users /\
    items db' = items db /\
    ratings db' = ratings db.
Proof.
  intros Hus. unfold sample_users. cbn [map run_stmts].
  unfold insert_user at 1. rewrite Hus. simpl.
  eexists _, _. split; [reflexivity|]. simpl. auto.
Qed.

(** Ingestion of a source that has rows, when the environment refuses
    nothing, on a connected manager whose users table has no row. *)
Lemma ingest_reliable h db rows st df :
  reliable ->
  connected h db st ->
  items db = Some rows ->
  users db = Some [] ->
  nrows df <> 0%nat ->
  exists st' db' new us,
    insert_initial_data (CsvFrame df) st = (Ret tt, st') /\
    connected h db' st' /\
    disk (snd st') = db' /\
    items db' = Some (rows ++ new) /\
    map stored_fields new =
      concat (map (fun r => option_list (insertable r)) (iterrows df)) /\
    users db' = Some us /\
    map u_name us = sample_users /\
    ratings db' = ratings db.
Proof.
  intros Hrel Hcon Hrows Hus Hn.
  destruct (ingest_run (iterrows df) db rows Hrows)
    as (db1 & new & Hrun & Hi1 & Hu1 & _ & Hr1 & Hf1).
  destruct (for_each_connected h (iterrows df) (ingest_row h) ingest_stmt)
    with (db := db) (db' := db1) (st := st)
    as (st1 & E1 & Hcon1 & Hd1); [|exact Hcon|exact Hrun|].
  { intros x d d' st0. apply ingest_row_connected. }
  destruct (safe_commit_connected Hrel h db1 st1 Hcon1)
    as (st2 & E2 & Hcon2 & _ & _).
  rewrite Hus in Hu1.
  destruct (sample_users_fresh db1 Hu1)
    as (db2 & us & Hrun2 & Hus2 & Hnames & Hi2 & Hr2).
  destruct (create_sample_users_connected Hrel h db1 db2 st2 Hcon2 Hrun2)
    as (st3 & E3 & Hcon3 & Hd3).
  exists st3, db2, new, us. split.
  { unfold insert_initial_data, try_except, bind, read_csv, ret.
    apply Nat.eqb_neq in Hn. rewrite Hn.
    rewrite (get_cursor_connected st h (proj1 Hcon))
      by (destruct Hcon as [_ [fk Hh]]; eauto).
    rewrite E1, E2, E3. reflexivity. }
  split; [exact Hcon3|]. split; [exact Hd3|]. split; [congruence|].
  split; [exact Hf1|]. split; [exact Hus2|]. split; [exact Hnames|].
  congruence.
Qed.

(** [initialize_database] on an empty file with the source missing, when
    the environment refuses nothing. *)
Lemma initialize_database_seeded (w : World) :
  reliable ->
  disk w = empty_db ->
  exists w' added,
    initialize_database CsvMissing w = (Ret tt, w') /\
    disk w' = set_ratings added seeded_db /\
    rated [1; 2; 3] [1; 2; 3; 4; 5] 5 added /\
    dom (conns w') = dom (conns w) ∖ {[next_handle w]}.
Proof.
  intros Hrel Hempty.
  destruct (initialize_database_run CsvMissing w (Hrel _) (Hrel _))
    as (st1 & st2 & st3 & st4 & Hcon1 & _ & _ & _ & E2 & E3 & E4 & Erun
        & Hd4 & Hdom).
  rewrite Hempty in Hcon1.
  destruct (create_tables_connected _ _ _ Hcon1) as (st2' & E2' & Hcon2).
  rewrite E2 in E2'. injection E2' as <-.
  change (with_schema empty_db) with fresh_db in Hcon2.
  assert (Hsees : sees fresh_db st2).
  { unfold sees. destruct Hcon2 as [Hc Hv]. rewrite Hc. exact Hv. }
  destruct (create_sample_data_fresh Hrel st2 Hsees)
    as (st3' & added & E3' & Hd3 & Hrated).
  change (insert_initial_data CsvMissing st2)
    with (_create_sample_data st2) in E3.
  rewrite E3 in E3'. injection E3' as <-.
  exists (snd st4), added. rewrite Hd4, Hd3. auto.
Qed.

(** X18: [initialize_database] on an empty file with the source missing,
    when the environment refuses nothing.  It returns; the file then holds
    the five sample items with their four fields, the three sample users,
    and for every user five ratings, each in [3, 5] and each on a different
    one of these items; the connection it opened is closed and the open
    handles are those that were open before.  This holds whatever the
    random generator draws. *)
Theorem initialize_database_from_nothing (w : World) :
  reliable ->
  disk w = empty_db ->
  exists w' us its rs,
    initialize_database CsvMissing w = (Ret tt, w') /\
    users (disk w') = Some us /\
    map u_name us = sample_users /\
    items (disk w') = Some its /\
    map item_fields its = sample_items /\
    ratings (disk w') = Some rs /\
    rated (map u_id us) (map i_id its) 5 rs /\
    dom (conns w') = dom (conns w) ∖ {[next_handle w]}.
Proof.
  intros Hrel Hempty.
  destruct (initialize_database_seeded w Hrel Hempty)
    as (w' & added & Erun & Hd & Hrated & Hdom).
  exists w', (default [] (users seeded_db)),
    (default [] (items seeded_db)), added.
  rewrite Hd.
  split; [exact Erun|].
  split; [reflexivity|]. split; [reflexivity|].
  split; [reflexivity|]. split; [reflexivity|].
  split; [reflexivity|]. split; [exact Hrated | exact Hdom].
Qed.

(** X19: [initialize_database] on an empty file with a source that has
    rows, when the environment refuses nothing, for a source in which some
    cell is a text and whose [year] and [release_year] columns hold no
    text.  It returns; the file then holds one item for each source row
    whose values bind and whose title is not NULL, in the order of the
    source, the three sample users, and a ratings table without any row;
    the connection it opened is closed. *)
Theorem initialize_database_from_source (w : World) (df : DataFrame) :
  reliable ->
  disk w = empty_db ->
  nrows df <> 0%nat ->
  holds_text df ->
  numeric_years df ->
  exists w' us its,
    initialize_database (CsvFrame df) w = (Ret tt, w') /\
    items (disk w') = Some its /\
    map stored_fields its =
      concat (map (fun r => option_list (insertable r)) (frame_rows df)) /\
    users (disk w') = Some us /\
    map u_name us = sample_users /\
    ratings (disk w') = Some [] /\
    dom (conns w') = dom (conns w) ∖ {[next_handle w]}.
Proof.
  intros Hrel Hempty Hn Htext _.
  destruct (initialize_database_run (CsvFrame df) w (Hrel _) (Hrel _))
    as (st1 & st2 & st3 & st4 & Hcon1 & _ & _ & _ & E2 & E3 & E4 & Erun
        & Hd4 & Hdom).
  rewrite Hempty in Hcon1.
  destruct (create_tables_connected _ _ _ Hcon1) as (st2' & E2' & Hcon2).
  rewrite E2 in E2'. injection E2' as <-.
  change (with_schema empty_db) with fresh_db in Hcon2.
  destruct (ingest_reliable _ fresh_db [] st2 df Hrel Hcon2 eq_refl eq_refl
              Hn)
    as (st3' & db' & new & us & E3' & _ & Hd3 & Hi & Hf & Hu & Hnames & Hr).
  rewrite E3 in E3'. injection E3' as <-.
  rewrite (iterrows_text df Htext) in Hf.
  exists (snd st4), us, new. rewrite Hd4, Hd3.
  split; [exact Erun|]. split; [exact Hi|]. split; [exact Hf|].
  split; [exact Hu|]. split; [exact Hnames|]. split; [exact Hr|].
  exact Hdom.
Qed.

(** * Sample ratings on any catalog *)

(** The rows of a table whose every user has [k] of them. *)
Lemma rated_length uids iids k rs :
  NoDup uids ->
  rated uids iids k rs ->
  length rs = (length uids * k)%nat.
Proof.
  intros Hnd [Hall Hcount].
  assert (Hin : Forall (fun r => r_user_id r ∈ uids) rs).
  { eapply Forall_impl; [exact Hall|]. intros r (_ & Hr & _). exact Hr. }
  clear Hall. revert rs Hcount Hin.
  induction Hnd as [|u uids Hu Hnd IH]; intros rs Hcount Hin.
  - destruct rs as [|r rs]; [reflexivity|].
    apply Forall_cons in Hin as [Hr _]. inversion Hr.
  - simpl.
    assert (Hsplit : forall l : list rating_row,
              length l = (length (rows_of u l) +
                          length (List.filter
                                    (fun r => negb (r_user_id r =? u)%Z) l))%nat).
    { induction l as [|r l IHl]; [reflexivity|]. unfold rows_of in *. simpl.
      destruct (r_user_id r =? u); simpl; lia. }
    rewrite (Hsplit rs).
    destruct (Hcount u (list_elem_of_here _ _)) as [Hk _]. rewrite Hk.
    f_equal. apply IH.
    + intros v Hv. destruct (Hcount v (list_elem_of_further _ _ _ Hv))
        as [Hlen Hnd'].
      assert (Hrows : rows_of v (List.filter
                                   (fun r => negb (r_user_id r =? u)) rs) =
                      rows_of v rs).
      { clear -Hv Hu. unfold rows_of. induction rs as [|r rs IHrs];
          [reflexivity|]. simpl.
        destruct (r_user_id r =? u) eqn:Eu; simpl.
        - apply Z.eqb_eq in Eu.
          destruct (r_user_id r =? v) eqn:Ev; [|exact IHrs].
          apply Z.eqb_eq in Ev. exfalso. apply Hu. congruence.
        - destruct (r_user_id r =? v); [f_equal|]; exact IHrs. }
      rewrite Hrows. split; assumption.
    + clear -Hin. induction rs as [|r rs IHrs]; [constructor|].
      apply Forall_cons in Hin as [Hr Hin]. simpl.
      destruct (r_user_id r =? u) eqn:Eu; simpl; [apply IHrs, Hin|].
      constructor; [|apply IHrs, Hin].
      apply elem_of_cons in Hr as [Hr|Hr]; [|exact Hr].
      apply Z.eqb_neq in Eu. contradiction.
Qed.


(** X20: [_create_sample_ratings] on a connected manager whose view has
    users and items, none of these users having a rating yet, when the
    environment refuses nothing.  It returns; the ratings that were there
    stay, in front; behind them every user has min(5, number of items)
    new ratings, each in [3, 5], each on a different item of the table; and
    the file holds the same after the commit.  This holds whatever the
    random generator draws. *)
Theorem sample_ratings_added (st : State) (h : nat) (db : DB)
    (us : list user_row) (its : list item_row) (rs : list rating_row) :
  reliable ->
  connected h db st ->
  users db = Some us ->
  items db = Some its ->
  ratings db = Some rs ->
  us <> [] ->
  its <> [] ->
  NoDup (map u_id us) ->
  NoDup (map i_id its) ->
  (forall r, r ∈ rs -> ~ (r_user_id r ∈ map u_id us)) ->
  exists st' added,
    _create_sample_ratings st = (Ret tt, st') /\
    connected h (set_ratings (rs ++ added) db) st' /\
    disk (snd st') = set_ratings (rs ++ added) db /\
    rated (map u_id us) (map i_id its) (Nat.min 5 (length its)) added /\
    length added = (length us * Nat.min 5 (length its))%nat.
Proof.
  intros Hrel Hcon Hus Hits Hrs Hne_us Hne_its Hnd_us Hnd_its Hfresh.
  destruct (create_sample_ratings_connected Hrel h db us its rs st Hcon Hus
              Hits Hrs Hne_us Hne_its Hnd_us Hnd_its Hfresh)
    as (st' & added & E & Hcon' & Hd & Hrated).
  exists st', added. split; [exact E|]. split; [exact Hcon'|].
  split; [exact Hd|]. split; [exact Hrated|].
  rewrite (rated_length _ _ _ _ Hnd_us Hrated), length_map. reflexivity.
Qed.

(** * Keys are handed out once *)

(** The keys of a table are pairwise different and none exceeds what
    [sqlite_sequence] records for the table. *)
Definition keys_ok {A : Type} (key : A -> Z) (t : option (list A))
    (seq : Z) : Prop :=
  forall rows, t = Some rows ->
    NoDup (map key rows) /\ Forall (fun i => (i <= seq)%Z) (map key rows).

Definition keyed (db : DB) : Prop :=
  keys_ok u_id (users db) (users_seq db) /\
  keys_ok i_id (items db) (items_seq db).

Lemma max_id_bound seq ids :
  Forall (fun i => (i <= seq)%Z) ids -> (max_id ids <= Z.max 0 seq)%Z.
Proof.
  induction 1 as [|i ids Hi _ IH]; simpl; lia.
Qed.

Lemma next_rowid_above seq ids :
  Forall (fun i => (i <= seq)%Z) ids ->
  (seq < next_rowid seq ids)%Z /\
  Forall (fun i => (i < next_rowid seq ids)%Z) ids.
Proof.
  intros Hall. unfold next_rowid. split; [lia|].
  eapply Forall_impl; [exact Hall|]. simpl. intros i Hi. lia.
Qed.

Lemma keys_ok_empty {A : Type} (key : A -> Z) seq : keys_ok key (Some []) seq.
Proof. intros rows [= <-]. split; constructor. Qed.

Lemma keys_ok_skip {A : Type} (key : A -> Z) rows seq :
  keys_ok key (Some rows) seq ->
  keys_ok key (Some rows) (next_rowid seq (map key rows)).
Proof.
  intros Hok rows' [= <-]. destruct (Hok rows eq_refl) as [Hnd Hall].
  split; [exact Hnd|].
  destruct (next_rowid_above seq _ Hall) as [_ Hlt].
  eapply Forall_impl; [exact Hlt|]. simpl. intros i Hi. lia.
Qed.

Lemma keys_ok_append {A : Type} (key : A -> Z) rows seq r :
  keys_ok key (Some rows) seq ->
  key r = next_rowid seq (map key rows) ->
  keys_ok key (Some (rows ++ [r])) (next_rowid seq (map key rows)).
Proof.
  intros Hok Hr rows' [= <-]. destruct (Hok rows eq_refl) as [Hnd Hall].
  destruct (next_rowid_above seq _ Hall) as [_ Hlt].
  rewrite map_app. simpl. split.
  - apply NoDup_app. split; [exact Hnd|]. split; [|apply NoDup_singleton].
    intros i Hi Hi'. apply list_elem_of_singleton in Hi'. subst i.
    rewrite Forall_forall in Hlt. specialize (Hlt _ Hi). lia.
  - apply Forall_app. split.
    + eapply Forall_impl; [exact Hlt|]. simpl. intros i Hi. lia.
    + constructor; [lia | constructor].
Qed.

Lemma keyed_insert_user mode name db db' :
  keyed db -> insert_user mode name db = Done db' -> keyed db'.
Proof.
  intros [Hu Hi]. unfold insert_user, on_violation.
  destruct (users db) as [rows|] eqn:Hrows; [|discriminate].
  destruct (existsb _ rows).
  - destruct mode; [discriminate|]. intros [= <-].
    split; [apply keys_ok_skip; exact Hu | exact Hi].
  - intros [= <-].
    split; [apply keys_ok_append; [exact Hu | reflexivity] | exact Hi].
Qed.

Lemma keyed_insert_item mode t g y d db db' :
  keyed db -> insert_item mode t g y d db = Done db' -> keyed db'.
Proof.
  intros [Hu Hi]. unfold insert_item, on_violation.
  destruct (items db) as [rows|] eqn:Hrows; [|discriminate].
  destruct (is_sql_null _).
  - destruct mode; [discriminate|]. intros [= <-].
    split; [exact Hu | apply keys_ok_skip; exact Hi].
  - intros [= <-].
    split; [exact Hu | apply keys_ok_append; [exact Hi | reflexivity]].
Qed.

Lemma keyed_insert_rating mode fk uid iid v db db' :
  keyed db -> insert_rating mode fk uid iid v db = Done db' -> keyed db'.
Proof.
  intros Hk Hdone.
  destruct (insert_rating_done _ _ _ _ _ _ _ Hdone)
    as [[_ ->]|(rows & q & _ & _ & _ & _ & ->)]; exact Hk.
Qed.

(** X21: the keys of users and of items are pairwise different and never
    above the last key handed out, in the file and in every connection,
    and this stays so whatever method runs.  An item statement that adds a
    row gives it a key larger than every key of the table, whether or not
    earlier statements were skipped. *)
Theorem keys_stay_unique (st : State) :
  stores keyed st ->
  stores keyed (snd (create_tables st)) /\
  (forall csv, stores keyed (snd (insert_initial_data csv st))) /\
  stores keyed (snd (_create_sample_users st)) /\
  stores keyed (snd (_create_sample_ratings st)) /\
  stores keyed (snd (_create_sample_data st)) /\
  (forall h c rows mode t g y d db' rows',
     conns (snd st) !! h = Some c ->
     items (view c) = Some rows ->
     insert_item mode t g y d (view c) = Done db' ->
     items db' = Some rows' ->
     rows' = rows \/
     exists r, rows' = rows ++ [r] /\
               Forall (fun i => (i < i_id r)%Z) (map i_id rows)).
Proof.
  intros Hst.
  assert (Hcu : forall db, keyed db -> keyed (create_users_table db)).
  { intros db Hk. unfold create_users_table.
    destruct (users db) eqn:Hrows; [exact Hk|]. destruct Hk as [Hu Hi].
    split; [apply keys_ok_empty | exact Hi]. }
  assert (Hci : forall db, keyed db -> keyed (create_items_table db)).
  { intros db Hk. unfold create_items_table.
    destruct (items db) eqn:Hrows; [exact Hk|]. destruct Hk as [Hu Hi].
    split; [exact Hu | apply keys_ok_empty]. }
  assert (Hcr : forall db, keyed db -> keyed (create_ratings_table db)).
  { intros db Hk. unfold create_ratings_table.
    destruct (ratings db); exact Hk. }
  assert (Hu : forall mode name db db', keyed db ->
            insert_user mode name db = Done db' -> keyed db')
    by (intros mode name db db'; apply keyed_insert_user).
  assert (Hi : forall mode t g y d db db', keyed db ->
            insert_item mode t g y d db = Done db' -> keyed db')
    by (intros mode t g y d db db'; apply keyed_insert_item).
  assert (Hr : forall fk uid iid v db db', keyed db ->
            insert_rating OnIgnore fk uid iid v db = Done db' -> keyed db')
    by (intros fk uid iid v db db'; apply keyed_insert_rating).
  split; [exact (stores_create_tables _ Hcu Hci Hcr st Hst)|].
  split; [intros csv;
          exact (stores_insert_initial_data _ Hu Hi Hr csv st Hst)|].
  split; [exact (stores_create_sample_users _ Hu st Hst)|].
  split; [exact (stores_create_sample_ratings _ Hr st Hst)|].
  split; [exact (stores_create_sample_data _ Hu Hi Hr st Hst)|].
  intros h c rows mode t g y d db' rows' Hh Hrows Hdone Hrows'.
  destruct Hst as [_ Hviews]. destruct (Hviews h c Hh) as [_ Hitems].
  destruct (Hitems rows Hrows) as [_ Hall].
  destruct (next_rowid_above _ _ Hall) as [_ Hlt].
  revert Hdone. unfold insert_item, on_violation. rewrite Hrows.
  destruct (is_sql_null _).
  - destruct mode; [discriminate|]. intros [= <-].
    simpl in Hrows'. injection Hrows' as <-. left. reflexivity.
  - intros [= <-]. simpl in Hrows'. injection Hrows' as <-. right.
    eexists. split; [reflexivity|]. exact Hlt.
Qed.

(** * From initialisation to a clean frame *)

Definition title_of (item : pyval * pyval * pyval * pyval) : pyval :=
  let '(title, _, _, _) := item in title.

(** X22: the two files together.  After [initialize_database] ran on an
    empty file with the source missing, in an environment that refuses
    nothing, [load_data_from_db] of any preprocessor returns a frame of
    five rows whose titles are the sample titles in order, and
    [clean_data] returns that frame as it is: the sample catalog has no
    null for it to fill. *)
Theorem sample_catalog_loads_clean (w : World) (m : DatabaseManager) :
  reliable ->
  disk w = empty_db ->
  exists w' df,
    initialize_database CsvMissing w = (Ret tt, w') /\
    fst (load_data_from_db (m, w')) = Ret df /\
    nrows df = 5%nat /\
    columns df !! "title" = Some (map title_of sample_items) /\
    forall tr, fst (clean_data (ObjFrame df) tr) = Ret df.
Proof.
  intros Hrel Hempty.
  destruct (initialize_database_seeded w Hrel Hempty)
    as (w' & added & Erun & Hd & _ & _).
  assert (Hframe : frame_of_items str_dtype (default [] (items seeded_db)) =
                   frame_of_items false (default [] (items seeded_db)))
    by (destruct str_dtype; reflexivity).
  exists w', (frame_of_items false (default [] (items seeded_db))).
  split; [exact Erun|]. split.
  { rewrite (load_data_reliable (m, w') Hrel). cbn [snd]. rewrite Hd.
    rewrite <- Hframe. reflexivity. }
  split; [reflexivity|]. split; [reflexivity|].
  intros tr. rewrite clean_data_cleaned.
  apply cleaned_clean; reflexivity.
Qed.

End Embedding.

(** * The properties at concrete inputs *)

(** An environment: a rendering of numbers and readings of texts as SQLite
    and Python could have them, a world that refuses nothing, and a
    generator that counts. *)
Definition ex_text_of_number (v : sqlval) : string := "0".
Definition ex_number_of_text (s : string) : option Q := None.
Definition ex_int_of_str (s : string) : option Z := None.
Definition ex_int_of_bytes (b : list Z) : option Z := None.
Definition ex_py_repr (v : pyval) : string := "?".
Definition ex_int64_overflow (z : Z) : string :=
  "Python int too large to convert to C long".
Definition never_fails (n : nat) : bool := false.
Definition counting (n : nat) : nat := n.

(** A new manager on a file that has the three tables and no row. *)
Definition st_fresh : State :=
  (mk_manager "recommendations.db" None, mk_world fresh_db ∅ 0 0 0).

(** The same manager once connected: handle 0, foreign keys enforced. *)
Definition st_connected : State :=
  (mk_manager "recommendations.db" (Some 0%nat),
   mk_world fresh_db {[0%nat := mk_conn fresh_db true]} 1 2 0).

Lemma never_fails_reliable : reliable never_fails.
Proof. intros n. reflexivity. Qed.

Lemma st_connected_lookup :
  conns (snd st_connected) !! 0%nat = Some (mk_conn fresh_db true).
Proof. reflexivity. Qed.

Lemma st_connected_in_range : stores ratings_in_range st_connected.
Proof.
  split.
  - intros rows [= <-]. constructor.
  - intros h c Hh. simpl in Hh.
    apply lookup_singleton_Some in Hh as [_ <-].
    intros rows [= <-]. constructor.
Qed.

(** One whole initialisation on an empty file, source missing: five items,
    three users, fifteen ratings, every connection closed. *)
Example initialize_database_sample :
  let w := snd (initialize_database ex_text_of_number ex_number_of_text
                  never_fails counting CsvMissing
                  (mk_world empty_db ∅ 0 0 0)) in
  (length <$> items (disk w), length <$> users (disk w),
   length <$> ratings (disk w), conns w) =
  (Some 5%nat, Some 3%nat, Some 15%nat, ∅).
Proof. vm_compute. reflexivity. Qed.

(** A source of two rows, labelled [name] and [year]: the second has no
    name, and is skipped. *)
Example initialize_database_source :
  let df := mk_frame 2 (<["name" := [PyStr "A"; PyNaN]]>
                        (<["year" := [PyInt 1999; PyInt 2001]]> ∅)) in
  let w := snd (initialize_database ex_text_of_number ex_number_of_text
                  never_fails counting (CsvFrame df)
                  (mk_world empty_db ∅ 0 0 0)) in
  (items (disk w), length <$> users (disk w), ratings (disk w)) =
  (Some [mk_item 1 (SqlText "A") (SqlText "Unknown") (SqlInt 1999)
                 (SqlText EmptyString)],
   Some 3%nat, Some []).
Proof. vm_compute. reflexivity. Qed.

(** A source of integers only: the rows of [iterrows] hold [numpy.int64]
    cells, which SQLite stores as the BLOBs of their eight bytes. *)
Example initialize_database_integers :
  let df := mk_frame 1 (<["title" := [PyInt 7]]>
                        (<["year" := [PyInt 1999]]> ∅)) in
  let w := snd (initialize_database ex_text_of_number ex_number_of_text
                  never_fails counting (CsvFrame df)
                  (mk_world empty_db ∅ 0 0 0)) in
  items (disk w) =
  Some [mk_item 1 (SqlBlob [7; 0; 0; 0; 0; 0; 0; 0]) (SqlText "Unknown")
                (SqlBlob [207; 7; 0; 0; 0; 0; 0; 0]) (SqlText EmptyString)].
Proof. vm_compute. reflexivity. Qed.

(** A year beyond the 64 bits stays the REAL it is; one within becomes an
    INTEGER. *)
Example initialize_database_large_year :
  let df := mk_frame 2 (<["title" := [PyStr "A"; PyStr "B"]]>
                        (<["year" := [PyFloat (inject_Z (10 ^ 19));
                                      PyFloat (inject_Z 1999)]]> ∅)) in
  let w := snd (initialize_database ex_text_of_number ex_number_of_text
                  never_fails counting (CsvFrame df)
                  (mk_world empty_db ∅ 0 0 0)) in
  map i_year <$> items (disk w) =
  Some [SqlReal (inject_Z (10 ^ 19)); SqlInt 1999].
Proof. vm_compute. reflexivity. Qed.

(** Witness of C1: a plain INSERT of the rating 5.5 on a connected manager
    raises and changes nothing. *)
Lemma ratings_check_enforced_witness :
  stores ratings_in_range st_connected /\
  let run :=
    execute 0 (fun c =>
      insert_rating ex_number_of_text OnAbort (foreign_keys c) 1 1
                    (SqlReal (11 # 2)) (view c)) st_connected in
  fst run = Raise IntegrityError /\ snd run = st_connected.
Proof.
  split; [exact st_connected_in_range|].
  destruct (ratings_check_enforced ex_text_of_number ex_number_of_text
              never_fails counting false st_connected st_connected_in_range)
    as (_ & _ & _ & _ & _ & _ & Hout).
  destruct (Hout 0%nat (mk_conn fresh_db true) OnAbort 1 1 (11 # 2)%Q
              st_connected_lookup)
    as (Hsame & _ & Hraise & _).
  { right. reflexivity. }
  split; [|exact Hsame].
  apply Hraise; [reflexivity | eexists; reflexivity |].
  intros _. split; eexists; reflexivity.
Defined.

(** A connected manager whose view has one user and one item. *)
Definition db_one : DB :=
  mk_db (Some [mk_user 1 "u"]) 1
        (Some [mk_item 1 (SqlText "t") SqlNull SqlNull SqlNull]) 1
        (Some []).

Definition st_one : State :=
  (mk_manager "recommendations.db" (Some 0%nat),
   mk_world db_one {[0%nat := mk_conn db_one true]} 1 2 0).

(** The statement of sample generation, [INSERT OR IGNORE INTO ratings],
    for user 1 and item 1 with the rating 5.5. *)
Definition ignored_rating : M unit :=
  execute 0 (fun c =>
    insert_rating ex_number_of_text OnIgnore (foreign_keys c) 1 1
                  (SqlReal (11 # 2)) (view c)).

(** Counterexample to C1 as stated: on the path of sample generation the
    rating 5.5 for an existing user and an existing item is not rejected
    with a constraint violation.  The statement ends without any error;
    the row is skipped and the store stays as it was. *)
Lemma ignored_rating_counterexample :
  fst (ignored_rating st_one) = Ret tt /\
  fst (ignored_rating st_one) <> Raise IntegrityError /\
  snd (ignored_rating st_one) = st_one.
Proof.
  assert (E : ignored_rating st_one = (Ret tt, st_one))
    by (vm_compute; reflexivity).
  rewrite E. split; [reflexivity|]. split; [discriminate | reflexivity].
Qed.

(** Witness of C2: a run on the fresh store. *)
Lemma missing_source_gives_sample_data_witness :
  reliable never_fails /\
  sees fresh_db st_fresh /\
  exists st',
    insert_initial_data ex_text_of_number ex_number_of_text never_fails
      counting CsvMissing st_fresh = (Ret tt, st') /\
    (length <$> items (disk (snd st'))) = Some 5%nat.
Proof.
  split; [exact never_fails_reliable|]. split; [reflexivity|].
  destruct (missing_source_gives_sample_data ex_text_of_number
              ex_number_of_text never_fails counting st_fresh
              never_fails_reliable eq_refl)
    as (st' & us & its & rs & Hrun & _ & _ & Hits & Hfields & _).
  exists st'. split; [exact Hrun|]. rewrite Hits. simpl.
  rewrite <- (length_map item_fields), Hfields. reflexivity.
Defined.

(** Witness of C3: a source of one row, on the fresh store. *)
Lemma external_ingest_leaves_ratings_witness :
  let df := mk_frame 1 (<["title" := [PyStr "A"]]> ∅) in
  reliable never_fails /\
  nrows df <> 0%nat /\
  sees fresh_db st_fresh /\
  stores (fun d => ratings d = Some []) st_fresh /\
  exists st',
    insert_initial_data ex_text_of_number ex_number_of_text never_fails
      counting (CsvFrame df) st_fresh = (Ret tt, st') /\
    ratings (disk (snd st')) = Some [].
Proof.
  intros df.
  assert (Hst : stores (fun d => ratings d = Some []) st_fresh).
  { split; [reflexivity|]. intros h c Hh. simpl in Hh.
    rewrite lookup_empty in Hh. discriminate. }
  split; [exact never_fails_reliable|]. split; [discriminate|].
  split; [reflexivity|]. split; [exact Hst|].
  destruct (external_ingest_leaves_ratings ex_text_of_number
              ex_number_of_text never_fails counting df st_fresh fresh_db
              (Some []) never_fails_reliable)
    as (st' & Hrun & [Hdisk _] & _); [discriminate|reflexivity|exact Hst|].
  exists st'. split; [exact Hrun|exact Hdisk].
Defined.

(** Witness of C5: a second [connect] on the connected manager. *)
Lemma connect_replaces_handle_witness :
  connection (fst st_connected) = Some 0%nat /\
  is_Some (conns (snd st_connected) !! 0%nat) /\
  (0 < next_handle (snd st_connected))%nat /\
  fst (connect never_fails st_connected) = Ret (Some 1%nat) /\
  connection (fst (snd (connect never_fails st_connected))) = Some 1%nat.
Proof.
  assert (Hopen : is_Some (conns (snd st_connected) !! 0%nat)).
  { eexists. reflexivity. }
  split; [reflexivity|]. split; [exact Hopen|]. split; [simpl; lia|].
  destruct (connect_replaces_handle never_fails st_connected 0%nat
              eq_refl Hopen) as [_ Hconn]; [simpl; lia|].
  simpl in Hconn. destruct Hconn as (_ & Hc & _ & _ & Hr).
  split; [exact Hr|exact Hc].
Defined.

(** Counterexample to C5 as stated: on the connected manager, whose handle
    is 0, [connect] returns the new handle 1 and stores it; it neither
    returns the existing handle nor leaves the manager as it was. *)
Lemma connect_twice_counterexample :
  connection (fst st_connected) = Some 0%nat /\
  connect never_fails st_connected <> (Ret (Some 0%nat), st_connected) /\
  fst (connect never_fails st_connected) = Ret (Some 1%nat) /\
  fst (snd (connect never_fails st_connected)) <> fst st_connected.
Proof.
  split; [reflexivity|]. split; [|split; [reflexivity|]].
  - intros Heq. apply (f_equal fst) in Heq. vm_compute in Heq.
    discriminate.
  - intros Heq. apply (f_equal connection) in Heq. vm_compute in Heq.
    discriminate.
Qed.

(** Witness of C6: a frame without rows. *)
Lemma empty_source_same_as_missing_witness :
  nrows (mk_frame 0 ∅) = 0%nat /\
  insert_initial_data ex_text_of_number ex_number_of_text never_fails
    counting (CsvFrame (mk_frame 0 ∅)) st_fresh =
  insert_initial_data ex_text_of_number ex_number_of_text never_fails
    counting CsvMissing st_fresh.
Proof.
  split; [reflexivity|].
  apply (empty_source_same_as_missing ex_text_of_number ex_number_of_text
           never_fails counting (mk_frame 0 ∅) st_fresh (snd st_fresh)).
  reflexivity.
Defined.

(** Witness of C8: [None] handed to the cleaner. *)
Lemma clean_data_rejects_non_frame_witness :
  is_frame (ObjScalar PyNone) = false /\
  fst (clean_data ex_int_of_str ex_int_of_bytes ex_py_repr ex_int64_overflow
         (ObjScalar PyNone) []) =
    Raise (ValueError "The df parameter must be a pandas DataFrame").
Proof.
  split; [reflexivity|].
  destruct (clean_data_rejects_non_frame ex_int_of_str ex_int_of_bytes
              ex_py_repr ex_int64_overflow (ObjScalar PyNone) [] eq_refl)
    as (tr' & Hrun & _).
  rewrite Hrun. reflexivity.
Defined.

(** Witness of C10: two invocations on the connected manager. *)
Lemma sample_catalog_not_idempotent_witness :
  connection (fst st_connected) = Some 0%nat /\
  conns (snd st_connected) !! 0%nat = Some (mk_conn fresh_db true) /\
  items (view (mk_conn fresh_db true)) = Some [] /\
  exists st' c' rows',
    times 2 (_create_sample_data ex_text_of_number ex_number_of_text
               never_fails counting) st_connected = (Ret tt, st') /\
    conns (snd st') !! 0%nat = Some c' /\
    items (view c') = Some rows' /\
    length rows' = 10%nat.
Proof.
  split; [reflexivity|]. split; [reflexivity|]. split; [reflexivity|].
  destruct (sample_catalog_not_idempotent ex_text_of_number
              ex_number_of_text never_fails counting 2 st_connected 0%nat
              (mk_conn fresh_db true) [] eq_refl eq_refl eq_refl)
    as (st' & c' & rows' & Hrun & _ & Hh & Hrows & Hlen & _).
  exists st', c', rows'. auto.
Defined.

(** * The further properties at concrete inputs *)

(** An environment in which SQLite refuses everything. *)
Definition always_fails (n : nat) : bool := true.

(** A source of one row. *)
Definition df_one : DataFrame := mk_frame 1 (<["title" := [PyStr "A"]]> ∅).

Lemma df_one_holds_text : holds_text df_one.
Proof.
  exists "title"%string, [PyStr "A"], "A"%string.
  split; [reflexivity | apply list_elem_of_here].
Qed.

Lemma df_one_numeric_years : numeric_years df_one.
Proof.
  intros name col s [->| ->] Hcol; vm_compute in Hcol; discriminate.
Qed.

Lemma st_connected_connected : connected 0 fresh_db st_connected.
Proof. split; [reflexivity|]. exists true. reflexivity. Qed.

Lemma st_connected_stores (P : DB -> Prop) :
  P fresh_db -> stores P st_connected.
Proof.
  intros HP. split; [exact HP|]. intros h c Hh. simpl in Hh.
  apply lookup_singleton_Some in Hh as [_ <-]. exact HP.
Qed.

(** Witness of X5: a new manager when SQLite refuses everything. *)
Lemma get_cursor_cannot_connect_witness :
  connection (fst st_fresh) = None /\
  always_fails (clock (snd st_fresh)) = true /\
  _get_cursor always_fails st_fresh =
    (Raise (PlainException "Could not establish connection to the database"),
     (fst st_fresh, tick (snd st_fresh))) /\
  insert_initial_data ex_text_of_number ex_number_of_text always_fails
    counting (CsvFrame df_one) st_fresh =
    (Ret tt, (fst st_fresh, tick (tick (snd st_fresh)))).
Proof.
  split; [reflexivity|]. split; [reflexivity|].
  pose proof (get_cursor_cannot_connect ex_text_of_number ex_number_of_text
                always_fails counting st_fresh eq_refl eq_refl) as H.
  cbv zeta in H. destruct H as (Hcur & _ & _ & _ & _ & _ & Hframe).
  split; [exact Hcur|]. apply Hframe; [discriminate | reflexivity].
Defined.

(** Witness of X6: [create_tables] on the connected manager. *)
Lemma create_tables_keeps_rows_witness :
  connected 0 fresh_db st_connected /\
  exists st',
    create_tables never_fails st_connected = (Ret tt, st') /\
    connected 0 fresh_db st'.
Proof.
  split; [exact st_connected_connected|].
  destruct (create_tables_keeps_rows never_fails st_connected 0 fresh_db
              st_connected_connected)
    as (st' & E & Hcon & _).
  exists st'. split; [exact E | exact Hcon].
Defined.

(** Witness of X7: the sample users on the connected manager. *)
Lemma user_names_stay_unique_witness :
  stores unique_names st_connected /\
  stores unique_names (snd (_create_sample_users never_fails st_connected)).
Proof.
  assert (Hst : stores unique_names st_connected).
  { apply st_connected_stores. intros rows [= <-]. constructor. }
  split; [exact Hst|].
  destruct (user_names_stay_unique ex_text_of_number ex_number_of_text
              never_fails counting st_connected Hst)
    as (_ & _ & Husers & _).
  exact Husers.
Defined.



(** Witness of X10: no user and no item on the connected manager. *)
Lemma sample_ratings_need_rows_witness :
  connected 0 fresh_db st_connected /\
  _create_sample_ratings ex_number_of_text never_fails counting st_connected =
    (Ret tt, st_connected).
Proof.
  split; [exact st_connected_connected|].
  apply (sample_ratings_need_rows ex_number_of_text never_fails counting
           st_connected 0 fresh_db st_connected_connected).
  reflexivity.
Defined.

(** Witness of X11: the sample users, twice, on the connected manager. *)
Lemma sample_users_added_once_witness :
  connected 0 fresh_db st_connected /\
  exists st1 st2,
    _create_sample_users never_fails st_connected = (Ret tt, st1) /\
    _create_sample_users never_fails st1 = (Ret tt, st2).
Proof.
  split; [exact st_connected_connected|].
  destruct (sample_users_added_once never_fails st_connected 0 fresh_db []
              st_connected_connected eq_refl)
    as (st1 & db1 & new & E1 & _ & _ & _ & _ & _ & _ & st2 & db2 & E2 & _).
  exists st1, st2. split; [exact E1 | exact E2].
Defined.

(** Witness of X12: a source of one row on the connected manager. *)
Lemma external_ingest_appends_witness :
  connected 0 fresh_db st_connected /\
  nrows df_one <> 0%nat /\
  holds_text df_one /\
  numeric_years df_one /\
  exists st' db' new,
    insert_initial_data ex_text_of_number ex_number_of_text never_fails
      counting (CsvFrame df_one) st_connected = (Ret tt, st') /\
    connected 0 db' st' /\
    items db' = Some new /\
    length new = 1%nat.
Proof.
  split; [exact st_connected_connected|]. split; [discriminate|].
  split; [exact df_one_holds_text|]. split; [exact df_one_numeric_years|].
  destruct (external_ingest_appends ex_text_of_number ex_number_of_text
              never_fails counting st_connected 0 fresh_db [] df_one
              st_connected_connected eq_refl)
    as (st' & db' & new & E & Hcon & Hitems & Hfields & _);
    [discriminate | exact df_one_holds_text | exact df_one_numeric_years |].
  exists st', db', new. split; [exact E|]. split; [exact Hcon|].
  split; [exact Hitems|].
  rewrite <- (length_map stored_fields), Hfields. reflexivity.
Defined.

(** Witness of X13: a frame of two rows; the first title is missing, and
    the years are a missing value and the float 1999.5. *)
Lemma clean_data_fills_witness :
  let df := mk_frame 2 (<["title" := [PyNone; PyStr "A"]]>
                        (<["year" := [PyNaN; PyFloat (3999 # 2)]]> ∅)) in
  df_empty df = false /\
  (forall col, columns df !! "year" = Some col ->
               numeric_column col = true) /\
  exists df',
    fst (clean_data ex_int_of_str ex_int_of_bytes ex_py_repr
           ex_int64_overflow (ObjFrame df) []) = Ret df' /\
    columns df' !! "title" = Some [PyStr "Unknown Title"; PyStr "A"] /\
    columns df' !! "year" = Some [PyInt 0; PyInt 1999].
Proof.
  intros df.
  assert (Hnum : forall col, columns df !! "year" = Some col ->
                             numeric_column col = true).
  { intros col Hcol. vm_compute in Hcol. injection Hcol as <-.
    reflexivity. }
  split; [reflexivity|]. split; [exact Hnum|].
  destruct (clean_data_fills ex_number_of_text ex_int_of_str ex_int_of_bytes
              ex_py_repr ex_int64_overflow df [] eq_refl Hnum)
    as (df' & E & _ & _ & Htitle & _ & _ & _ & Hyear & _).
  exists df'. split; [exact E|]. split; [rewrite Htitle; reflexivity|].
  destruct (Hyear [PyNaN; PyFloat (3999 # 2)] eq_refl) as [_ Hconv].
  rewrite (Hconv eq_refl). reflexivity.
Defined.

(** A year column that holds a missing value beside the integer 2^70:
    the cleaner raises the [OverflowError] of the conversion. *)
Example clean_data_overflow :
  let df := mk_frame 2 (<["year" := [PyNone; PyInt (2 ^ 70)]]> ∅) in
  fst (clean_data ex_int_of_str ex_int_of_bytes ex_py_repr ex_int64_overflow
         (ObjFrame df) []) =
    Raise (OverflowError (ex_int64_overflow (2 ^ 70))).
Proof. vm_compute. reflexivity. Qed.

(** Witness of X15: the sample catalog when SQLite refuses the commit. *)
Lemma sample_data_stops_without_commit_witness :
  connected 0 fresh_db st_connected /\
  exists st' db',
    _create_sample_data ex_text_of_number ex_number_of_text always_fails
      counting st_connected = (Ret tt, st') /\
    connected 0 db' st' /\
    users db' = Some [] /\
    disk (snd st') = fresh_db.
Proof.
  split; [exact st_connected_connected|].
  destruct (sample_data_stops_without_commit ex_text_of_number
              ex_number_of_text always_fails counting st_connected 0
              fresh_db st_connected_connected)
    as [_ Hstop].
  destruct (Hstop [] eq_refl eq_refl)
    as (st' & db' & new & E & Hcon & _ & _ & Hu & _ & Hd & _).
  exists st', db'. split; [exact E|]. split; [exact Hcon|].
  split; [exact Hu | exact Hd].
Defined.

(** Witness of X18: a whole initialisation, source missing. *)
Lemma initialize_database_from_nothing_witness :
  let w := mk_world empty_db ∅ 0 0 0 in
  reliable never_fails /\
  disk w = empty_db /\
  exists w' its,
    initialize_database ex_text_of_number ex_number_of_text never_fails
      counting CsvMissing w = (Ret tt, w') /\
    items (disk w') = Some its /\
    length its = 5%nat.
Proof.
  intros w. split; [exact never_fails_reliable|]. split; [reflexivity|].
  destruct (initialize_database_from_nothing ex_text_of_number
              ex_number_of_text never_fails counting w never_fails_reliable
              eq_refl)
    as (w' & us & its & rs & E & _ & _ & Hits & Hfields & _).
  exists w', its. split; [exact E|]. split; [exact Hits|].
  rewrite <- (length_map (item_fields)), Hfields. reflexivity.
Defined.

(** Witness of X19: a whole initialisation, source of one row. *)
Lemma initialize_database_from_source_witness :
  let w := mk_world empty_db ∅ 0 0 0 in
  reliable never_fails /\
  disk w = empty_db /\
  nrows df_one <> 0%nat /\
  holds_text df_one /\
  numeric_years df_one /\
  exists w' its,
    initialize_database ex_text_of_number ex_number_of_text never_fails
      counting (CsvFrame df_one) w = (Ret tt, w') /\
    items (disk w') = Some its /\
    length its = 1%nat /\
    ratings (disk w') = Some [].
Proof.
  intros w. split; [exact never_fails_reliable|]. split; [reflexivity|].
  split; [discriminate|].
  split; [exact df_one_holds_text|]. split; [exact df_one_numeric_years|].
  destruct (initialize_database_from_source ex_text_of_number
              ex_number_of_text never_fails counting w df_one
              never_fails_reliable eq_refl)
    as (w' & us & its & E & Hits & Hfields & _ & _ & Hr & _);
    [discriminate | exact df_one_holds_text | exact df_one_numeric_years |].
  exists w', its. split; [exact E|]. split; [exact Hits|].
  split; [|exact Hr].
  rewrite <- (length_map stored_fields), Hfields. reflexivity.
Defined.

(** Witness of X20: one user and one item, no rating yet. *)
Lemma sample_ratings_added_witness :
  reliable never_fails /\
  connected 0 db_one st_one /\
  exists st' added,
    _create_sample_ratings ex_number_of_text never_fails counting st_one =
      (Ret tt, st') /\
    ratings (disk (snd st')) = Some added /\
    length added = 1%nat.
Proof.
  assert (Hcon : connected 0 db_one st_one).
  { split; [reflexivity|]. exists true. reflexivity. }
  split; [exact never_fails_reliable|]. split; [exact Hcon|].
  destruct (sample_ratings_added ex_number_of_text never_fails counting
              st_one 0 db_one _ _ [] never_fails_reliable Hcon eq_refl
              eq_refl eq_refl)
    as (st' & added & E & _ & Hd & _ & Hlen).
  { discriminate. }
  { discriminate. }
  { apply NoDup_singleton. }
  { apply NoDup_singleton. }
  { intros r Hr. inversion Hr. }
  exists st', added. split; [exact E|]. rewrite Hd.
  split; [reflexivity | exact Hlen].
Defined.

(** Witness of X21: the sample catalog on the connected manager. *)
Lemma keys_stay_unique_witness :
  stores keyed st_connected /\
  stores keyed
    (snd (_create_sample_data ex_text_of_number ex_number_of_text
            never_fails counting st_connected)).
Proof.
  assert (Hst : stores keyed st_connected).
  { apply st_connected_stores. split; apply keys_ok_empty. }
  split; [exact Hst|].
  destruct (keys_stay_unique ex_text_of_number ex_number_of_text never_fails
              counting st_connected Hst)
    as (_ & _ & _ & _ & Hdata & _).
  exact Hdata.
Defined.

(** Witness of X22: initialisation, loading and cleaning in a row. *)
Lemma sample_catalog_loads_clean_witness :
  let w := mk_world empty_db ∅ 0 0 0 in
  reliable never_fails /\
  disk w = empty_db /\
  exists w' df,
    initialize_database ex_text_of_number ex_number_of_text never_fails
      counting CsvMissing w = (Ret tt, w') /\
    fst (load_data_from_db never_fails true
           (mk_manager "recommendations.db" None, w')) = Ret df /\
    fst (clean_data ex_int_of_str ex_int_of_bytes ex_py_repr
           ex_int64_overflow (ObjFrame df) []) = Ret df.
Proof.
  intros w. split; [exact never_fails_reliable|]. split; [reflexivity|].
  destruct (sample_catalog_loads_clean ex_text_of_number ex_number_of_text
              ex_int_of_str never_fails counting true ex_int_of_bytes
              ex_py_repr ex_int64_overflow w
              (mk_manager "recommendations.db" None) never_fails_reliable
              eq_refl)
    as (w' & df & E & Hload & _ & _ & Hclean).
  exists w', df. split; [exact E|]. split; [exact Hload | apply Hclean].
Defined.
